(** * Smart Storage Manager: a shallow embedding of the Python backend

    The development follows the three source files of the backend:
    - [disk_manager.py]     (class [DiskManager])     -> [Module DiskManager]
    - [snapraid_manager.py] (class [SnapRAIDManager]) -> [Module SnapRAIDManager]
    - [app.py]              (the progress sink)       -> [Module App]

    Everything the Python code does to the outside world (running a shell
    command, spawning the parity tool, touching a file, pushing a socket
    message, reading the clock) is an [Action].  A run of the program is a
    chronological [Trace] of actions; what the outside world answers to an
    action is given by a [Host], an arbitrary function of the history so far.
    Python exceptions are the [Raise] results of the monad [M].

    Modelling conventions
    - [str] is [string]; the text is taken to be ASCII as far as the
      character classes [\d], [\s], [strip()] and [lower()] are concerned
      (the bytes of a non-ASCII character are never digits or blanks).
    - a Python [float] is the rational ([Q]) it stands for.  The division by
      [1000] of [format_size] is rounded to the nearest float
      ([round_double]), since the rounding shows in the text displayed; the
      division by [1024**3] (exact on the sizes of disks), the percentage of
      a step and the value [parse_size] reads back are kept exact.
    - a [dict] with a fixed shape is a record; a [dict] whose keys depend on
      the run is a [gmap string PyVal]. *)

From Stdlib Require Import ZArith QArith Qround String Ascii List Lia Lqa Bool Qpower.
From Stdlib Require Import Sorted Permutation DecimalString DecimalN DecimalPos.
From stdpp Require Import gmap strings.
Import ListNotations.

Open Scope string_scope.
Open Scope list_scope.

(** ** Python values and truthiness *)

Inductive PyVal : Type :=
| PNone
| PBool (b : bool)
| PInt (z : Z)
| PFloat (q : Q)
| PStr (s : string).

(** [bool(v)], as used by [if v:]. *)
Definition truthy (v : PyVal) : bool :=
  match v with
  | PNone => false
  | PBool b => b
  | PInt z => negb (z =? 0)%Z
  | PFloat q => negb (Qeq_bool q 0%Q)
  | PStr s => negb (s =? "")
  end.

(** ** Python string operations *)

Module PyStr.

Definition nl : string := String "010" "".

Definition code (c : ascii) : N := N_of_ascii c.

(** [c.isspace()] on ASCII: TAB..CR, FS..US and the blank. *)
Definition is_space (c : ascii) : bool :=
  ((9 <=? code c) && (code c <=? 13) || (28 <=? code c) && (code c <=? 32))%N.

(** [\d] on ASCII. *)
Definition is_digit (c : ascii) : bool :=
  ((48 <=? code c) && (code c <=? 57))%N.

Definition digit_val (c : ascii) : N := (code c - 48)%N.

Fixpoint lstrip (s : string) : string :=
  match s with
  | String c s' => if is_space c then lstrip s' else s
  | EmptyString => EmptyString
  end.

Fixpoint rstrip (s : string) : string :=
  match s with
  | String c s' =>
      match rstrip s' with
      | EmptyString => if is_space c then EmptyString else String c EmptyString
      | r => String c r
      end
  | EmptyString => EmptyString
  end.

(** [s.strip()] *)
Definition strip (s : string) : string := rstrip (lstrip s).

(** [s.startswith(p)] *)
Fixpoint startswith (s p : string) {struct p} : bool :=
  match p, s with
  | EmptyString, _ => true
  | String a p', String b s' => Ascii.eqb a b && startswith s' p'
  | String _ _, EmptyString => false
  end.

(** [p in s] *)
Fixpoint contains (p s : string) : bool :=
  startswith s p ||
  match s with
  | String _ s' => contains p s'
  | EmptyString => false
  end.

Fixpoint last_char (s : string) : option ascii :=
  match s with
  | EmptyString => None
  | String c EmptyString => Some c
  | String _ s' => last_char s'
  end.

(** [s.endswith(c)] for a one-character suffix. *)
Definition endswith_char (s : string) (c : ascii) : bool :=
  match last_char s with
  | Some d => Ascii.eqb d c
  | None => false
  end.

(** [s.replace(old, new)] for a non-empty [old]: every occurrence, left to
    right, without overlap.  [skip] counts the characters of a replaced
    occurrence that are still to be dropped. *)
Fixpoint replace_from (old new s : string) (skip : nat) : string :=
  match s with
  | EmptyString => EmptyString
  | String c s' =>
      match skip with
      | S k => replace_from old new s' k
      | O =>
          if startswith s old
          then new +:+ replace_from old new s' (String.length old - 1)
          else String c (replace_from old new s' 0)
      end
  end.

Definition replace (s old new : string) : string := replace_from old new s 0.

(** [s.split(sep)] for a one-character separator. *)
Fixpoint split (s : string) (sep : ascii) : list string :=
  match s with
  | EmptyString => [EmptyString]
  | String c s' =>
      if Ascii.eqb c sep then EmptyString :: split s' sep
      else match split s' sep with
           | h :: t => String c h :: t
           | [] => [String c EmptyString]
           end
  end.

(** [sep.join(l)] *)
Fixpoint join (sep : string) (l : list string) : string :=
  match l with
  | [] => EmptyString
  | [x] => x
  | x :: l' => x +:+ sep +:+ join sep l'
  end.

Definition lower_char (c : ascii) : ascii :=
  if ((65 <=? code c) && (code c <=? 90))%N
  then ascii_of_N (code c + 32) else c.

(** [s.lower()] *)
Fixpoint lower (s : string) : string :=
  match s with
  | EmptyString => EmptyString
  | String c s' => String (lower_char c) (lower s')
  end.

(** The value of a run of decimal digits, most significant first. *)
Fixpoint digits_value (s : string) (acc : N) : N :=
  match s with
  | EmptyString => acc
  | String c s' => digits_value s' (acc * 10 + digit_val c)
  end.

(** Every character of [s] satisfies [p]. *)
Fixpoint all_of (p : ascii -> bool) (s : string) : bool :=
  match s with
  | EmptyString => true
  | String c s' => p c && all_of p s'
  end.

Definition all_digits : string -> bool := all_of is_digit.
Definition all_blanks : string -> bool := all_of is_space.

(** Digits of an [int] literal after the sign: at least one digit, single
    underscores only between digits. *)
Fixpoint int_body (s : string) (acc : N) (after_digit : bool) : option N :=
  match s with
  | EmptyString => if after_digit then Some acc else None
  | String c s' =>
      if is_digit c then int_body s' (acc * 10 + digit_val c) true
      else if Ascii.eqb c "_" && after_digit then int_body s' acc false
      else None
  end.

(** [int(s)]; [None] stands for [ValueError].  The limit CPython puts on the
    number of digits is not modelled. *)
Definition int (s : string) : option Z :=
  match strip s with
  | String "-" s' => option_map (fun n => Z.opp (Z.of_N n)) (int_body s' 0 false)
  | String "+" s' => option_map Z.of_N (int_body s' 0 false)
  | s' => option_map Z.of_N (int_body s' 0 false)
  end.

(** [str(n)] for a natural number. *)
Definition of_N (n : N) : string := NilZero.string_of_uint (N.to_uint n).
Definition of_nat (n : nat) : string := of_N (N.of_nat n).

(** [f.readline()] until end of file: the lines with their terminators. *)
Fixpoint readlines (s : string) : list string :=
  match s with
  | EmptyString => []
  | String c s' =>
      if Ascii.eqb c "010" then String c EmptyString :: readlines s'
      else match readlines s', s' with
           | h :: t, String _ _ => String c h :: t
           | _, _ => [String c EmptyString]
           end
  end.

(** [s.split()]: the runs of characters that are not whitespace. *)
Fixpoint split_ws (s : string) : list string :=
  match s with
  | EmptyString => []
  | String c s' =>
      if is_space c then split_ws s'
      else match s' with
           | String d _ =>
               if is_space d then String c EmptyString :: split_ws s'
               else match split_ws s' with
                    | w :: ws => String c w :: ws
                    | [] => [String c EmptyString]
                    end
           | EmptyString => [String c EmptyString]
           end
  end.

(** [s.rstrip(x)] for a one-character [x]. *)
Fixpoint rstrip_char (s : string) (x : ascii) : string :=
  match s with
  | String c s' =>
      match rstrip_char s' x with
      | EmptyString => if Ascii.eqb c x then EmptyString else String c EmptyString
      | r => String c r
      end
  | EmptyString => EmptyString
  end.

(** [s.split(sep)[-1]] *)
Definition last_field (s : string) (sep : ascii) : string :=
  List.last (split s sep) EmptyString.

(** [str(n)] for an integer. *)
Definition of_Z (z : Z) : string :=
  if (z <? 0)%Z then "-" +:+ of_N (Z.abs_N z) else of_N (Z.to_N z).

Fixpoint has_char (x : ascii) (s : string) : bool :=
  match s with
  | EmptyString => false
  | String c s' => Ascii.eqb c x || has_char x s'
  end.

Definition hex_digit (n : N) : ascii :=
  ascii_of_N (if (n <? 10)%N then 48 + n else 87 + n).

(** One character of [repr(s)] between the quotes [quote]: the quote and the
    backslash are escaped, TAB, LF and CR are written with their letter, the
    other control characters in hexadecimal. *)
Definition repr_char (quote c : ascii) : string :=
  if Ascii.eqb c quote || Ascii.eqb c "092" then String "092" (String c EmptyString)
  else if Ascii.eqb c "009" then String "092" "t"
  else if Ascii.eqb c "010" then String "092" "n"
  else if Ascii.eqb c "013" then String "092" "r"
  else if ((code c <? 32) || (code c =? 127))%N then
    String "092" (String "x" (String (hex_digit (code c / 16))
                                (String (hex_digit (code c mod 16)) EmptyString)))
  else String c EmptyString.

Fixpoint repr_body (quote : ascii) (s : string) : string :=
  match s with
  | EmptyString => EmptyString
  | String c s' => repr_char quote c +:+ repr_body quote s'
  end.

(** [repr(s)]: between double quotes when [s] has a single quote and no
    double quote, between single quotes otherwise. *)
Definition repr (s : string) : string :=
  let quote := if has_char "'" s && negb (has_char "034" s) then "034"%char else "'"%char in
  String quote (repr_body quote s) +:+ String quote EmptyString.

(** The message of the [ValueError] of [int(s)]: the literal is shown by its
    [repr], cut after 200 characters. *)
Definition int_error (s : string) : string :=
  "invalid literal for int() with base 10: " +:+ substring 0 200 (repr s).

End PyStr.

(** ** The outside world: actions, hosts and the effect monad *)

Inductive Action : Type :=
| Run (cmd : string)                               (* subprocess.run(cmd, shell=True, ...) *)
| Popen (cmd : string)                             (* subprocess.Popen(cmd, ...), run to its end *)
| ReadLine (line : string)                         (* process.stdout.readline(), [line] being next *)
| ReadFile (path : string)                         (* open(path, 'r').read() *)
| AppendFile (path text : string)                  (* open(path, 'a').write(text) *)
| WriteFile (path text : string)                   (* open(path, 'w').writelines(...) *)
| MakeDirs (path : string)                         (* os.makedirs(path, exist_ok=True) *)
| PathExists (path : string)                       (* os.path.exists(path) *)
| Now                                              (* datetime.now().isoformat() *)
| SocketEmit (event : string) (data : gmap string PyVal).  (* socketio.emit(event, data) *)

(** What the host answers: a process that ran to its end (exit status and the
    text of its standard output, standard error merged in for [Popen]; for
    a file or the clock, the text read), or an exception with its message.
    The output of a [Popen] process reaches the program line by line: each
    [ReadLine] either returns or raises, when the bytes the text layer has
    read from the pipe do not decode. *)
Inductive Outcome : Type :=
| Returned (returncode : Z) (stdout : string)
| Threw (msg : string).

Definition Trace : Type := list Action.
Definition Host : Type := Trace -> Action -> Outcome.

Inductive PyExn : Type :=
| Exception (msg : string)
| NameError (name : string)
| OSError (msg : string)
| IndexError.

Inductive Result (A : Type) : Type :=
| Ok (a : A)
| Raise (e : PyExn).
Arguments Ok {A} a.
Arguments Raise {A} e.

Definition M (A : Type) : Type := Host -> Trace -> Result A * Trace.

Definition ret {A} (a : A) : M A := fun _ t => (Ok a, t).

Definition bind {A B} (c : M A) (k : A -> M B) : M B :=
  fun h t =>
    match c h t with
    | (Ok a, t') => k a h t'
    | (Raise e, t') => (Raise e, t')
    end.

Definition raise {A} (e : PyExn) : M A := fun _ t => (Raise e, t).

(** Perform one action: the host answers from the history, the action is
    appended to the trace. *)
Definition perform (a : Action) : M Outcome := fun h t => (Ok (h t a), t ++ [a]).

Declare Scope py_scope.
Delimit Scope py_scope with py.
Notation "'do' x <- c ; k" := (bind c (fun x => k))
  (at level 10, x name, c at level 100, k at level 200) : py_scope.
Notation "'do' ' pat <- c ; k" := (bind c (fun x => match x with pat => k end))
  (at level 10, pat pattern, c at level 100, k at level 200) : py_scope.
Notation "'run' c ; k" := (bind c (fun _ => k))
  (at level 10, c at level 100, k at level 200) : py_scope.
Open Scope py_scope.

(** [for x in l: body(x)] *)
Fixpoint for_each {A} (l : list A) (body : A -> M unit) : M unit :=
  match l with
  | [] => ret tt
  | x :: l' => run body x; for_each l' body
  end.

(** [for x in l: acc = body(acc, x)] *)
Fixpoint for_fold {A S} (l : list A) (acc : S) (body : S -> A -> M S) : M S :=
  match l with
  | [] => ret acc
  | x :: l' => do acc' <- body acc x; for_fold l' acc' body
  end.

(** [[f(x) for x in l]] *)
Fixpoint map_m {A B} (f : A -> M B) (l : list A) : M (list B) :=
  match l with
  | [] => ret []
  | x :: l' => do y <- f x; do ys <- map_m f l'; ret (y :: ys)
  end.

(** A file or directory operation.  The exception of the host goes up as it
    is.  Its class is the host's (an [OSError] when a path cannot be made or
    opened, a [UnicodeDecodeError], which is a [ValueError], when what is
    read does not decode); no handler of the program tells the classes apart,
    so it is carried as [Exception] with its message. *)
Definition os_call (a : Action) : M string :=
  do o <- perform a;
  match o with
  | Returned _ out => ret out
  | Threw msg => raise (Exception msg)
  end.

(** [enumerate(l, start)] *)
Definition enumerate {A} (l : list A) (start : nat) : list (nat * A) :=
  combine (seq start (length l)) l.

(** A progress callback, [progress_callback(step, message, percentage)]. *)
Definition Callback : Type := string -> string -> PyVal -> M unit.

(** [if progress_callback: progress_callback(step, message, percentage)] *)
Definition notify (progress_callback : option Callback)
    (step message : string) (percentage : PyVal) : M unit :=
  match progress_callback with
  | Some f => f step message percentage
  | None => ret tt
  end.

(** [str(e)] *)
Definition exn_str (e : PyExn) : string :=
  match e with
  | Exception msg => msg
  | NameError name => "name '" +:+ name +:+ "' is not defined"
  | OSError msg => msg
  | IndexError => "list index out of range"
  end.

(** [try: c  except Exception as e: handler(e)]; every exception of the
    model is an [Exception]. *)
Definition try_except {A} (c : M A) (handler : PyExn -> M A) : M A :=
  fun h t =>
    match c h t with
    | (Ok a, t') => (Ok a, t')
    | (Raise e, t') => handler e h t'
    end.

(** [c], with its exception, if any, as a value. *)
Definition attempt {A} (c : M A) : M (Result A) :=
  fun h t => (Ok (fst (c h t)), snd (c h t)).

(** [d[k] = v] on a dictionary kept in insertion order: a key already there
    keeps its place. *)
Fixpoint dict_set {V} (k : string) (v : V) (d : list (string * V)) : list (string * V) :=
  match d with
  | [] => [(k, v)]
  | (k', v') :: d' => if k' =? k then (k, v) :: d' else (k', v') :: dict_set k v d'
  end.

(** ** Stable sorting, as [list.sort] and [sorted] with [reverse=True] *)

Definition Qltb (x y : Q) : bool := negb (Qle_bool y x).

Section StableSort.
Context {A : Type} (key : A -> Q).

(** [x] goes in front of the first element whose key is not greater. *)
Fixpoint insert_desc (x : A) (l : list A) : list A :=
  match l with
  | [] => [x]
  | y :: l' => if Qltb (key x) (key y) then y :: insert_desc x l' else x :: l
  end.

Definition sort_desc (l : list A) : list A := fold_right insert_desc [] l.
End StableSort.

(** ** disk_manager.py *)

Module DiskManager.

(** [__init__] *)
Definition excluded_types : list string := ["loop"; "zram"; "ram"].
Definition min_size_gb : Z := 10.

(** [run_command]: the exit status is never looked at, and an exception of
    [subprocess.run] becomes an ordinary return value. *)
Definition run_command (cmd : string) : M string :=
  do o <- perform (Run cmd);
  match o with
  | Returned _ stdout => ret (PyStr.strip stdout)
  | Threw msg => ret ("Error: " +:+ msg)
  end.

Definition get_system_disk : M string :=
  do system_disk <-
    run_command "df / | tail -1 | awk '{print $1}' | sed 's/[0-9]*$//' | sed 's|/dev/||'";
  if system_disk =? "" then
    run_command "df /boot | tail -1 | awk '{print $1}' | sed 's/[0-9]*$//' | sed 's|/dev/||'"
  else ret system_disk.

Definition is_usb_disk (disk_name : string) : M bool :=
  do result <- run_command
    ("udevadm info --query=property --name=/dev/" +:+ disk_name
     +:+ " 2>/dev/null | grep 'ID_BUS=usb'");
  ret (PyStr.contains "usb" (PyStr.lower result)).

(** [int(size_bytes) / (1024**3)], or [0] when [int] raises. *)
Definition get_disk_size_gb (disk_name : string) : M Q :=
  do size_bytes <- run_command
    ("lsblk -bdn -o SIZE /dev/" +:+ disk_name +:+ " 2>/dev/null");
  match PyStr.int size_bytes with
  | Some n => ret (inject_Z n / inject_Z (1024 ^ 3)%Z)%Q
  | None => ret 0%Q
  end.

Definition get_disk_type (disk_name : string) : M string :=
  do o <- perform (ReadFile ("/sys/block/" +:+ disk_name +:+ "/queue/rotational"));
  match o with
  | Returned _ content =>
      ret (if PyStr.strip content =? "1" then "HDD" else "SSD")
  | Threw _ => ret "Unknown"
  end.

Definition get_disk_model (disk_name : string) : M string :=
  do out <- run_command ("lsblk -dn -o MODEL /dev/" +:+ disk_name +:+ " 2>/dev/null");
  ret (PyStr.strip out).

Definition get_disk_serial (disk_name : string) : M string :=
  run_command
    ("udevadm info --query=property --name=/dev/" +:+ disk_name
     +:+ " 2>/dev/null | grep 'ID_SERIAL_SHORT=' | cut -d= -f2").

Definition is_mounted (disk_name : string) : M bool :=
  do result <- run_command ("mount | grep '^/dev/" +:+ disk_name +:+ "'");
  ret (negb (result =? "")).

Definition is_system_mount (disk_name : string) : M bool :=
  do result <- run_command
    ("mount | grep '^/dev/" +:+ disk_name +:+ "' | grep -E ' /boot | /home | /var | /usr '");
  ret (negb (result =? "")).

(** *** Display and parsing of sizes *)

(** The nearest integer, ties to even. *)
Definition round_half_even (x : Q) : Z :=
  let f := Qfloor x in
  match ((x - inject_Z f) ?= (1 # 2))%Q with
  | Lt => f
  | Gt => (f + 1)%Z
  | Eq => if Z.even f then f else (f + 1)%Z
  end.

(** [f"{x:.1f}"] *)
Definition fixed1 (x : Q) : string :=
  let tenths := Z.to_N (Z.abs (round_half_even (x * 10)%Q)) in
  (if Qltb x 0%Q then "-" else "")
  +:+ PyStr.of_N (tenths / 10)%N +:+ "." +:+ PyStr.of_N (tenths mod 10)%N.

(** [floor(log2 q)] for a positive [q]. *)
Definition ilog2 (q : Q) : Z :=
  if Qle_bool 1 q then Z.log2 (Qfloor q) else (- Z.log2_up (Qceiling (/ q)))%Z.

(** The float nearest to [q], ties to the even significand: a significand of
    53 bits, the exponent not below that of the subnormal numbers.  There is
    no largest float here: beyond it Python has [inf]. *)
Definition round_double (q : Q) : Q :=
  if Qeq_bool q 0 then 0%Q
  else
    let a := (if Qle_bool 0 q then q else - q)%Q in
    let e := Z.max (ilog2 a - 52) (-1074) in
    let m := round_half_even (a / Qpower 2 e) in
    ((if Qle_bool 0 q then inject_Z m else inject_Z (- m)) * Qpower 2 e)%Q.

(** [x / y] on floats. *)
Definition float_div (x y : Q) : Q := round_double (x / y).

Definition format_size (size_gb : Q) : string :=
  if Qle_bool 1000%Q size_gb then fixed1 (float_div size_gb 1000) +:+ " TB"
  else fixed1 size_gb +:+ " GB".

Definition is_numdot (c : ascii) : bool := PyStr.is_digit c || Ascii.eqb c ".".

Fixpoint take_numdot (s : string) : string :=
  match s with
  | String c s' => if is_numdot c then String c (take_numdot s') else EmptyString
  | EmptyString => EmptyString
  end.

(** [re.findall(r'[\d.]+', s)[0]]; [None] stands for [IndexError]. *)
Fixpoint first_numdot (s : string) : option string :=
  match s with
  | String c s' => if is_numdot c then Some (take_numdot s) else first_numdot s'
  | EmptyString => None
  end.

(** Split a run of digits and dots at its first dot. *)
Fixpoint split_dot (s : string) : string * option string :=
  match s with
  | EmptyString => (EmptyString, None)
  | String c s' =>
      if Ascii.eqb c "." then (EmptyString, Some s')
      else let '(i, f) := split_dot s' in (String c i, f)
  end.

(** [float(s)] for [s] made of digits and dots; [None] stands for
    [ValueError] (no digit at all, or more than one dot). *)
Definition float_of_numdot (s : string) : option Q :=
  match split_dot s with
  | (i, None) =>
      if PyStr.all_digits i && negb (i =? "")
      then Some (inject_Z (Z.of_N (PyStr.digits_value i 0))) else None
  | (i, Some f) =>
      if PyStr.all_digits i && PyStr.all_digits f && negb ((i +:+ f) =? "")
      then Some (inject_Z (Z.of_N (PyStr.digits_value (i +:+ f) 0))
                 / inject_Z (10 ^ Z.of_nat (String.length f))%Z)%Q
      else None
  end.

Definition parse_size (size_str : string) : Q :=
  match first_numdot size_str with
  | Some m =>
      match float_of_numdot m with
      | Some num => if PyStr.contains "TB" size_str then (num * 1000)%Q else num
      | None => 0%Q
      end
  | None => 0%Q
  end.

(** *** Inventory *)

(** The [disk_info] dictionary; the key ['reason'] is present only for an
    excluded disk. *)
Record DiskInfo : Type := {
  di_name : string;
  di_size : string;
  di_type : string;
  di_model : string;
  di_serial : string;
  di_mounted : bool;
  di_reason : option string
}.

Record Inventory : Type := {
  available : list DiskInfo;
  excluded : list DiskInfo;
  system_disk : string;
  count_available : nat;
  count_excluded : nat
}.

Definition reason_virtual : string := "جهاز افتراضي".
Definition reason_system : string := "قرص النظام".
Definition reason_usb : string := "قرص USB خارجي".
Definition reason_small : string :=
  "صغير جداً (< " +:+ PyStr.of_N (Z.to_N min_size_gb) +:+ "GB)".
Definition reason_system_mount : string := "مثبت على مجلدات النظام".

(** The [if] / [elif] chain of [detect_all_disks] that sets
    [excluded_reason]; a later test is run only when all earlier ones
    failed. *)
Definition excluded_reason (system_disk disk : string) : M (option string) :=
  if existsb (fun t => PyStr.startswith disk t) excluded_types then
    ret (Some reason_virtual)
  else if disk =? system_disk then
    ret (Some reason_system)
  else
    do usb <- is_usb_disk disk;
    if usb then ret (Some reason_usb)
    else
      do size_gb <- get_disk_size_gb disk;
      if Qltb size_gb (inject_Z min_size_gb) then ret (Some reason_small)
      else
        do sysmount <- is_system_mount disk;
        if sysmount then ret (Some reason_system_mount)
        else ret None.

(** One turn of the loop of [detect_all_disks] over a non-empty name. *)
Definition detect_one (system_disk : string)
    (acc : list DiskInfo * list DiskInfo) (disk : string)
    : M (list DiskInfo * list DiskInfo) :=
  if disk =? "" then ret acc
  else
    do reason <- excluded_reason system_disk disk;
    do size_gb <- get_disk_size_gb disk;
    do type <- get_disk_type disk;
    do model <- get_disk_model disk;
    do serial <- get_disk_serial disk;
    do mounted <- is_mounted disk;
    let disk_info := {|
      di_name := "/dev/" +:+ disk;
      di_size := format_size size_gb;
      di_type := type;
      di_model := model;
      di_serial := serial;
      di_mounted := mounted;
      di_reason := reason |} in
    match reason with
    | Some _ => ret (fst acc, snd acc ++ [disk_info])
    | None => ret (fst acc ++ [disk_info], snd acc)
    end.

Definition size_key (x : DiskInfo) : Q := parse_size (di_size x).

Definition detect_all_disks : M Inventory :=
  do system_disk <- get_system_disk;
  do out <- run_command "lsblk -dn -o NAME,TYPE | grep disk | awk '{print $1}'";
  let all_disks := PyStr.split out "010" in
  do acc <- for_fold all_disks ([], []) (detect_one system_disk);
  let available := sort_desc size_key (fst acc) in
  let excluded := snd acc in
  ret {| available := available;
         excluded := excluded;
         system_disk := "/dev/" +:+ system_disk;
         count_available := length available;
         count_excluded := length excluded |}.

(** *** Preparation of one disk *)

Definition prepare_disk (disk_name label : string)
    (progress_callback : option Callback) : M bool :=
  let disk := PyStr.replace disk_name "/dev/" "" in
  run notify progress_callback "preparing" ("تحضير " +:+ disk_name) (PInt 0);
  (* 1. unmount *)
  run run_command ("umount /dev/" +:+ disk +:+ "* 2>/dev/null");
  run notify progress_callback "wiping" "مسح البيانات القديمة" (PInt 20);
  (* 2. wipe *)
  run run_command ("wipefs -af /dev/" +:+ disk);
  run run_command ("dd if=/dev/zero of=/dev/" +:+ disk +:+ " bs=1M count=100 2>/dev/null");
  run notify progress_callback "partitioning" "إنشاء جدول تقسيم" (PInt 40);
  (* 3. GPT partition table *)
  run run_command ("parted -s /dev/" +:+ disk +:+ " mklabel gpt");
  run notify progress_callback "creating" "إنشاء partition" (PInt 60);
  (* 4. partition *)
  run run_command ("parted -s /dev/" +:+ disk +:+ " mkpart primary ext4 0% 100%");
  run run_command ("partprobe /dev/" +:+ disk);
  run run_command "sleep 2";
  run notify progress_callback "formatting" "تهيئة نظام الملفات" (PInt 80);
  (* 5. ext4 *)
  run run_command ("mkfs.ext4 -F -L " +:+ label +:+ " /dev/" +:+ disk +:+ "1");
  run notify progress_callback "complete" ("اكتمل تحضير " +:+ disk_name) (PInt 100);
  ret true.

(** *** Configuration *)

(** An element of [prepared_data]. *)
Record Prepared : Type := {
  pd_disk : string;
  pd_label : string;
  pd_number : nat
}.

Definition get_uuid (disk : string) : M string :=
  let disk_part := if PyStr.endswith_char disk "1" then disk else disk +:+ "1" in
  let cmd := "blkid -s UUID -o value " +:+ disk_part in
  run_command cmd.

Definition mount_options : string := "  ext4  defaults,noatime,nofail  0  2".

Definition setup_fstab (parity_disk : string) (data_disks : list Prepared) : M unit :=
  run os_call (MakeDirs "/mnt/parity");
  run for_each data_disks (fun disk_info =>
    run os_call (MakeDirs ("/mnt/disk" +:+ PyStr.of_nat (pd_number disk_info)));
    ret tt);
  run os_call (MakeDirs "/mnt/storage");
  do parity_uuid <- get_uuid parity_disk;
  do fstab_content <- os_call (ReadFile "/etc/fstab");
  let new_entries :=
    [PyStr.nl +:+ "# Smart Storage Manager";
     "UUID=" +:+ parity_uuid +:+ "  /mnt/parity" +:+ mount_options] in
  do new_entries <- for_fold data_disks new_entries (fun new_entries disk_info =>
    do disk_uuid <- get_uuid (pd_disk disk_info);
    ret (new_entries ++
         ["UUID=" +:+ disk_uuid +:+ "  /mnt/disk"
          +:+ PyStr.of_nat (pd_number disk_info) +:+ mount_options]));
  run os_call (AppendFile "/etc/fstab" (PyStr.join PyStr.nl new_entries));
  run run_command "mount -a";
  ret tt.

Definition mergerfs_line : string :=
  "/mnt/disk* /mnt/storage fuse.mergerfs defaults,allow_other,use_ino,cache.files=partial,dropcacheonclose=true,category.create=mfs,minfreespace=20G,fsname=mergerfs 0 0".

Definition setup_mergerfs : M unit :=
  run os_call (AppendFile "/etc/fstab" (PyStr.nl +:+ mergerfs_line +:+ PyStr.nl));
  run run_command "mount -a";
  ret tt.

Definition exclusions : list string :=
  ["exclude *.unrecoverable";
   "exclude /tmp/";
   "exclude /lost+found/";
   "exclude *.!sync";
   "exclude .AppleDouble";
   "exclude ._AppleDouble";
   "exclude .DS_Store";
   "exclude .Thumbs.db";
   "exclude .fseventsd";
   "exclude .Spotlight-V100";
   "exclude .TemporaryItems";
   "exclude .Trashes"].

Definition snapraid_config (data_disks : list Prepared) : list string :=
  let config :=
    ["# SnapRAID Configuration - Smart Storage Manager" +:+ PyStr.nl;
     "parity /mnt/parity/snapraid.parity" +:+ PyStr.nl;
     PyStr.nl +:+ "content /var/snapraid.content"] in
  let config := config ++
    map (fun disk_info =>
           "content /mnt/disk" +:+ PyStr.of_nat (pd_number disk_info)
           +:+ "/.snapraid.content") data_disks in
  let config := config ++ [PyStr.nl] in
  let config := config ++
    map (fun disk_info =>
           "data d" +:+ PyStr.of_nat (pd_number disk_info)
           +:+ " /mnt/disk" +:+ PyStr.of_nat (pd_number disk_info)) data_disks in
  let config := config ++ [PyStr.nl +:+ "# Exclusions"] in
  let config := config ++ map (fun e => e +:+ PyStr.nl) exclusions in
  let config := config ++ [PyStr.nl +:+ "block_size 256"] in
  config ++ [PyStr.nl +:+ "autosave 500" +:+ PyStr.nl].

Definition setup_snapraid_config (parity_disk : string)
    (data_disks : list Prepared) : M unit :=
  run os_call (WriteFile "/etc/snapraid.conf"
                 (fold_right String.append "" (snapraid_config data_disks)));
  ret tt.

(** *** Orchestration *)

Record SetupResult : Type := {
  sr_success : bool;
  sr_parity : string;
  sr_data_disks : list Prepared;
  sr_message : string
}.

(** [(current_step/total_steps)*100] *)
Definition percentage (current_step total_steps : nat) : PyVal :=
  PFloat ((inject_Z (Z.of_nat current_step) / inject_Z (Z.of_nat total_steps)) * 100)%Q.

(** [f'... ({current_step}/{total_steps})'] *)
Definition step_of (current_step total_steps : nat) : string :=
  " (" +:+ PyStr.of_nat current_step +:+ "/" +:+ PyStr.of_nat total_steps +:+ ")".

(** The body of the loop [for idx, disk in enumerate(data_disks, 1)] of
    [setup_manual], on the loop state [(current_step, prepared_data)]. *)
Definition prepare_data_disk (total_steps : nat)
    (progress_callback : option Callback)
    (state : nat * list Prepared) (item : nat * string)
    : M (nat * list Prepared) :=
  let '(current_step, prepared_data) := state in
  let '(idx, disk) := item in
  let current_step := current_step + 1 in
  run notify progress_callback "data"
        ("تحضير Data Disk " +:+ PyStr.of_nat idx
         +:+ step_of current_step total_steps)
        (percentage current_step total_steps);
  let label := "disk" +:+ PyStr.of_nat idx in
  run prepare_disk disk label progress_callback;
  ret (current_step,
       prepared_data ++ [{| pd_disk := disk; pd_label := label; pd_number := idx |}]).

Definition setup_manual (parity_disk : string) (data_disks : list string)
    (progress_callback : option Callback) : M SetupResult :=
  let total_steps := 1 + length data_disks + 3 in
  let current_step := 0 in
  (* parity *)
  let current_step := current_step + 1 in
  run notify progress_callback "parity"
        ("تحضير Parity" +:+ step_of current_step total_steps)
        (percentage current_step total_steps);
  run prepare_disk parity_disk "parity" progress_callback;
  (* data disks *)
  let prepared_data := [] in
  do state <- for_fold (enumerate data_disks 1) (current_step, prepared_data)
                (prepare_data_disk total_steps progress_callback);
  let '(current_step, prepared_data) := state in
  (* fstab *)
  let current_step := current_step + 1 in
  run notify progress_callback "fstab"
        ("إعداد fstab" +:+ step_of current_step total_steps)
        (percentage current_step total_steps);
  run setup_fstab parity_disk prepared_data;
  (* MergerFS *)
  let current_step := current_step + 1 in
  run notify progress_callback "mergerfs"
        ("إعداد MergerFS" +:+ step_of current_step total_steps)
        (percentage current_step total_steps);
  run setup_mergerfs;
  (* SnapRAID *)
  let current_step := current_step + 1 in
  run notify progress_callback "snapraid"
        ("إعداد SnapRAID" +:+ step_of current_step total_steps)
        (percentage current_step total_steps);
  run setup_snapraid_config parity_disk prepared_data;
  ret {| sr_success := true;
         sr_parity := parity_disk;
         sr_data_disks := prepared_data;
         sr_message := "تم الإعداد بنجاح" |}.

Definition setup_automatic (disk_list : list string)
    (progress_callback : option Callback) : M SetupResult :=
  if (length disk_list <? 2)%nat then raise (Exception "يجب توفير قرصين على الأقل")
  else
    do keys <- map_m (fun d => get_disk_size_gb (PyStr.replace d "/dev/" "")) disk_list;
    let sorted_disks := map fst (sort_desc snd (combine disk_list keys)) in
    match sorted_disks with
    | parity_disk :: data_disks => setup_manual parity_disk data_disks progress_callback
    | [] => raise IndexError
    end.


(** *** Details of one disk *)

(** An element of [info['partitions']]. *)
Record Partition : Type := {
  pt_name : string;
  pt_size : string;
  pt_fstype : string;
  pt_mountpoint : string
}.

Record DiskDetails : Type := {
  dd_name : string;
  dd_size : string;
  dd_type : string;
  dd_model : string;
  dd_serial : string;
  dd_mounted : bool;
  dd_partitions : list Partition;
  dd_health : string;
  dd_temperature : string
}.

(** The body of the loop [for part in partitions] of [get_disk_info]. *)
Definition add_partition (partitions : list Partition) (part : string) : list Partition :=
  if negb (part =? "") then
    let parts := PyStr.split_ws part in
    if (2 <=? length parts)%nat then
      partitions ++
        [{| pt_name := nth 0 parts "";
            pt_size := nth 1 parts "";
            pt_fstype := if (2 <? length parts)%nat then nth 2 parts "" else "";
            pt_mountpoint := if (3 <? length parts)%nat then nth 3 parts "" else "" |}]
    else partitions
  else partitions.

Definition get_disk_info (disk_name : string) : M DiskDetails :=
  let disk := PyStr.replace disk_name "/dev/" "" in
  do size_gb <- get_disk_size_gb disk;
  do type <- get_disk_type disk;
  do model <- get_disk_model disk;
  do serial <- get_disk_serial disk;
  do mounted <- is_mounted disk;
  (* partitions *)
  do listing <- run_command
    ("lsblk -ln -o NAME,SIZE,FSTYPE,MOUNTPOINT /dev/" +:+ disk +:+ " | tail -n +2");
  let partitions := fold_left add_partition (PyStr.split listing "010") [] in
  (* SMART health *)
  do health <- run_command
    ("smartctl -H /dev/" +:+ disk +:+ " 2>/dev/null | grep 'SMART overall-health'");
  (* temperature *)
  do temp <- run_command
    ("smartctl -A /dev/" +:+ disk
     +:+ " 2>/dev/null | grep Temperature_Celsius | awk '{print $10}'");
  ret {| dd_name := disk_name;
         dd_size := format_size size_gb;
         dd_type := type;
         dd_model := model;
         dd_serial := serial;
         dd_mounted := mounted;
         dd_partitions := partitions;
         dd_health := if PyStr.contains "PASSED" health then "PASSED" else "Unknown";
         dd_temperature := if negb (temp =? "") then temp +:+ "°C" else "N/A" |}.

(** *** Status of the array *)

(** [int(s)]; none of the handlers of the program tells its [ValueError]
    apart from any other exception. *)
Definition int_of (s : string) : M Z :=
  match PyStr.int s with
  | Some n => ret n
  | None => raise (Exception (PyStr.int_error s))
  end.

(** A value of [disks_status]. *)
Record Usage : Type := {
  us_size : string;
  us_used : string;
  us_available : string;
  us_usage : Z
}.

(** [disks_status] is kept in insertion order, as [check_health] goes
    through it. *)
Definition get_all_disks_status : M (list (string * Usage)) :=
  do out <- run_command "df -h | grep '/mnt/disk'";
  let mounted := PyStr.split out "010" in
  for_fold mounted [] (fun disks_status line =>
    if line =? "" then ret disks_status
    else
      let parts := PyStr.split_ws line in
      if (6 <=? length parts)%nat then
        let name := PyStr.last_field (nth 5 parts "") "/" in
        do usage <- int_of (PyStr.rstrip_char (nth 4 parts "") "%");
        ret (dict_set name
               {| us_size := nth 1 parts "";
                  us_used := nth 2 parts "";
                  us_available := nth 3 parts "";
                  us_usage := usage |} disks_status)
      else ret disks_status).

Definition get_mergerfs_status : M (gmap string PyVal) :=
  do result <- run_command "df -h /mnt/storage 2>/dev/null | tail -1";
  let unmounted : gmap string PyVal := <["mounted" := PBool false]> ∅ in
  if negb (result =? "") then
    let parts := PyStr.split_ws result in
    if (6 <=? length parts)%nat then
      do usage <- int_of (PyStr.rstrip_char (nth 4 parts "") "%");
      ret (<["usage" := PInt usage]>
             (<["available" := PStr (nth 3 parts "")]>
                (<["used" := PStr (nth 2 parts "")]>
                   (<["total" := PStr (nth 1 parts "")]>
                      (<["mounted" := PBool true]> ∅)))))
    else ret unmounted
  else ret unmounted.

Record Health : Type := {
  overall : string;
  issues : list string
}.

(** [health['issues'].append(issue); health['overall'] = 'warning'] *)
Definition add_issue (health : Health) (issue : string) : Health :=
  {| overall := "warning"; issues := issues health ++ [issue] |}.

Definition check_health : M Health :=
  let health := {| overall := "healthy"; issues := [] |} in
  (* the disks *)
  do listing <- run_command "ls /dev/sd? 2>/dev/null";
  let disks := PyStr.split_ws listing in
  do health <- for_fold disks health (fun health disk =>
    do smart_health <- run_command
      ("smartctl -H " +:+ disk +:+ " 2>/dev/null | grep 'SMART overall-health'");
    if negb (PyStr.contains "PASSED" smart_health)
    then ret (add_issue health (disk +:+ " - صحة SMART سيئة"))
    else ret health);
  (* the space *)
  do disks_status <- get_all_disks_status;
  for_fold disks_status health (fun health item =>
    let '(name, status) := item in
    if (90 <? us_usage status)%Z
    then ret (add_issue health
                (name +:+ " - ممتلئ بنسبة " +:+ PyStr.of_Z (us_usage status) +:+ "%"))
    else ret health).

(** *** Attributes *)

(** The attributes of a [DiskManager]: those [__init__] sets and the methods
    of the class. *)
Definition attributes : list string :=
  ["excluded_types"; "min_size_gb"; "run_command"; "get_system_disk"; "is_usb_disk";
   "get_disk_size_gb"; "get_disk_type"; "get_disk_model"; "get_disk_serial";
   "is_mounted"; "is_system_mount"; "detect_all_disks"; "format_size"; "parse_size";
   "get_disk_info"; "prepare_disk"; "setup_automatic"; "setup_manual"; "setup_fstab";
   "get_uuid"; "setup_mergerfs"; "setup_snapraid_config"; "get_all_disks_status";
   "get_mergerfs_status"; "check_health"].

(** [disk_manager.<name>]; the [AttributeError] is caught as any other
    exception. *)
Definition getattr (name : string) : M unit :=
  if existsb (String.eqb name) attributes then ret tt
  else raise (Exception ("'DiskManager' object has no attribute '" +:+ name +:+ "'")).

End DiskManager.

(** ** snapraid_manager.py *)

Module SnapRAIDManager.

(** The names bound in the module when a method runs: the three imports
    ([subprocess], [re], [datetime]) and the class.  In particular [os] is
    not among them, and it is not a builtin either. *)
Definition module_globals : list string :=
  ["subprocess"; "re"; "datetime"; "SnapRAIDManager"].

(** Evaluating a global name. *)
Definition load_global (name : string) : M unit :=
  if existsb (String.eqb name) module_globals then ret tt
  else raise (NameError name).

(** [__init__] *)
Definition snapraid_bin : string := "/usr/local/bin/snapraid".
Definition config_file : string := "/etc/snapraid.conf".

Definition run_command (cmd : string) : M string :=
  do o <- perform (Run cmd);
  match o with
  | Returned _ stdout => ret stdout
  | Threw msg => ret ("Error: " +:+ msg)
  end.

(** The [status] dictionary. *)
Record Status : Type := {
  configured : bool;
  protected : bool;
  files_count : N;
  changes : N;
  last_sync : option string
}.

(** *** The two regular expressions of [get_status] *)

(** The longest prefix whose characters satisfy [p], and what follows. *)
Fixpoint span (p : ascii -> bool) (s : string) : string * string :=
  match s with
  | String c s' =>
      if p c then let '(a, b) := span p s' in (String c a, b)
      else (EmptyString, s)
  | EmptyString => (EmptyString, EmptyString)
  end.

(** A match of [(\d+)\s+(?:w1|w2|...)] at the very start of [s]: the value
    of group 1 and the length of the match.  Both repetitions are greedy
    and giving characters back never helps: what follows the digits must
    be a blank, and what follows the blanks must be a letter. *)
Definition match_here (words : list string) (s : string) : option (N * nat) :=
  let '(digits, rest) := span PyStr.is_digit s in
  let '(blanks, rest) := span PyStr.is_space rest in
  if (digits =? "") || (blanks =? "") then None
  else
    match find (PyStr.startswith rest) words with
    | Some w =>
        Some (PyStr.digits_value digits 0,
              String.length digits + String.length blanks + String.length w)
    | None => None
    end.

(** [re.findall]: the matches from left to right, without overlap; group 1
    of each, already through [int].  [skip] counts the characters of the
    last match that are still to be passed. *)
Fixpoint findall_from (words : list string) (s : string) (skip : nat) : list N :=
  match s with
  | EmptyString => []
  | String _ s' =>
      match skip with
      | S k => findall_from words s' k
      | O =>
          match match_here words s with
          | Some (n, len) => n :: findall_from words s' (len - 1)
          | None => findall_from words s' 0
          end
      end
  end.

Definition findall (words : list string) (s : string) : list N :=
  findall_from words s 0.

(** [re.search]: the leftmost match, group 1 through [int]. *)
Fixpoint search (words : list string) (s : string) : option N :=
  match match_here words s with
  | Some (n, _) => Some n
  | None =>
      match s with
      | String _ s' => search words s'
      | EmptyString => None
      end
  end.

Definition change_words : list string := ["added"; "removed"; "updated"].
Definition files_words : list string := ["files"].

(** Lines 39 to 53 of [get_status]: the analysis of the tool's output,
    starting from the initial [status]. *)
Definition get_status_parse (output : string) (status : Status) : Status :=
  let status :=
    if PyStr.contains "No differences" output then
      {| configured := configured status; protected := true;
         files_count := files_count status; changes := 0;
         last_sync := last_sync status |}
    else
      let changes := findall change_words output in
      {| configured := configured status; protected := protected status;
         files_count := files_count status;
         changes := fold_right N.add 0%N changes;
         last_sync := last_sync status |} in
  match search files_words output with
  | Some n =>
      {| configured := configured status; protected := protected status;
         files_count := n; changes := changes status;
         last_sync := last_sync status |}
  | None => status
  end.

(** [os.path.exists(path)], once the name [os] has been looked up. *)
Definition os_path_exists (path : string) : M bool :=
  run load_global "os";
  do o <- perform (PathExists path);
  match o with
  | Returned returncode _ => ret (returncode =? 0)%Z
  | Threw _ => ret false
  end.

(** The [status] dictionary as [get_status] first builds it. *)
Definition initial_status (configured : bool) : Status :=
  {| configured := configured; protected := false;
     files_count := 0; changes := 0; last_sync := None |}.

Definition get_status : M Status :=
  do output <- run_command (snapraid_bin +:+ " status");
  do configured <- os_path_exists config_file;
  let status := initial_status configured in
  ret (get_status_parse output status).

(** *** Streaming *)

(** [datetime.now().isoformat()]; reading the clock cannot fail. *)
Definition now : M string :=
  do o <- perform Now;
  match o with
  | Returned _ text => ret text
  | Threw text => ret text
  end.

(** A yielded dictionary. *)
Definition line_event (type line timestamp : string) : gmap string PyVal :=
  <["timestamp" := PStr timestamp]>
    (<["message" := PStr (PyStr.strip line)]> (<["type" := PStr type]> ∅)).

Definition final_event (type message : string) (success : bool) : gmap string PyVal :=
  <["success" := PBool success]>
    (<["message" := PStr message]> (<["type" := PStr type]> ∅)).

(** What a generator gives to a consumer that takes every item: the items,
    in order, and the exception that ended the iteration, if one did. *)
Definition Generated : Type := (list (gmap string PyVal) * option PyExn)%type.

(** [process.stdout.readline()], [line] being the next line of the output.
    The text layer decodes the bytes of the pipe as they come; when they do
    not decode the read raises [UnicodeDecodeError], a [ValueError], carried
    as [Exception] with its message. *)
Definition readline (line : string) : M string :=
  do o <- perform (ReadLine line);
  match o with
  | Returned _ _ => ret line
  | Threw msg => raise (Exception msg)
  end.

(** The loop [for line in iter(process.stdout.readline, ''): if line: yield ...]
    over the lines the process wrote, after [yielded]: the dictionaries
    yielded, in order, and the exception of the read that stopped the loop,
    if one did. *)
Fixpoint stream_lines (type : string) (lines : list string)
    (yielded : list (gmap string PyVal)) : M Generated :=
  match lines with
  | [] => ret (yielded, None)
  | line :: lines' =>
      do read <- attempt (readline line);
      match read with
      | Raise e => ret (yielded, Some e)
      | Ok line =>
          if negb (line =? "") then
            do timestamp <- now;
            stream_lines type lines' (yielded ++ [line_event type line timestamp])
          else stream_lines type lines' yielded
      end
  end.

Definition sync_with_progress : M Generated :=
  do o <- perform (Popen (snapraid_bin +:+ " sync"));
  match o with
  | Threw msg => ret ([], Some (OSError msg))
  | Returned returncode stdout =>
      do generated <- stream_lines "sync" (PyStr.readlines stdout) [];
      match generated with
      | (yielded, Some e) => ret (yielded, Some e)
      | (yielded, None) =>
          if (returncode =? 0)%Z then
            ret (yielded ++ [final_event "complete" "اكتمل Sync بنجاح" true], None)
          else
            ret (yielded ++ [final_event "error" "فشل Sync" false], None)
      end
  end.

Definition scrub_with_progress : M Generated :=
  do o <- perform (Popen (snapraid_bin +:+ " scrub -p 10"));
  match o with
  | Threw msg => ret ([], Some (OSError msg))
  | Returned returncode stdout =>
      do generated <- stream_lines "scrub" (PyStr.readlines stdout) [];
      match generated with
      | (yielded, Some e) => ret (yielded, Some e)
      | (yielded, None) =>
          ret (yielded ++ [final_event "complete" "اكتمل Scrub" (returncode =? 0)%Z], None)
      end
  end.

(** *** The detailed status *)

Record DetailedStatus : Type := {
  raw_output : string;
  summary : Status
}.

Definition get_detailed_status : M DetailedStatus :=
  do output <- run_command (snapraid_bin +:+ " status");
  do summary <- get_status;
  ret {| raw_output := output; summary := summary |}.

(** *** The generators under a [for] loop *)

(** [for progress in <the lines of the process>: body(progress)]: the
    generator runs between the iterations, so a line is read, and the clock
    after it, right before the body is run on the line; a read that raises
    ends the loop after the bodies already run. *)
Definition for_stream_lines (type stdout : string)
    (body : gmap string PyVal -> M unit) : M unit :=
  for_each (PyStr.readlines stdout) (fun line =>
    do line <- readline line;
    if negb (line =? "") then
      do timestamp <- now;
      body (line_event type line timestamp)
    else ret tt).

(** [for progress in self.sync_with_progress(): body(progress)] *)
Definition for_sync_with_progress (body : gmap string PyVal -> M unit) : M unit :=
  do o <- perform (Popen (snapraid_bin +:+ " sync"));
  match o with
  | Threw msg => raise (OSError msg)
  | Returned returncode stdout =>
      run for_stream_lines "sync" stdout body;
      if (returncode =? 0)%Z then
        body (final_event "complete" "اكتمل Sync بنجاح" true)
      else
        body (final_event "error" "فشل Sync" false)
  end.

(** [for progress in self.scrub_with_progress(): body(progress)] *)
Definition for_scrub_with_progress (body : gmap string PyVal -> M unit) : M unit :=
  do o <- perform (Popen (snapraid_bin +:+ " scrub -p 10"));
  match o with
  | Threw msg => raise (OSError msg)
  | Returned returncode stdout =>
      run for_stream_lines "scrub" stdout body;
      body (final_event "complete" "اكتمل Scrub" (returncode =? 0)%Z)
  end.

End SnapRAIDManager.

(** ** app.py: the progress sink *)

Module App.

(** [emit_progress(step, message, percentage=None)]; [socketio.emit] hands
    the message to the transport and returns. *)
(** The dictionary [data] built by [emit_progress]. *)
Definition progress_data (step message : string) (percentage : PyVal)
    : gmap string PyVal :=
  let data := <["message" := PStr message]> (<["step" := PStr step]> ∅) in
  if truthy percentage then <["percentage" := percentage]> data else data.

Definition emit_progress : Callback := fun step message percentage =>
  run perform (SocketEmit "operation_progress" (progress_data step message percentage));
  ret tt.


(** *** Responses *)

(** [socketio.emit(event, data)] *)
Definition socket_emit (event : string) (data : gmap string PyVal) : M unit :=
  run perform (SocketEmit event data);
  ret tt.

(** What a route returns: [jsonify(body), status], or
    [jsonify({"error": error}), status]. *)
Inductive Response (A : Type) : Type :=
| Json (body : A) (status : Z)
| JsonError (error : string) (status : Z).
Arguments Json {A} body status.
Arguments JsonError {A} error status.

Definition status_code {A} (r : Response A) : Z :=
  match r with
  | Json _ status => status
  | JsonError _ status => status
  end.

(** [try: return jsonify(c()), 200  except Exception as e: return
    jsonify({"error": str(e)}), 500]; what goes to the log is left out. *)
Definition respond {A} (c : M A) : M (Response A) :=
  try_except (do result <- c; ret (Json result 200))
    (fun e => ret (JsonError (exn_str e) 500)).

(** *** Routes *)

(** [GET /api/disks/detect] *)
Definition detect_disks : M (Response DiskManager.Inventory) :=
  respond DiskManager.detect_all_disks.

(** [GET /api/disks/info/<disk_name>] *)
Definition get_disk_info (disk_name : string) : M (Response DiskManager.DiskDetails) :=
  respond (DiskManager.get_disk_info disk_name).

(** [{'step': step, 'message': message}] *)
Definition setup_data (step message : string) : gmap string PyVal :=
  <["message" := PStr message]> (<["step" := PStr step]> ∅).

(** [POST /api/setup/auto], on a request whose body is a JSON object;
    [disks] is its member 'disks', a list of strings when it is there. *)
Definition setup_auto (disks : option (list string))
    : M (Response DiskManager.SetupResult) :=
  try_except
    (let disks := match disks with Some l => l | None => [] end in
     run socket_emit "setup_progress" (setup_data "start" "بدء الإعداد...");
     do result <- DiskManager.setup_automatic disks (Some emit_progress);
     run socket_emit "setup_progress" (setup_data "complete" "اكتمل الإعداد!");
     ret (Json result 200))
    (fun e =>
       run socket_emit "setup_progress" (setup_data "error" (exn_str e));
       ret (JsonError (exn_str e) 500)).

(** The body of the answer of [GET /api/status]. *)
Record SystemStatus : Type := {
  st_disks : list (string * DiskManager.Usage);
  st_mergerfs : gmap string PyVal;
  st_snapraid : SnapRAIDManager.Status;
  st_health : DiskManager.Health
}.

(** [GET /api/status] *)
Definition get_status : M (Response SystemStatus) :=
  respond
    (do disks <- DiskManager.get_all_disks_status;
     do mergerfs <- DiskManager.get_mergerfs_status;
     do snapraid <- SnapRAIDManager.get_status;
     do health <- DiskManager.check_health;
     ret {| st_disks := disks; st_mergerfs := mergerfs;
            st_snapraid := snapraid; st_health := health |}).

(** [GET /api/storage/usage]: the method is looked up on the manager, then
    called. *)
Definition get_storage_usage : M (Response unit) :=
  respond (DiskManager.getattr "get_storage_usage").

(** [GET /api/settings] *)
Definition get_settings : M (Response unit) :=
  respond (DiskManager.getattr "get_settings").

(** [GET /api/snapraid/status] *)
Definition snapraid_status : M (Response SnapRAIDManager.DetailedStatus) :=
  respond SnapRAIDManager.get_detailed_status.

(** *** Background tasks *)

(** [{'error': str(e)}] *)
Definition error_data (e : PyExn) : gmap string PyVal :=
  <["error" := PStr (exn_str e)]> ∅.

Definition run_snapraid_sync : M unit :=
  try_except
    (SnapRAIDManager.for_sync_with_progress (fun progress =>
       socket_emit "snapraid_progress" progress))
    (fun e => socket_emit "snapraid_error" (error_data e)).

Definition run_snapraid_scrub : M unit :=
  try_except
    (SnapRAIDManager.for_scrub_with_progress (fun progress =>
       socket_emit "snapraid_progress" progress))
    (fun e => socket_emit "snapraid_error" (error_data e)).

Definition scheduled_maintenance : M unit :=
  run socket_emit "maintenance_start"
        (<["message" := PStr "بدأت الصيانة التلقائية"]> ∅);
  try_except
    (do health <- DiskManager.check_health;
     do status <- SnapRAIDManager.get_status;
     run (if (0 <? SnapRAIDManager.changes status)%N then run_snapraid_sync else ret tt);
     socket_emit "maintenance_complete" (<["message" := PStr "اكتملت الصيانة"]> ∅))
    (fun e => socket_emit "maintenance_error" (error_data e)).

End App.

(** ** Observations on traces and hosts *)

(** The text [DiskManager.run_command] returns for [cmd] after history [t]. *)
Definition command_output (h : Host) (t : Trace) (cmd : string) : string :=
  match h t (Run cmd) with
  | Returned _ stdout => PyStr.strip stdout
  | Threw msg => "Error: " +:+ msg
  end.

(** A stage command fails when the process ends with a non-zero status or
    [subprocess.run] raises (for instance on its 30 s timeout). *)
Definition command_failed (o : Outcome) : bool :=
  match o with
  | Returned returncode _ => negb (returncode =? 0)%Z
  | Threw _ => true
  end.

(** The dictionaries pushed to the clients, in order of delivery. *)
Fixpoint delivered (t : Trace) : list (gmap string PyVal) :=
  match t with
  | [] => []
  | SocketEmit _ data :: t' => data :: delivered t'
  | _ :: t' => delivered t'
  end.

(** The shell commands run, in order. *)
Fixpoint commands (t : Trace) : list string :=
  match t with
  | [] => []
  | Run cmd :: t' => cmd :: commands t'
  | _ :: t' => commands t'
  end.

(** The percentage carried by a delivered dictionary, if any. *)
Definition percentage_of (data : gmap string PyVal) : option Q :=
  match data !! "percentage" with
  | Some (PFloat q) => Some q
  | Some (PInt z) => Some (inject_Z z)
  | _ => None
  end.

Definition step_of_data (data : gmap string PyVal) : string :=
  match data !! "step" with
  | Some (PStr s) => s
  | _ => ""
  end.

(** The steps announced by [setup_manual] itself. *)
Definition orchestrator_steps : list string :=
  ["parity"; "data"; "fstab"; "mergerfs"; "snapraid"].

Definition is_orchestrator_event (data : gmap string PyVal) : bool :=
  existsb (String.eqb (step_of_data data)) orchestrator_steps.

(** A host that answers from the action alone, whatever happened before. *)
Definition const_host (facts : Action -> Outcome) : Host := fun _ a => facts a.

(** A host on which every command succeeds silently. *)
Definition quiet_host : Host := fun _ _ => Returned 0 "".

(** The script of [prepare_disk]: what it reports and what it runs. *)
Inductive Stage : Type :=
| Report (step message : string) (percentage : Z)
| Command (cmd : string).

Definition prepare_script (disk_name label : string) : list Stage :=
  let disk := PyStr.replace disk_name "/dev/" "" in
  [ Report "preparing" ("تحضير " +:+ disk_name) 0;
    Command ("umount /dev/" +:+ disk +:+ "* 2>/dev/null");
    Report "wiping" "مسح البيانات القديمة" 20;
    Command ("wipefs -af /dev/" +:+ disk);
    Command ("dd if=/dev/zero of=/dev/" +:+ disk +:+ " bs=1M count=100 2>/dev/null");
    Report "partitioning" "إنشاء جدول تقسيم" 40;
    Command ("parted -s /dev/" +:+ disk +:+ " mklabel gpt");
    Report "creating" "إنشاء partition" 60;
    Command ("parted -s /dev/" +:+ disk +:+ " mkpart primary ext4 0% 100%");
    Command ("partprobe /dev/" +:+ disk);
    Command "sleep 2";
    Report "formatting" "تهيئة نظام الملفات" 80;
    Command ("mkfs.ext4 -F -L " +:+ label +:+ " /dev/" +:+ disk +:+ "1");
    Report "complete" ("اكتمل تحضير " +:+ disk_name) 100 ].

(** The actions of the script, with or without a sink. *)
Definition script_actions (sink : bool) (script : list Stage) : list Action :=
  flat_map (fun s =>
    match s with
    | Report step message p =>
        if sink
        then [SocketEmit "operation_progress" (App.progress_data step message (PInt p))]
        else []
    | Command cmd => [Run cmd]
    end) script.

Definition sink_of (sink : bool) : option Callback :=
  if sink then Some App.emit_progress else None.

(** What [setup_manual] announces for step [k] of [total]. *)
Definition step_event (step message : string) (k total : nat) : gmap string PyVal :=
  App.progress_data step (message +:+ DiskManager.step_of k total)
    (DiskManager.percentage k total).

(** What [prepare_disk] reports for one disk. *)
Definition stage_events (disk_name label : string) : list (gmap string PyVal) :=
  delivered (script_actions true (prepare_script disk_name label)).

(** The actions of the loop over the data disks, numbered from [idx], after
    [current_step] steps: for each disk the announcement, then the script. *)
Fixpoint data_actions (total idx current_step : nat) (disks : list string)
    : list Action :=
  match disks with
  | [] => []
  | disk :: disks' =>
      SocketEmit "operation_progress"
        (step_event "data" ("تحضير Data Disk " +:+ PyStr.of_nat idx) (S current_step) total)
      :: script_actions true (prepare_script disk ("disk" +:+ PyStr.of_nat idx))
      ++ data_actions total (S idx) (S current_step) disks'
  end.

(** The events of the loop over the data disks, numbered from [idx], after
    [current_step] steps. *)
Fixpoint data_events (total idx current_step : nat) (disks : list string)
    : list (gmap string PyVal) :=
  match disks with
  | [] => []
  | disk :: disks' =>
      step_event "data" ("تحضير Data Disk " +:+ PyStr.of_nat idx) (S current_step) total
      :: stage_events disk ("disk" +:+ PyStr.of_nat idx)
      ++ data_events total (S idx) (S current_step) disks'
  end.

Fixpoint prepared_from (idx : nat) (disks : list string) : list DiskManager.Prepared :=
  match disks with
  | [] => []
  | disk :: disks' =>
      {| DiskManager.pd_disk := disk;
         DiskManager.pd_label := "disk" +:+ PyStr.of_nat idx;
         DiskManager.pd_number := idx |} :: prepared_from (S idx) disks'
  end.

(** Everything a complete run of [setup_manual] pushes to the clients. *)
Definition orchestration_events (parity_disk : string) (data_disks : list string)
    : list (gmap string PyVal) :=
  let n := length data_disks in
  let total := 1 + n + 3 in
  step_event "parity" "تحضير Parity" 1 total
  :: stage_events parity_disk "parity"
  ++ data_events total 1 1 data_disks
  ++ [ step_event "fstab" "إعداد fstab" (n + 2) total;
       step_event "mergerfs" "إعداد MergerFS" (n + 3) total;
       step_event "snapraid" "إعداد SnapRAID" (n + 4) total ].

(** The value of [(k/total)*100]. *)
Definition step_percentage (k total : nat) : Q :=
  (inject_Z (Z.of_nat k) / inject_Z (Z.of_nat total) * 100)%Q.

(** A host on which wiping [/dev/sdb] fails and everything else succeeds. *)
Definition wipefs_fails : Host := fun _ a =>
  match a with
  | Run cmd => if cmd =? "wipefs -af /dev/sdb" then Returned 1 "" else Returned 0 ""
  | _ => Returned 0 ""
  end.

(** A complete run on a parity disk and two data disks. *)
Definition three_disk_run : Result DiskManager.SetupResult * Trace :=
  DiskManager.setup_manual "/dev/sda" ["/dev/sdb"; "/dev/sdc"]
    (Some App.emit_progress) quiet_host [].

(** *** Occurrences of the patterns of [get_status], declaratively *)

(** [s] starts with an occurrence of [\d+\s+(?:w1|w2|...)]: a non-empty run of
    digits of value [n], a non-empty run of blanks, one of the words. *)
Definition occurs_here (words : list string) (s : string) (n : N) : Prop :=
  exists digits blanks w rest,
    s = digits +:+ blanks +:+ w +:+ rest
    /\ digits <> "" /\ PyStr.all_digits digits = true
    /\ blanks <> "" /\ PyStr.all_blanks blanks = true
    /\ In w words
    /\ n = PyStr.digits_value digits 0.

(** A word that does not start with a blank (the words of both patterns
    start with a letter). *)
Definition starts_with_letter (w : string) : Prop :=
  exists c w', w = String c w' /\ PyStr.is_space c = false.

(** [s] without its first [k] characters. *)
Fixpoint drop (k : nat) (s : string) : string :=
  match k, s with
  | S k', String _ s' => drop k' s'
  | _, _ => s
  end.

(** A parity tool that prints a blank line between two lines of text and
    ends with status 0, under a clock that always shows the same time. *)
Definition blank_line_host : Host := fun _ a =>
  match a with
  | Popen _ => Returned 0 ("scanning" +:+ PyStr.nl +:+ PyStr.nl +:+ "done" +:+ PyStr.nl)
  | Now => Returned 0 "2026-01-01T00:00:00"
  | _ => Returned 0 ""
  end.

(** The message carried by a yielded dictionary. *)
Definition message_of (data : gmap string PyVal) : string :=
  match data !! "message" with
  | Some (PStr s) => s
  | _ => ""
  end.

Definition type_of (data : gmap string PyVal) : string :=
  match data !! "type" with
  | Some (PStr s) => s
  | _ => ""
  end.

(** A parity tool that prints three lines and ends with status 0. *)
Definition three_line_host : Host := fun _ a =>
  match a with
  | Popen _ => Returned 0 ("a" +:+ PyStr.nl +:+ "b" +:+ PyStr.nl +:+ "c" +:+ PyStr.nl)
  | Now => Returned 0 "2026-01-01T00:00:00"
  | _ => Returned 0 ""
  end.

(** The two operations of the parity adapter. *)
Inductive Operation : Type := Sync | Scrub.

Definition adapter (op : Operation) : M SnapRAIDManager.Generated :=
  match op with
  | Sync => SnapRAIDManager.sync_with_progress
  | Scrub => SnapRAIDManager.scrub_with_progress
  end.

Definition command_of (op : Operation) : string :=
  match op with
  | Sync => "/usr/local/bin/snapraid sync"
  | Scrub => "/usr/local/bin/snapraid scrub -p 10"
  end.

Definition type_name (op : Operation) : string :=
  match op with Sync => "sync" | Scrub => "scrub" end.

(** The dictionary yielded last, for a process that ended with [returncode]. *)
Definition final_of (op : Operation) (returncode : Z) : gmap string PyVal :=
  match op with
  | Sync =>
      if (returncode =? 0)%Z
      then SnapRAIDManager.final_event "complete" "اكتمل Sync بنجاح" true
      else SnapRAIDManager.final_event "error" "فشل Sync" false
  | Scrub =>
      SnapRAIDManager.final_event "complete" "اكتمل Scrub" (returncode =? 0)%Z
  end.

(** The value a computation returns, [default] if it raises. *)
Definition result_of {A} (default : A) (r : Result A * Trace) : A :=
  match fst r with
  | Ok a => a
  | Raise _ => default
  end.

(** Whether exclusion rule [k] (1 virtual device, 2 system disk, 3 external
    usb disk, 4 too small, 5 mounted on a system path) applies to [disk].
    Rules 3 to 5 ask the host; it is asked in the order of the rules,
    starting after history [t], as the chain of tests would if it got that
    far. *)
Definition rule_applies (h : Host) (t : Trace) (system_disk disk : string)
    (k : nat) : bool :=
  let usb := DiskManager.is_usb_disk disk h t in
  let size := DiskManager.get_disk_size_gb disk h (snd usb) in
  let mount := DiskManager.is_system_mount disk h (snd size) in
  match k with
  | 1 => existsb (fun t => PyStr.startswith disk t) DiskManager.excluded_types
  | 2 => disk =? system_disk
  | 3 => result_of false usb
  | 4 => Qltb (result_of 0%Q size) (inject_Z DiskManager.min_size_gb)
  | 5 => result_of false mount
  | _ => false
  end.

Definition rule_reason (k : nat) : string :=
  match k with
  | 1 => DiskManager.reason_virtual
  | 2 => DiskManager.reason_system
  | 3 => DiskManager.reason_usb
  | 4 => DiskManager.reason_small
  | _ => DiskManager.reason_system_mount
  end.

(** Facts of a host whose only disk [sda] holds 1 GiB. *)
Definition small_disk_facts : Action -> Outcome := fun a =>
  match a with
  | Run cmd =>
      if cmd =? "lsblk -bdn -o SIZE /dev/sda 2>/dev/null"
      then Returned 0 "1073741824"
      else Returned 0 ""
  | _ => Returned 0 ""
  end.

(** The command that enumerates the disks. *)
Definition list_disks_command : string :=
  "lsblk -dn -o NAME,TYPE | grep disk | awk '{print $1}'".

(** A host with the given disks, in enumeration order, each with its size in
    bytes; the system is on [nvme0n1], nothing is on USB or mounted. *)
Definition disks_host (disks : list (string * string)) : Host :=
  const_host (fun a =>
    match a with
    | Run cmd =>
        if cmd =? list_disks_command
        then Returned 0 (PyStr.join PyStr.nl (map fst disks))
        else if PyStr.startswith cmd "df /"
        then Returned 0 "nvme0n1p"
        else
          match find (fun d => cmd =? "lsblk -bdn -o SIZE /dev/" +:+ fst d +:+ " 2>/dev/null")
                  disks with
          | Some d => Returned 0 (snd d)
          | None => Returned 0 ""
          end
    | ReadFile _ => Returned 0 "1"
    | _ => Returned 0 ""
    end).

(** Two disks of 1010 GiB and 1040 GiB, the smaller one enumerated first. *)
Definition close_sizes_host : Host :=
  disks_host [("sda", "1084479242240"); ("sdb", "1116691496960")].

(** Three disks sold as 500 GB, 2 TB and 1 TB. *)
Definition three_sizes_host : Host :=
  disks_host [("sda", "500107862016"); ("sdb", "2000398934016"); ("sdc", "1000204886016")].

(** Descending order of the keys. *)
Definition key_ge {A} (key : A -> Q) (a b : A) : Prop := (key b <= key a)%Q.

(** The elements whose key equals [k], in the order of the list. *)
Definition with_key {A} (key : A -> Q) (k : Q) (l : list A) : list A :=
  List.filter (fun x => Qeq_bool (key x) k) l.

(** The command by which [get_uuid] asks for the UUID of [path]. *)
Definition blkid_command (path : string) : string :=
  "blkid -s UUID -o value " +:+ path.

(** The path [get_uuid] asks about for [disk]. *)
Definition queried_path (disk : string) : string :=
  if PyStr.endswith_char disk "1" then disk else disk +:+ "1".

(** A line of /etc/fstab written by [setup_fstab]. *)
Definition mount_entry (uuid mount_point : string) : string :=
  "UUID=" +:+ uuid +:+ "  " +:+ mount_point +:+ DiskManager.mount_options.

(** The text [setup_fstab] appends to /etc/fstab on a host that answers from
    [facts]: the UUID of each entry is what [blkid] prints for the queried
    path of the disk. *)
Definition fstab_text (facts : Action -> Outcome) (parity_disk : string)
    (data_disks : list DiskManager.Prepared) : string :=
  let uuid disk :=
    command_output (const_host facts) [] (blkid_command (queried_path disk)) in
  PyStr.join PyStr.nl
    ((PyStr.nl +:+ "# Smart Storage Manager")
     :: mount_entry (uuid parity_disk) "/mnt/parity"
     :: map (fun d => mount_entry (uuid (DiskManager.pd_disk d))
                        ("/mnt/disk" +:+ PyStr.of_nat (DiskManager.pd_number d)))
          data_disks).

(** A host on which [blkid] prints a UUID for the whole disk [/dev/nvme0n1]
    and for the partition [/dev/sdb1], and nothing for anything else. *)
Definition nvme_facts : Action -> Outcome := fun a =>
  match a with
  | Run cmd =>
      if cmd =? "blkid -s UUID -o value /dev/nvme0n1" then Returned 0 "0000-WHOLE"
      else if cmd =? "blkid -s UUID -o value /dev/sdb1" then Returned 0 "1111-PART"
      else Returned 0 ""
  | _ => Returned 0 ""
  end.



(** ** Predicates on computations *)

Definition quiet {A} (c : M A) : Prop :=
  forall h t, exists d, snd (c h t) = t ++ d /\ delivered d = [].

Definition is_emit (a : Action) : bool :=
  match a with SocketEmit _ _ => true | _ => false end.

Definition total {A} (c : M A) : Prop :=
  forall h t, exists a t', c h t = (Ok a, t').

(** ** Further observations *)

(** The names [detect_all_disks] classifies: the non-empty lines of the
    enumeration. *)
Definition classified_names (names : list string) : list string :=
  List.filter (fun disk => negb (disk =? "")) names.

(** Whatever the host answers, every action of the computation satisfies
    [allowed], what it returns satisfies [post], and what it raises
    satisfies [exn], on that host and with the trace the run ends with. *)
Definition runs_within {A} (allowed : Action -> bool) (post : A -> Prop)
    (exn : Host -> Trace -> PyExn -> Prop) (c : M A) : Prop :=
  forall h t, exists d,
    snd (c h t) = t ++ d /\ forallb allowed d = true
    /\ match fst (c h t) with
       | Ok a => post a
       | Raise e => exn h (t ++ d) e
       end.

(** The operations of [setup_manual] on directories and files. *)
Definition file_operation (a : Action) : bool :=
  match a with
  | MakeDirs _ | ReadFile _ | AppendFile _ _ | WriteFile _ _ => true
  | _ => false
  end.

(** The exception is the one the host answered to the last action of the
    trace, an operation on a directory or a file. *)
Definition refused (h : Host) (t : Trace) (e : PyExn) : Prop :=
  exists before failed msg,
    t = before ++ [failed]
    /\ file_operation failed = true
    /\ h before failed = Threw msg
    /\ e = Exception msg.

(** The [ValueError] of [int]. *)
Definition is_int_error (e : PyExn) : Prop :=
  exists s, PyStr.int s = None /\ e = Exception (PyStr.int_error s).

Definition is_run (a : Action) : bool :=
  match a with
  | Run _ => true
  | _ => false
  end.

(** The actions of [prepare_disk] and of the announcements. *)
Definition prepare_action (a : Action) : bool :=
  match a with
  | Run _ => true
  | SocketEmit event _ => event =? "operation_progress"
  | _ => false
  end.

(** What a run of [setup_manual] may do to the machine. *)
Definition setup_action (a : Action) : Prop :=
  match a with
  | Run _ => True
  | SocketEmit event _ => event = "operation_progress"
  | MakeDirs path => PyStr.startswith path "/mnt/" = true
  | ReadFile path | AppendFile path _ => path = "/etc/fstab"
  | WriteFile path _ => path = "/etc/snapraid.conf"
  | Popen _ | ReadLine _ | PathExists _ | Now => False
  end.

(** A host on which no directory can be made and everything else succeeds
    silently. *)
Definition mkdir_fails : Host := fun _ a =>
  match a with
  | MakeDirs _ => Threw "[Errno 13] Permission denied"
  | _ => Returned 0 ""
  end.

(** The number of line breaks of a text. *)
Fixpoint line_breaks (s : string) : nat :=
  match s with
  | EmptyString => 0
  | String c s' => (if Ascii.eqb c "010" then 1 else 0) + line_breaks s'
  end.

(** The texts written one after the other, as [writelines] does. *)
Definition written (texts : list string) : string :=
  fold_right String.append "" texts.

(** What [setup_manual] pushes before a step, with or without a sink. *)
Definition announce (sink : bool) (step message : string) (k total : nat)
    : list Action :=
  if sink then [SocketEmit "operation_progress" (step_event step message k total)]
  else [].

(** The actions of the loop of [setup_manual] over the data disks, numbered
    from [idx], after [current_step] steps. *)
Fixpoint data_trace (sink : bool) (total idx current_step : nat) (disks : list string)
    : list Action :=
  match disks with
  | [] => []
  | disk :: disks' =>
      announce sink "data" ("تحضير Data Disk " +:+ PyStr.of_nat idx) (S current_step) total
      ++ script_actions sink (prepare_script disk ("disk" +:+ PyStr.of_nat idx))
      ++ data_trace sink total (S idx) (S current_step) disks'
  end.

(** The first phase of [setup_manual]: the parity disk, then the data
    disks. *)
Definition preparation_trace (sink : bool) (parity_disk : string)
    (data_disks : list string) : list Action :=
  let total := 1 + length data_disks + 3 in
  announce sink "parity" "تحضير Parity" 1 total
  ++ script_actions sink (prepare_script parity_disk "parity")
  ++ data_trace sink total 1 1 data_disks.

(** The eight commands [prepare_disk] runs on a disk. *)
Definition prepare_commands (disk_name label : string) : list string :=
  commands (script_actions false (prepare_script disk_name label)).

(** What the second phase of [setup_manual] may do: announce its steps, make
    the mount points, ask for UUIDs, read and extend /etc/fstab, mount, and
    write /etc/snapraid.conf. *)
Definition config_action (a : Action) : bool :=
  match a with
  | SocketEmit event _ => event =? "operation_progress"
  | MakeDirs path => PyStr.startswith path "/mnt/"
  | ReadFile path => path =? "/etc/fstab"
  | AppendFile path _ => path =? "/etc/fstab"
  | WriteFile path _ => path =? "/etc/snapraid.conf"
  | Run cmd => PyStr.startswith cmd "blkid -s UUID -o value " || (cmd =? "mount -a")
  | _ => false
  end.

(** The texts appended to the file [path], in order. *)
Fixpoint appended (path : string) (t : Trace) : list string :=
  match t with
  | [] => []
  | AppendFile p text :: t' =>
      if p =? path then text :: appended path t' else appended path t'
  | _ :: t' => appended path t'
  end.

(** The events pushed to the clients with their names, in order. *)
Fixpoint emitted (t : Trace) : list (string * gmap string PyVal) :=
  match t with
  | [] => []
  | SocketEmit event data :: t' => (event, data) :: emitted t'
  | _ :: t' => emitted t'
  end.

(** The processes started with [Popen], in order. *)
Fixpoint started (t : Trace) : list string :=
  match t with
  | [] => []
  | Popen cmd :: t' => cmd :: started t'
  | _ :: t' => started t'
  end.

(** The invariant of the dictionary [check_health] builds. *)
Definition health_consistent (health : DiskManager.Health) : Prop :=
  (DiskManager.overall health = "healthy" /\ DiskManager.issues health = [])
  \/ (DiskManager.overall health = "warning" /\ DiskManager.issues health <> []).

(** What the clock answers on a host that ignores the history. *)
Definition clock (facts : Action -> Outcome) : string :=
  match facts Now with
  | Returned _ text => text
  | Threw text => text
  end.

(** The commands [GET /api/status] gets to run. *)
Definition status_query (a : Action) : bool :=
  match a with
  | Run cmd =>
      (cmd =? "df -h | grep '/mnt/disk'")
      || (cmd =? "df -h /mnt/storage 2>/dev/null | tail -1")
      || (cmd =? "/usr/local/bin/snapraid status")
  | _ => false
  end.

(** The exceptions that stop the status route and the maintenance. *)
Definition is_status_error (e : PyExn) : Prop :=
  e = NameError "os" \/ is_int_error e.

(** The only events among the actions are [operation_progress] events. *)
Definition progress_only (a : Action) : bool :=
  match a with
  | SocketEmit event _ => event =? "operation_progress"
  | _ => true
  end.

(** A host whose system is on [sda], with a second disk [sdb], both of
    1 TB. *)
Definition system_on_sda : Host :=
  const_host (fun a =>
    match a with
    | Run cmd =>
        if cmd =? list_disks_command then Returned 0 ("sda" +:+ PyStr.nl +:+ "sdb")
        else if PyStr.startswith cmd "df /" then Returned 0 "sda"
        else if PyStr.startswith cmd "lsblk -bdn" then Returned 0 "1000000000000"
        else Returned 0 ""
    | ReadFile _ => Returned 0 "1"
    | _ => Returned 0 ""
    end).

(** The entry of [disks_status] that [get_all_disks_status] reads off a line
    of [df]: six fields or more, the name after the last slash of the sixth,
    the usage as the integer of the fifth without its percent signs. *)
Definition from_df_line (line name : string) (u : DiskManager.Usage) : Prop :=
  let parts := PyStr.split_ws line in
  6 <= length parts
  /\ name = PyStr.last_field (nth 5 parts "") "/"
  /\ DiskManager.us_size u = nth 1 parts ""
  /\ DiskManager.us_used u = nth 2 parts ""
  /\ DiskManager.us_available u = nth 3 parts ""
  /\ PyStr.int (PyStr.rstrip_char (nth 4 parts "") "%") = Some (DiskManager.us_usage u).

(** The body of the loop of [get_all_disks_status]. *)
Definition df_line_step (disks_status : list (string * DiskManager.Usage)) (line : string)
    : M (list (string * DiskManager.Usage)) :=
  if line =? "" then ret disks_status
  else
    let parts := PyStr.split_ws line in
    if (6 <=? length parts)%nat then
      let name := PyStr.last_field (nth 5 parts "") "/" in
      do usage <- DiskManager.int_of (PyStr.rstrip_char (nth 4 parts "") "%");
      ret (dict_set name
             {| DiskManager.us_size := nth 1 parts "";
                DiskManager.us_used := nth 2 parts "";
                DiskManager.us_available := nth 3 parts "";
                DiskManager.us_usage := usage |} disks_status)
    else ret disks_status.

(** A host on which [df] lists two data disks, the first one almost full,
    and [sda] passes its SMART test while [sdb] does not answer. *)
Definition df_host : Host := fun _ a =>
  match a with
  | Run cmd =>
      if cmd =? "df -h | grep '/mnt/disk'" then
        Returned 0 ("/dev/sdb1  1.8T  1.7T  100G  95% /mnt/disk1" +:+ PyStr.nl
                    +:+ "/dev/sdc1  1.8T  1.0T  800G  55% /mnt/disk2" +:+ PyStr.nl)
      else if cmd =? "ls /dev/sd? 2>/dev/null" then
        Returned 0 ("/dev/sda" +:+ PyStr.nl +:+ "/dev/sdb" +:+ PyStr.nl)
      else if cmd =? "smartctl -H /dev/sda 2>/dev/null | grep 'SMART overall-health'" then
        Returned 0 "SMART overall-health self-assessment test result: PASSED"
      else Returned 0 ""
  | _ => Returned 0 ""
  end.

(** A host on which every read of the output of a process returns. *)
Definition decodes (h : Host) : Prop :=
  forall t line, exists returncode text, h t (ReadLine line) = Returned returncode text.

(** A parity tool that prints [ok] and then a byte that is no text in UTF-8;
    the read of the second line raises. *)
Definition undecodable_host : Host := fun _ a =>
  match a with
  | Popen _ => Returned 0 ("ok" +:+ PyStr.nl +:+ String "255" PyStr.nl)
  | ReadLine line =>
      if line =? "ok" +:+ PyStr.nl then Returned 0 ""
      else Threw "'utf-8' codec can't decode byte 0xff in position 0: invalid start byte"
  | Now => Returned 0 "2026-01-01T00:00:00"
  | _ => Returned 0 ""
  end.

(** A host whose /etc/fstab has a byte that does not decode. *)
Definition fstab_undecodable : Host :=
  fun _ a =>
    match a with
    | ReadFile _ =>
        Threw "'utf-8' codec can't decode byte 0xff in position 0: invalid start byte"
    | _ => Returned 0 ""
    end.

(** ** Examples of the string and size functions *)

Example strip_ex : PyStr.strip ("  sda " +:+ PyStr.nl) = "sda".
Proof. reflexivity. Qed.
Example split_ex : PyStr.split ("sda" +:+ PyStr.nl +:+ "sdb") "010" = ["sda"; "sdb"].
Proof. reflexivity. Qed.
Example split_empty_ex : PyStr.split "" "010" = [""].
Proof. reflexivity. Qed.
Example replace_ex : PyStr.replace "/dev/sdb" "/dev/" "" = "sdb".
Proof. reflexivity. Qed.
Example int_ex : PyStr.int "500107862016" = Some 500107862016%Z.
Proof. reflexivity. Qed.
Example int_bad_ex : PyStr.int "" = None /\ PyStr.int "Error: x" = None.
Proof. split; reflexivity. Qed.
Example readlines_ex :
  PyStr.readlines ("a" +:+ PyStr.nl +:+ PyStr.nl +:+ "b") = ["a" +:+ PyStr.nl; PyStr.nl; "b"].
Proof. reflexivity. Qed.

Example format_size_ex :
  DiskManager.format_size (inject_Z 500107862016 / inject_Z (1024 ^ 3)%Z)%Q = "465.8 GB"
  /\ DiskManager.format_size (inject_Z (1040 * 1024 ^ 3)%Z / inject_Z (1024 ^ 3)%Z)%Q = "1.0 TB"
  /\ DiskManager.format_size (1 # 4)%Q = "0.2 GB"
  /\ DiskManager.format_size (3 # 4)%Q = "0.8 GB".
Proof. repeat split; vm_compute; reflexivity. Qed.

Example parse_size_ex :
  Qeq_bool (DiskManager.parse_size "465.8 GB") (4658 # 10)%Q = true
  /\ Qeq_bool (DiskManager.parse_size "1.0 TB") 1000%Q = true
  /\ Qeq_bool (DiskManager.parse_size "n/a") 0%Q = true.
Proof. repeat split; vm_compute; reflexivity. Qed.

Example findall_ex :
  SnapRAIDManager.findall SnapRAIDManager.change_words "3 added, 2 removed, 12 files"
  = [3%N; 2%N].
Proof. reflexivity. Qed.

Example search_ex :
  SnapRAIDManager.search SnapRAIDManager.files_words "3 added, 2 removed, 12 files"
  = Some 12%N.
Proof. reflexivity. Qed.

(** ** Basic facts about the monad *)

Lemma bind_ok {A B} (c : M A) (k : A -> M B) h t a t' :
  c h t = (Ok a, t') -> bind c k h t = k a h t'.
Proof. intros E. unfold bind. now rewrite E. Qed.

Lemma bind_raise {A B} (c : M A) (k : A -> M B) h t e t' :
  c h t = (Raise e, t') -> bind c k h t = (Raise e, t').
Proof. intros E. unfold bind. now rewrite E. Qed.

Lemma run_command_eq cmd h t :
  DiskManager.run_command cmd h t = (Ok (command_output h t cmd), t ++ [Run cmd]).
Proof.
  unfold DiskManager.run_command, command_output, bind, perform, ret.
  destruct (h t (Run cmd)); reflexivity.
Qed.

Lemma emit_progress_eq step message p h t :
  App.emit_progress step message p h t
  = (Ok tt, t ++ [SocketEmit "operation_progress" (App.progress_data step message p)]).
Proof. reflexivity. Qed.

Lemma notify_eq sink step message p h t :
  notify (sink_of sink) step message (PInt p) h t
  = (Ok tt, t ++ script_actions sink [Report step message p]).
Proof.
  destruct sink; simpl.
  - apply emit_progress_eq.
  - unfold ret. now rewrite app_nil_r.
Qed.

(** [prepare_disk] runs its whole script and returns [True], whatever the
    host answers. *)
Lemma prepare_disk_eq sink disk_name label h t :
  DiskManager.prepare_disk disk_name label (sink_of sink) h t
  = (Ok true, t ++ script_actions sink (prepare_script disk_name label)).
Proof.
  unfold DiskManager.prepare_disk.
  repeat first
    [ erewrite bind_ok by apply notify_eq
    | erewrite bind_ok by apply run_command_eq ].
  unfold ret. f_equal.
  destruct sink; simpl; rewrite <- ?app_assoc; simpl; rewrite ?app_nil_r; reflexivity.
Qed.

Lemma delivered_app t1 t2 : delivered (t1 ++ t2) = delivered t1 ++ delivered t2.
Proof.
  induction t1 as [|a t1 IH]; simpl; [reflexivity|].
  destruct a; simpl; now rewrite ?IH.
Qed.

Lemma commands_app t1 t2 : commands (t1 ++ t2) = commands t1 ++ commands t2.
Proof.
  induction t1 as [|a t1 IH]; simpl; [reflexivity|].
  destruct a; simpl; now rewrite ?IH.
Qed.

(** *** Computations that push nothing to the clients *)

Lemma quiet_ret {A} (a : A) : quiet (ret a).
Proof. intros h t. exists []. simpl. now rewrite app_nil_r. Qed.

Lemma quiet_raise {A} e : quiet (@raise A e).
Proof. intros h t. exists []. simpl. now rewrite app_nil_r. Qed.

Lemma quiet_bind {A B} (c : M A) (k : A -> M B) :
  quiet c -> (forall a, quiet (k a)) -> quiet (bind c k).
Proof.
  intros Hc Hk h t. destruct (Hc h t) as (d & E & Hd).
  unfold bind. destruct (c h t) as [[a|e] t1]; simpl in E; subst t1.
  - destruct (Hk a h (t ++ d)) as (d' & E' & Hd').
    exists (d ++ d'). rewrite E', <- app_assoc. split; [reflexivity|].
    now rewrite delivered_app, Hd, Hd'.
  - exists d. now split.
Qed.

Lemma quiet_perform a : is_emit a = false -> quiet (perform a).
Proof.
  intros Ha h t. exists [a]. split; [reflexivity|].
  destruct a; simpl in *; congruence.
Qed.

Lemma quiet_os_call a : is_emit a = false -> quiet (os_call a).
Proof.
  intros Ha. apply quiet_bind; [now apply quiet_perform|].
  intros [rc out|msg]; [apply quiet_ret | apply quiet_raise].
Qed.

Lemma quiet_run_command cmd : quiet (DiskManager.run_command cmd).
Proof.
  apply quiet_bind; [now apply quiet_perform|].
  intros [rc out|msg]; apply quiet_ret.
Qed.

Lemma quiet_for_each {A} (l : list A) body :
  (forall x, quiet (body x)) -> quiet (for_each l body).
Proof.
  intros Hb. induction l as [|x l IH]; simpl.
  - apply quiet_ret.
  - apply quiet_bind; [apply Hb | intros _; apply IH].
Qed.

Lemma quiet_for_fold {A S} (l : list A) (acc : S) body :
  (forall s x, quiet (body s x)) -> quiet (for_fold l acc body).
Proof.
  intros Hb. revert acc. induction l as [|x l IH]; intros acc; simpl.
  - apply quiet_ret.
  - apply quiet_bind; [apply Hb | intros s; apply IH].
Qed.

Create HintDb quiet.
#[local] Hint Resolve quiet_ret quiet_raise quiet_run_command : quiet.
#[local] Hint Extern 1 (quiet (os_call _)) => apply quiet_os_call; reflexivity : quiet.
#[local] Hint Extern 2 (quiet (bind _ _)) => apply quiet_bind; [|intros] : quiet.
#[local] Hint Extern 2 (quiet (for_each _ _)) => apply quiet_for_each; intros : quiet.
#[local] Hint Extern 2 (quiet (for_fold _ _ _)) => apply quiet_for_fold; intros : quiet.

Lemma quiet_get_uuid disk : quiet (DiskManager.get_uuid disk).
Proof. unfold DiskManager.get_uuid. auto with quiet. Qed.

Lemma quiet_setup_fstab parity_disk data_disks :
  quiet (DiskManager.setup_fstab parity_disk data_disks).
Proof.
  pose proof quiet_get_uuid.
  unfold DiskManager.setup_fstab. auto 20 with quiet.
Qed.

Lemma quiet_setup_mergerfs : quiet DiskManager.setup_mergerfs.
Proof. unfold DiskManager.setup_mergerfs. auto 10 with quiet. Qed.

Lemma quiet_setup_snapraid_config parity_disk data_disks :
  quiet (DiskManager.setup_snapraid_config parity_disk data_disks).
Proof. unfold DiskManager.setup_snapraid_config. auto 10 with quiet. Qed.

Lemma quiet_delivered {A} (c : M A) h t :
  quiet c -> delivered (snd (c h t)) = delivered t.
Proof.
  intros Hc. destruct (Hc h t) as (d & E & Hd).
  now rewrite E, delivered_app, Hd, app_nil_r.
Qed.

(** *** The events of an orchestrated run *)

Lemma notify_emit_eq step message p h t :
  notify (Some App.emit_progress) step message p h t
  = (Ok tt, t ++ [SocketEmit "operation_progress" (App.progress_data step message p)]).
Proof. reflexivity. Qed.

Lemma prepare_data_disk_eq total cs pd idx disk h t :
  DiskManager.prepare_data_disk total (Some App.emit_progress) (cs, pd) (idx, disk) h t
  = (Ok (cs + 1,
         pd ++ [{| DiskManager.pd_disk := disk;
                   DiskManager.pd_label := "disk" +:+ PyStr.of_nat idx;
                   DiskManager.pd_number := idx |}]),
     t ++ SocketEmit "operation_progress"
            (step_event "data" ("تحضير Data Disk " +:+ PyStr.of_nat idx) (cs + 1) total)
          :: script_actions true (prepare_script disk ("disk" +:+ PyStr.of_nat idx))).
Proof.
  unfold DiskManager.prepare_data_disk.
  erewrite bind_ok by apply notify_emit_eq.
  change (Some App.emit_progress) with (sink_of true).
  erewrite bind_ok by apply prepare_disk_eq.
  unfold ret, step_event. rewrite <- app_assoc.
  repeat f_equal.
Qed.

Lemma data_loop_eq total disks :
  forall idx cs pd h t,
    for_fold (combine (seq idx (length disks)) disks) (cs, pd)
      (DiskManager.prepare_data_disk total (Some App.emit_progress)) h t
    = (Ok (cs + length disks, pd ++ prepared_from idx disks),
       t ++ data_actions total idx cs disks).
Proof.
  induction disks as [|disk disks IH]; intros idx cs pd h t.
  - simpl. unfold ret. now rewrite Nat.add_0_r, !app_nil_r.
  - cbn [length seq combine for_fold].
    erewrite bind_ok by apply prepare_data_disk_eq.
    rewrite IH. cbn [prepared_from data_actions].
    rewrite <- !app_assoc. cbn [app].
    replace (cs + 1 + length disks) with (cs + S (length disks)) by lia.
    replace (cs + 1) with (S cs) by lia. reflexivity.
Qed.

Lemma delivered_data_actions total disks :
  forall idx cs,
    delivered (data_actions total idx cs disks) = data_events total idx cs disks.
Proof.
  induction disks as [|disk disks IH]; intros idx cs; [reflexivity|].
  cbn [data_actions data_events delivered].
  now rewrite delivered_app, IH.
Qed.

Lemma quiet_step {A B} (c : M A) (k : A -> M B) h t r t' :
  quiet c ->
  bind c k h t = (Ok r, t') ->
  exists a d, delivered d = [] /\ k a h (t ++ d) = (Ok r, t').
Proof.
  intros Hc E. destruct (Hc h t) as (d & Ed & D).
  unfold bind in E. destruct (c h t) as [[a|e] t1]; [|discriminate].
  simpl in Ed. subst t1. exists a, d. auto.
Qed.

(** The trace of a complete run of [setup_manual]: every announcement comes
    right before the actions of its step. *)
Lemma setup_manual_trace parity_disk data_disks h t r t' :
  DiskManager.setup_manual parity_disk data_disks (Some App.emit_progress) h t = (Ok r, t') ->
  let n := length data_disks in
  let total := 1 + n + 3 in
  exists d_fstab d_mergerfs d_snapraid,
    delivered d_fstab = [] /\ delivered d_mergerfs = [] /\ delivered d_snapraid = []
    /\ t' = t
        ++ SocketEmit "operation_progress" (step_event "parity" "تحضير Parity" 1 total)
           :: script_actions true (prepare_script parity_disk "parity")
        ++ data_actions total 1 1 data_disks
        ++ SocketEmit "operation_progress" (step_event "fstab" "إعداد fstab" (n + 2) total)
           :: d_fstab
        ++ SocketEmit "operation_progress" (step_event "mergerfs" "إعداد MergerFS" (n + 3) total)
           :: d_mergerfs
        ++ SocketEmit "operation_progress" (step_event "snapraid" "إعداد SnapRAID" (n + 4) total)
           :: d_snapraid
    /\ r = {| DiskManager.sr_success := true;
              DiskManager.sr_parity := parity_disk;
              DiskManager.sr_data_disks := prepared_from 1 data_disks;
              DiskManager.sr_message := "تم الإعداد بنجاح" |}.
Proof.
  unfold DiskManager.setup_manual, enumerate. cbv zeta.
  erewrite bind_ok by apply notify_emit_eq.
  change (Some App.emit_progress) with (sink_of true) at 1.
  erewrite bind_ok by apply prepare_disk_eq.
  erewrite bind_ok by apply data_loop_eq. cbv beta iota.
  erewrite bind_ok by apply notify_emit_eq.
  intros H.
  apply quiet_step in H as (? & d3 & D3 & H); [|apply quiet_setup_fstab].
  erewrite bind_ok in H by apply notify_emit_eq.
  apply quiet_step in H as (? & d4 & D4 & H); [|apply quiet_setup_mergerfs].
  erewrite bind_ok in H by apply notify_emit_eq.
  apply quiet_step in H as (? & d5 & D5 & H); [|apply quiet_setup_snapraid_config].
  unfold ret in H.
  match type of H with (Ok ?r0, ?t0) = _ =>
    assert (Hr : r = r0) by congruence; assert (Ht : t' = t0) by congruence
  end.
  clear H. subst r t'.
  exists d3, d4, d5. split; [assumption|]. split; [assumption|].
  split; [assumption|]. split; [|reflexivity].
  unfold step_event. rewrite <- !app_assoc. cbn [app].
  replace (0 + 1 + length data_disks + 1 + 1 + 1) with (length data_disks + 4) by lia.
  replace (0 + 1 + length data_disks + 1 + 1) with (length data_disks + 3) by lia.
  replace (0 + 1 + length data_disks + 1) with (length data_disks + 2) by lia.
  reflexivity.
Qed.
Lemma step_of_data_progress step message p :
  step_of_data (App.progress_data step message p) = step.
Proof.
  unfold step_of_data, App.progress_data.
  destruct (truthy p); rewrite ?lookup_insert_ne by discriminate;
    now rewrite lookup_insert_eq.
Qed.

Lemma percentage_of_progress step message q :
  Qeq_bool q 0 = false ->
  percentage_of (App.progress_data step message (PFloat q)) = Some q.
Proof.
  intros Hq. unfold percentage_of, App.progress_data. simpl truthy. rewrite Hq. simpl.
  now rewrite lookup_insert_eq.
Qed.

Lemma step_percentage_pos k total :
  0 < k -> 0 < total -> (0 < step_percentage k total)%Q.
Proof.
  intros Hk Ht. unfold step_percentage.
  apply Qmult_lt_0_compat; [|reflexivity].
  apply Qlt_shift_div_l.
  - replace 0%Q with (inject_Z 0) by reflexivity. rewrite <- Zlt_Qlt. lia.
  - rewrite Qmult_0_l. replace 0%Q with (inject_Z 0) by reflexivity. rewrite <- Zlt_Qlt. lia.
Qed.

Lemma step_percentage_lt j k total :
  j < k -> 0 < total -> (step_percentage j total < step_percentage k total)%Q.
Proof.
  intros Hk Ht. unfold step_percentage.
  apply Qmult_lt_compat_r; [reflexivity|].
  apply Qmult_lt_compat_r.
  - apply Qinv_lt_0_compat. replace 0%Q with (inject_Z 0) by reflexivity.
    rewrite <- Zlt_Qlt. lia.
  - rewrite <- Zlt_Qlt. lia.
Qed.

Lemma step_percentage_full total : 0 < total -> (step_percentage total total == 100)%Q.
Proof.
  intros Ht. unfold step_percentage.
  unfold Qdiv. rewrite Qmult_inv_r; [reflexivity|].
  intros E. assert (inject_Z 0 < inject_Z (Z.of_nat total))%Q as L
    by (rewrite <- Zlt_Qlt; lia).
  rewrite E in L. now apply Qlt_irrefl in L.
Qed.

Lemma percentage_of_step_event step message k total :
  0 < k -> 0 < total ->
  percentage_of (step_event step message k total) = Some (step_percentage k total).
Proof.
  intros Hk Ht. apply percentage_of_progress.
  pose proof (step_percentage_pos k total Hk Ht) as P.
  destruct (Qeq_bool _ 0) eqn:E; [|reflexivity].
  apply Qeq_bool_eq in E. unfold step_percentage in P. rewrite E in P.
  now apply Qlt_irrefl in P.
Qed.

Lemma orchestrator_step_event step message k total :
  In step orchestrator_steps ->
  is_orchestrator_event (step_event step message k total) = true.
Proof.
  intros Hs. unfold is_orchestrator_event, step_event.
  rewrite step_of_data_progress. apply existsb_exists. exists step.
  split; [assumption | apply String.eqb_refl].
Qed.

Lemma stage_events_not_orchestrator disk_name label :
  List.filter is_orchestrator_event (stage_events disk_name label) = [].
Proof.
  unfold stage_events, prepare_script. cbn [script_actions flat_map app delivered List.filter].
  unfold is_orchestrator_event. rewrite !step_of_data_progress. reflexivity.
Qed.

Lemma stage_events_length disk_name label : length (stage_events disk_name label) = 6.
Proof. reflexivity. Qed.

Lemma data_events_length total disks :
  forall idx cs, length (data_events total idx cs disks) = 7 * length disks.
Proof.
  induction disks as [|d disks IH]; intros idx cs; [reflexivity|].
  cbn [data_events length]. rewrite length_app, IH, stage_events_length. lia.
Qed.

Lemma orchestration_events_length parity_disk data_disks :
  length (orchestration_events parity_disk data_disks)
  = (1 + length data_disks + 3) + 6 * (1 + length data_disks).
Proof.
  unfold orchestration_events. cbn [length].
  rewrite !length_app, data_events_length, stage_events_length. cbn [length]. lia.
Qed.

Lemma data_events_steps total disks :
  0 < total ->
  forall idx cs,
    map percentage_of (List.filter is_orchestrator_event (data_events total idx cs disks))
    = map (fun k => Some (step_percentage k total)) (seq (S cs) (length disks)).
Proof.
  intros Ht. induction disks as [|d disks IH]; intros idx cs; [reflexivity|].
  cbn [data_events List.filter length seq map].
  rewrite orchestrator_step_event by (simpl; auto).
  rewrite List.filter_app, stage_events_not_orchestrator. cbn [app map].
  rewrite percentage_of_step_event by lia. now rewrite IH.
Qed.

Lemma orchestration_events_steps parity_disk data_disks :
  let total := 1 + length data_disks + 3 in
  map percentage_of
    (List.filter is_orchestrator_event (orchestration_events parity_disk data_disks))
  = map (fun k => Some (step_percentage k total)) (seq 1 total).
Proof.
  intros total. unfold orchestration_events. fold total.
  cbn [List.filter]. rewrite orchestrator_step_event by (simpl; auto).
  rewrite !List.filter_app, stage_events_not_orchestrator. cbn [app List.filter].
  rewrite !orchestrator_step_event by (simpl; auto 6).
  cbn [map]. rewrite map_app, data_events_steps by (unfold total; lia).
  cbn [map]. rewrite !percentage_of_step_event by (unfold total; lia).
  replace (seq 1 total) with (1 :: seq 2 (length data_disks)
     ++ [length data_disks + 2; length data_disks + 3; length data_disks + 4]).
  - cbn [map]. now rewrite map_app.
  - unfold total. replace (1 + length data_disks + 3) with (S (length data_disks + 3)) by lia.
    cbn [seq]. f_equal. rewrite seq_app. f_equal. cbn [seq].
    f_equal; [lia|]. f_equal; [lia|]. f_equal; lia.
Qed.

Lemma step_percentages_increasing total :
  0 < total ->
  forall n a, StronglySorted Qlt (map (fun k => step_percentage k total) (seq a n)).
Proof.
  intros Ht. induction n as [|n IH]; intros a; cbn [seq map]; constructor.
  - apply IH.
  - apply List.Forall_forall. intros q Hq. apply in_map_iff in Hq as (k & <- & Hk).
    apply in_seq in Hk. apply step_percentage_lt; lia.
Qed.

(** ** The preparation pipeline *)

Lemma notify_none_eq step message p h t :
  notify None step message p h t = (Ok tt, t).
Proof. reflexivity. Qed.

(** C2, as the code has it: [prepare_disk] never raises.  Whatever the host
    answers to each stage command (a non-zero exit status, an exception of
    [subprocess.run]), the call returns [True] and the trace grows by the
    whole script, every stage once and in order: no stage is skipped after a
    failure and nothing is undone. *)
Theorem prepare_disk_runs_every_stage :
  forall (sink : bool) (disk_name label : string) (h : Host) (t : Trace),
    let r := DiskManager.prepare_disk disk_name label (sink_of sink) h t in
    fst r = Ok true
    /\ snd r = t ++ script_actions sink (prepare_script disk_name label)
    /\ commands (snd r)
       = commands t ++
         (let disk := PyStr.replace disk_name "/dev/" "" in
          [ "umount /dev/" +:+ disk +:+ "* 2>/dev/null";
            "wipefs -af /dev/" +:+ disk;
            "dd if=/dev/zero of=/dev/" +:+ disk +:+ " bs=1M count=100 2>/dev/null";
            "parted -s /dev/" +:+ disk +:+ " mklabel gpt";
            "parted -s /dev/" +:+ disk +:+ " mkpart primary ext4 0% 100%";
            "partprobe /dev/" +:+ disk;
            "sleep 2";
            "mkfs.ext4 -F -L " +:+ label +:+ " /dev/" +:+ disk +:+ "1" ]).
Proof.
  intros sink disk_name label h t r. subst r.
  rewrite prepare_disk_eq. cbn [fst snd]. repeat split.
  rewrite commands_app. f_equal. destruct sink; reflexivity.
Qed.

(** C2, the claim as stated fails: wiping [/dev/sdb] ends with status 1, and
    yet [prepare_disk] returns [True] after running the five later commands
    as well. *)
Lemma prepare_disk_failure_not_raised :
  command_failed
    (wipefs_fails [Run "umount /dev/sdb* 2>/dev/null"] (Run "wipefs -af /dev/sdb")) = true
  /\ DiskManager.prepare_disk "/dev/sdb" "disk1" None wipefs_fails []
     = (Ok true,
        [ Run "umount /dev/sdb* 2>/dev/null";
          Run "wipefs -af /dev/sdb";
          Run "dd if=/dev/zero of=/dev/sdb bs=1M count=100 2>/dev/null";
          Run "parted -s /dev/sdb mklabel gpt";
          Run "parted -s /dev/sdb mkpart primary ext4 0% 100%";
          Run "partprobe /dev/sdb";
          Run "sleep 2";
          Run "mkfs.ext4 -F -L disk1 /dev/sdb1" ]).
Proof. split; reflexivity. Qed.

(** ** The orchestrator *)

(** The guard of [setup_automatic]: fewer than two disks, and nothing is
    touched. *)
Lemma setup_automatic_needs_two_disks disk_list progress_callback h t :
  length disk_list < 2 ->
  DiskManager.setup_automatic disk_list progress_callback h t
  = (Raise (Exception "يجب توفير قرصين على الأقل"), t).
Proof.
  intros L. unfold DiskManager.setup_automatic.
  destruct (Nat.ltb_spec (length disk_list) 2); [reflexivity | lia].
Qed.

Lemma quiet_setup_manual_none parity_disk data_disks :
  quiet (DiskManager.setup_manual parity_disk data_disks None).
Proof.
  pose proof quiet_setup_fstab. pose proof quiet_setup_mergerfs.
  pose proof quiet_setup_snapraid_config.
  assert (P : forall d l, quiet (DiskManager.prepare_disk d l None)).
  { intros d l. unfold DiskManager.prepare_disk. cbn [notify]. auto 40 with quiet. }
  unfold DiskManager.setup_manual. cbn [notify]. cbv zeta.
  apply quiet_bind; [auto with quiet|intros _].
  apply quiet_bind; [apply P|intros _].
  apply quiet_bind.
  - apply quiet_for_fold. intros [cs pd] [idx disk].
    unfold DiskManager.prepare_data_disk. cbn [notify]. auto 10 with quiet.
  - intros [cs pd]. auto 20 with quiet.
Qed.

(** C1, what the code does: [setup_manual] has no guard on the number of
    disks.  Called with a parity disk and no data disk it first runs the whole
    destructive script on the parity disk, on every host; on a host where
    everything succeeds it goes on to write the configuration and reports
    success. *)
Theorem setup_manual_single_disk_is_prepared :
  (forall (h : Host) (t : Trace) (parity_disk : string),
     exists rest,
       snd (DiskManager.setup_manual parity_disk [] None h t)
       = t ++ script_actions false (prepare_script parity_disk "parity") ++ rest)
  /\ fst (DiskManager.setup_manual "/dev/sdb" [] None quiet_host [])
     = Ok {| DiskManager.sr_success := true;
             DiskManager.sr_parity := "/dev/sdb";
             DiskManager.sr_data_disks := [];
             DiskManager.sr_message := "تم الإعداد بنجاح" |}
  /\ commands (snd (DiskManager.setup_manual "/dev/sdb" [] None quiet_host []))
     = [ "umount /dev/sdb* 2>/dev/null";
         "wipefs -af /dev/sdb";
         "dd if=/dev/zero of=/dev/sdb bs=1M count=100 2>/dev/null";
         "parted -s /dev/sdb mklabel gpt";
         "parted -s /dev/sdb mkpart primary ext4 0% 100%";
         "partprobe /dev/sdb";
         "sleep 2";
         "mkfs.ext4 -F -L parity /dev/sdb1";
         "blkid -s UUID -o value /dev/sdb1";
         "mount -a";
         "mount -a" ].
Proof.
  split; [|split; vm_compute; reflexivity].
  intros h t parity_disk.
  unfold DiskManager.setup_manual. cbv zeta.
  erewrite bind_ok by apply notify_none_eq.
  change None with (sink_of false) at 1.
  erewrite bind_ok by apply prepare_disk_eq.
  match goal with |- context [snd (?k h ?t1)] =>
    assert (Q : quiet k); [|destruct (Q h t1) as (d & E & _)] end.
  - pose proof quiet_setup_fstab. pose proof quiet_setup_mergerfs.
    pose proof quiet_setup_snapraid_config.
    apply quiet_bind; [apply quiet_ret|intros [cs pd]].
    cbn [notify]. auto 20 with quiet.
  - exists d. rewrite E. now rewrite app_assoc.
Qed.

(** C3, as the code has it: a complete run of [setup_manual] with the
    application's sink counts [total = 1 + |data_disks| + 3] steps and
    announces each of them right before the actions of the step, with
    percentage [k/total*100] for the k-th step (k from 1): these percentages
    are strictly increasing and end at 100.  But every disk preparation
    reports its six stages to the same sink in between, so the sink receives
    [total + 6 * (1 + |data_disks|)] events in all. *)
Theorem setup_manual_progress :
  forall (h : Host) (t : Trace) (parity_disk : string) (data_disks : list string)
         (r : DiskManager.SetupResult),
    fst (DiskManager.setup_manual parity_disk data_disks (Some App.emit_progress) h t)
    = Ok r ->
    let t' :=
      snd (DiskManager.setup_manual parity_disk data_disks (Some App.emit_progress) h t) in
    let n := length data_disks in
    let total := 1 + n + 3 in
    (exists d_fstab d_mergerfs d_snapraid,
       delivered d_fstab = [] /\ delivered d_mergerfs = [] /\ delivered d_snapraid = []
       /\ t' = t
           ++ SocketEmit "operation_progress" (step_event "parity" "تحضير Parity" 1 total)
              :: script_actions true (prepare_script parity_disk "parity")
           ++ data_actions total 1 1 data_disks
           ++ SocketEmit "operation_progress" (step_event "fstab" "إعداد fstab" (n + 2) total)
              :: d_fstab
           ++ SocketEmit "operation_progress"
                (step_event "mergerfs" "إعداد MergerFS" (n + 3) total)
              :: d_mergerfs
           ++ SocketEmit "operation_progress"
                (step_event "snapraid" "إعداد SnapRAID" (n + 4) total)
              :: d_snapraid)
    /\ delivered t' = delivered t ++ orchestration_events parity_disk data_disks
    /\ length (orchestration_events parity_disk data_disks) = total + 6 * (1 + n)
    /\ map percentage_of
         (List.filter is_orchestrator_event (orchestration_events parity_disk data_disks))
       = map (fun k => Some (step_percentage k total)) (seq 1 total)
    /\ StronglySorted Qlt (map (fun k => step_percentage k total) (seq 1 total))
    /\ (step_percentage total total == 100)%Q.
Proof.
  intros h t parity_disk data_disks r H t' n total.
  assert (E : DiskManager.setup_manual parity_disk data_disks (Some App.emit_progress) h t
              = (Ok r, t')).
  { subst t'. destruct (DiskManager.setup_manual _ _ _ h t) as [r0 t0].
    simpl in H. now subst r0. }
  destruct (setup_manual_trace _ _ _ _ _ _ E) as (d3 & d4 & d5 & D3 & D4 & D5 & Et & _).
  fold n in Et. fold total in Et.
  split; [exists d3, d4, d5; auto|].
  split.
  { rewrite Et. unfold orchestration_events. fold n. fold total.
    repeat first [rewrite delivered_app | progress cbn [delivered]].
    rewrite delivered_data_actions, D3, D4, D5.
    unfold stage_events. cbn [app]. reflexivity. }
  split; [apply orchestration_events_length|].
  split; [apply orchestration_events_steps|].
  split; [apply step_percentages_increasing; unfold total; lia|].
  apply step_percentage_full. unfold total. lia.
Qed.

(** The run on a parity disk and two data disks completes, and what it
    delivers is the sequence described above. *)
Lemma setup_manual_progress_witness :
  fst three_disk_run
  = Ok {| DiskManager.sr_success := true;
          DiskManager.sr_parity := "/dev/sda";
          DiskManager.sr_data_disks := prepared_from 1 ["/dev/sdb"; "/dev/sdc"];
          DiskManager.sr_message := "تم الإعداد بنجاح" |}
  /\ delivered (snd three_disk_run)
     = orchestration_events "/dev/sda" ["/dev/sdb"; "/dev/sdc"].
Proof.
  assert (H : fst three_disk_run
              = Ok {| DiskManager.sr_success := true;
                      DiskManager.sr_parity := "/dev/sda";
                      DiskManager.sr_data_disks := prepared_from 1 ["/dev/sdb"; "/dev/sdc"];
                      DiskManager.sr_message := "تم الإعداد بنجاح" |})
    by (vm_compute; reflexivity).
  split; [exact H|].
  exact (proj1 (proj2 (setup_manual_progress quiet_host [] "/dev/sda"
                         ["/dev/sdb"; "/dev/sdc"] _ H))).
Defined.

(** C3, the claim as stated fails: with a parity disk and two data disks the
    sink receives 24 events, not 6, and their percentages go up and down
    (100 is followed by 100/3, and the stage events with percentage 0 carry
    no percentage at all). *)
Lemma three_disk_run_events :
  length (delivered (snd three_disk_run)) = 24
  /\ map (fun data => option_map Qred (percentage_of data)) (delivered (snd three_disk_run))
     = [ Some (50 # 3); None; Some 20; Some 40; Some 60; Some 80; Some 100;
         Some (100 # 3); None; Some 20; Some 40; Some 60; Some 80; Some 100;
         Some 50; None; Some 20; Some 40; Some 60; Some 80; Some 100;
         Some (200 # 3); Some (250 # 3); Some 100 ]%Q
  /\ map step_of_data (delivered (snd three_disk_run))
     = [ "parity"; "preparing"; "wiping"; "partitioning"; "creating"; "formatting";
         "complete";
         "data"; "preparing"; "wiping"; "partitioning"; "creating"; "formatting";
         "complete";
         "data"; "preparing"; "wiping"; "partitioning"; "creating"; "formatting";
         "complete";
         "fstab"; "mergerfs"; "snapraid" ].
Proof. repeat split; vm_compute; reflexivity. Qed.

(** ** The progress sink *)

(** Lookups in a dictionary built by successive assignments. *)
Ltac lookup_dict :=
  repeat first
    [ rewrite lookup_insert_eq
    | rewrite lookup_insert_ne by discriminate
    | rewrite lookup_empty ].

(** C9: [emit_progress] delivers the key ['percentage'] exactly when the value
    passed is truthy; [0], [0.0] and [None] are not, so the first report of
    [prepare_disk] (stage ['preparing'], percentage 0) reaches the clients
    without a percentage. *)
Theorem emit_progress_percentage_iff_truthy :
  (forall (step message : string) (percentage : PyVal) (h : Host) (t : Trace),
     exists data,
       App.emit_progress step message percentage h t
       = (Ok tt, t ++ [SocketEmit "operation_progress" data])
       /\ data !! "step" = Some (PStr step)
       /\ data !! "message" = Some (PStr message)
       /\ data !! "percentage" = (if truthy percentage then Some percentage else None)
       /\ (is_Some (data !! "percentage") <-> truthy percentage = true))
  /\ (forall (disk_name label : string) (h : Host) (t : Trace),
       exists data rest,
         snd (DiskManager.prepare_disk disk_name label (Some App.emit_progress) h t)
         = t ++ SocketEmit "operation_progress" data :: rest
         /\ data !! "step" = Some (PStr "preparing")
         /\ data !! "percentage" = None)
  /\ truthy (PInt 0) = false /\ truthy (PFloat 0) = false /\ truthy PNone = false.
Proof.
  split; [|split; [|repeat split]].
  - intros step message percentage h t.
    exists (App.progress_data step message percentage).
    split; [reflexivity|]. unfold App.progress_data.
    destruct (truthy percentage) eqn:T; repeat split; try lookup_dict; eauto.
    + intros [x Hx]. discriminate.
    + discriminate.
  - intros disk_name label h t.
    change (Some App.emit_progress) with (sink_of true).
    rewrite prepare_disk_eq. cbn [snd prepare_script script_actions flat_map app].
    eexists _, _. split; [reflexivity|].
    unfold App.progress_data. cbn [truthy Z.eqb negb]. split; now lookup_dict.
Qed.

(** ** Strings and the patterns of the status parser *)

Section PatternFacts.
Import PyStr SnapRAIDManager.

Lemma append_cons x (a b : string) : String x a +:+ b = String x (a +:+ b).
Proof. reflexivity. Qed.

Lemma append_nil_l (b : string) : "" +:+ b = b.
Proof. reflexivity. Qed.

Lemma append_assoc (a b c : string) : (a +:+ b) +:+ c = a +:+ (b +:+ c).
Proof.
  induction a as [|x a IH]; [reflexivity|].
  now rewrite !append_cons, IH.
Qed.

Lemma startswith_spec s p : PyStr.startswith s p = true <-> exists r, s = p +:+ r.
Proof.
  revert s. induction p as [|a p IH]; intros s.
  - split; [intros _; exists s; reflexivity | intros _; destruct s; reflexivity].
  - destruct s as [|b s]; cbn [PyStr.startswith].
    + split; [discriminate | intros [r E]; discriminate].
    + rewrite andb_true_iff, Ascii.eqb_eq, IH. split.
      * intros [-> [r ->]]. exists r. reflexivity.
      * intros [r E]. rewrite append_cons in E. injection E as -> ->. eauto.
Qed.

Lemma contains_spec p s :
  PyStr.contains p s = true <-> exists a b, s = a +:+ p +:+ b.
Proof.
  induction s as [|c s IH]; cbn [PyStr.contains]; rewrite orb_true_iff, startswith_spec.
  - split.
    + intros [[r E]|E]; [|discriminate]. exists "", r. exact E.
    + intros (a & b & E). left. destruct a; [exists b; exact E|discriminate].
  - rewrite IH. split.
    + intros [[r E]|(a & b & E)].
      * exists "", r. exact E.
      * exists (String c a), b. rewrite append_cons. now rewrite E.
    + intros (a & b & E). destruct a as [|x a].
      * left. exists b. exact E.
      * right. rewrite append_cons in E. injection E as -> E. eauto.
Qed.

Lemma span_app p a b :
  all_of p a = true ->
  (forall c b', b = String c b' -> p c = false) ->
  span p (a +:+ b) = (a, b).
Proof.
  intros Ha Hb. induction a as [|x a IH].
  - rewrite append_nil_l. destruct b as [|c b']; [reflexivity|].
    cbn [span]. now rewrite (Hb c b' eq_refl).
  - cbn [all_of] in Ha. apply andb_true_iff in Ha as [Hx Ha].
    rewrite append_cons. cbn [span]. now rewrite Hx, (IH Ha).
Qed.

Lemma span_inv p s a b :
  span p s = (a, b) ->
  s = a +:+ b /\ all_of p a = true /\ (forall c b', b = String c b' -> p c = false).
Proof.
  revert a b. induction s as [|x s IH]; intros a b; cbn [span].
  - intros [= <- <-]. repeat split. discriminate.
  - destruct (p x) eqn:Px.
    + destruct (span p s) as [a0 b0]. intros [= <- <-].
      destruct (IH _ _ eq_refl) as (-> & Ha & Hb). cbn [all_of]. rewrite Px, Ha. auto.
    + intros [= <- <-]. repeat split. intros c b' [= <- <-]. exact Px.
Qed.

Lemma space_not_digit c : is_space c = true -> is_digit c = false.
Proof.
  unfold is_space, is_digit. generalize (code c). intros n H.
  apply orb_true_iff in H as [H|H]; apply andb_true_iff in H as [H1 H2];
    apply N.leb_le in H1, H2; apply andb_false_iff;
    left; apply N.leb_gt; lia.
Qed.

Lemma append_length (a b : string) :
  String.length (a +:+ b) = String.length a + String.length b.
Proof. induction a as [|x a IH]; [reflexivity|]. rewrite append_cons. simpl. now rewrite IH. Qed.

Lemma eqb_empty_false (s : string) : s <> "" -> (s =? "") = false.
Proof. intros H. now apply String.eqb_neq. Qed.

Lemma match_here_sound words s n len :
  match_here words s = Some (n, len) -> occurs_here words s n.
Proof.
  unfold match_here.
  destruct (span is_digit s) as [digits r1] eqn:E1.
  destruct (span is_space r1) as [blanks r2] eqn:E2.
  destruct (String.eqb_spec digits "") as [|Hd]; [discriminate|].
  destruct (String.eqb_spec blanks "") as [|Hb]; [discriminate|].
  cbn [orb].
  destruct (find (startswith r2) words) as [w|] eqn:F; [|discriminate].
  intros [= <- _].
  apply span_inv in E1 as (-> & Ad & _). apply span_inv in E2 as (-> & Ab & _).
  apply find_some in F as [Hw Hs]. apply startswith_spec in Hs as [rest ->].
  exists digits, blanks, w, rest. repeat split; auto.
Qed.

Lemma match_here_complete words s n :
  Forall starts_with_letter words ->
  occurs_here words s n -> exists len, match_here words s = Some (n, len).
Proof.
  intros Hw (digits & blanks & w & rest & -> & Hd & Ad & Hb & Ab & Iw & ->).
  unfold match_here.
  assert (Nd : forall c b', blanks +:+ w +:+ rest = String c b' -> is_digit c = false).
  { intros c b' E. destruct blanks as [|x blanks]; [easy|].
    rewrite append_cons in E. injection E as -> _.
    apply space_not_digit. cbn in Ab. now apply andb_true_iff in Ab as [? _]. }
  rewrite (span_app is_digit digits _ Ad Nd).
  rewrite (span_app is_space blanks).
  - rewrite (eqb_empty_false _ Hd), (eqb_empty_false _ Hb). cbn [orb].
    destruct (find (startswith (w +:+ rest)) words) as [w'|] eqn:F; [eauto|].
    apply (find_none _ _ F) in Iw.
    assert (startswith (w +:+ rest) w = true) by (apply startswith_spec; eauto).
    congruence.
  - exact Ab.
  - intros c b' E. rewrite List.Forall_forall in Hw.
    destruct (Hw _ Iw) as (x & w' & -> & Hx).
    rewrite append_cons in E. now injection E as -> _.
Qed.

Lemma drop_app (a b : string) : drop (String.length a) (a +:+ b) = b.
Proof. induction a as [|x a IH]; [destruct b; reflexivity|]. exact IH. Qed.

Lemma findall_from_skip words s :
  forall k, findall_from words s k = findall_from words (drop k s) 0.
Proof.
  induction s as [|c s IH]; intros k.
  - destruct k; reflexivity.
  - destruct k as [|k]; [reflexivity|]. cbn [findall_from drop]. apply IH.
Qed.

(** No occurrence anywhere in the text: nothing is found. *)
Lemma findall_none words s :
  (forall pre s' n, s = pre +:+ s' -> ~ occurs_here words s' n) ->
  findall words s = [].
Proof.
  unfold findall. induction s as [|c s IH]; intros H; [reflexivity|].
  cbn [findall_from].
  destruct (match_here words (String c s)) as [[n len]|] eqn:E.
  - apply match_here_sound in E. now apply (H "" _ n) in E.
  - apply IH. intros pre s' n ->. apply (H (String c pre)). reflexivity.
Qed.

(** An occurrence at the start of the text is found, and the search goes on
    right after it. *)
Lemma findall_here words digits blanks w rest :
  digits <> "" -> all_digits digits = true ->
  blanks <> "" -> all_blanks blanks = true ->
  starts_with_letter w ->
  find (startswith (w +:+ rest)) words = Some w ->
  findall words (digits +:+ blanks +:+ w +:+ rest)
  = digits_value digits 0 :: findall words rest.
Proof.
  intros Hd Ad Hb Ab (x & w' & -> & Hx) F.
  assert (E : match_here words (digits +:+ blanks +:+ String x w' +:+ rest)
              = Some (digits_value digits 0,
                      String.length digits + String.length blanks
                      + String.length (String x w'))).
  { unfold match_here.
    assert (Nd : forall c b', blanks +:+ String x w' +:+ rest = String c b' ->
                              is_digit c = false).
    { intros c b' E. destruct blanks as [|y blanks]; [easy|].
      rewrite append_cons in E. injection E as -> _.
      apply space_not_digit. cbn in Ab. now apply andb_true_iff in Ab as [? _]. }
    rewrite (span_app is_digit digits _ Ad Nd).
    rewrite (span_app is_space blanks _ Ab)
      by (intros c b' E; rewrite append_cons in E; now injection E as -> _).
    rewrite (eqb_empty_false _ Hd), (eqb_empty_false _ Hb). cbn [orb].
    now rewrite F. }
  unfold findall.
  destruct digits as [|d digits]; [easy|].
  rewrite append_cons in *. cbn [findall_from]. rewrite E. f_equal.
  rewrite findall_from_skip. f_equal.
  replace (String.length (String d digits) + String.length blanks
           + String.length (String x w') - 1)
    with (String.length (digits +:+ blanks +:+ String x w'))
    by (rewrite !append_length; cbn [String.length]; lia).
  replace (digits +:+ blanks +:+ String x w' +:+ rest)
    with ((digits +:+ blanks +:+ String x w') +:+ rest)
    by (now rewrite !append_assoc).
  apply drop_app.
Qed.

(** The same for the pattern of the changes: its three words start with
    different letters, so the word found is the word that occurs. *)
Lemma findall_change_here digits blanks w rest :
  digits <> "" -> all_digits digits = true ->
  blanks <> "" -> all_blanks blanks = true ->
  In w change_words ->
  findall change_words (digits +:+ blanks +:+ w +:+ rest)
  = digits_value digits 0 :: findall change_words rest.
Proof.
  intros Hd Ad Hb Ab Hw. apply findall_here; try assumption.
  - destruct Hw as [<-|[<-|[<-|[]]]]; eexists _, _; split; reflexivity.
  - destruct Hw as [<-|[<-|[<-|[]]]]; reflexivity.
Qed.

(** A character that is not a digit starts no occurrence. *)
Lemma match_here_not_digit words c s :
  is_digit c = false -> match_here words (String c s) = None.
Proof.
  intros H. unfold match_here. cbn [span]. rewrite H.
  now destruct (span is_space (String c s)).
Qed.

Lemma findall_skip words c s :
  match_here words (String c s) = None ->
  findall words (String c s) = findall words s.
Proof. intros H. unfold findall. cbn [findall_from]. now rewrite H. Qed.

Lemma search_sound words s n :
  search words s = Some n ->
  exists pre s', s = pre +:+ s' /\ occurs_here words s' n.
Proof.
  induction s as [|c s IH]; cbn [search].
  - destruct (match_here words "") as [[m len]|] eqn:E; [|discriminate].
    intros [= ->]. exists "", "". split; [reflexivity|]. eapply match_here_sound, E.
  - destruct (match_here words (String c s)) as [[m len]|] eqn:E.
    + intros [= ->]. exists "", (String c s). split; [reflexivity|].
      eapply match_here_sound, E.
    + intros H. destruct (IH H) as (pre & s' & -> & O).
      exists (String c pre), s'. split; [reflexivity | exact O].
Qed.

Lemma search_none words s :
  Forall starts_with_letter words ->
  search words s = None ->
  forall pre s' n, s = pre +:+ s' -> ~ occurs_here words s' n.
Proof.
  intros Hw. induction s as [|c s IH]; cbn [search]; intros H pre s' n E O.
  - destruct pre; [|discriminate]. rewrite append_nil_l in E. subst s'.
    destruct (match_here_complete _ _ _ Hw O) as [len M]. now rewrite M in H.
  - destruct (match_here words (String c s)) as [[m len]|] eqn:M; [discriminate|].
    destruct pre as [|x pre].
    + rewrite append_nil_l in E. subst s'.
      destruct (match_here_complete _ _ _ Hw O) as [len M']. congruence.
    + rewrite append_cons in E. injection E as -> ->. now apply (IH H pre s' n).
Qed.

(** The leftmost occurrence is the one [search] reports. *)
Lemma search_first words pre s' n :
  Forall starts_with_letter words ->
  occurs_here words s' n ->
  (forall pre1 pre2 m, pre = pre1 +:+ pre2 -> pre2 <> "" ->
     ~ occurs_here words (pre2 +:+ s') m) ->
  search words (pre +:+ s') = Some n.
Proof.
  intros Hw O. induction pre as [|c pre IH]; intros H.
  - rewrite append_nil_l. destruct (match_here_complete _ _ _ Hw O) as [len M].
    destruct s'; cbn [search]; now rewrite M.
  - rewrite append_cons. cbn [search].
    destruct (match_here words (String c (pre +:+ s'))) as [[m len]|] eqn:M.
    + apply match_here_sound in M. exfalso.
      apply (H "" (String c pre) m); [reflexivity|discriminate|exact M].
    + apply IH. intros pre1 pre2 m -> Hne. apply (H (String c pre1)). reflexivity. exact Hne.
Qed.

End PatternFacts.
(** ** The status parser *)

(** C4: [get_status] raises [NameError] on every call.  The module imports
    [subprocess], [re] and [datetime] but not [os], so building the initial
    dictionary fails right after the tool has run, before any parsing. *)
Theorem get_status_raises_name_error :
  forall (h : Host) (t : Trace),
    SnapRAIDManager.get_status h t
    = (Raise (NameError "os"), t ++ [Run "/usr/local/bin/snapraid status"]).
Proof.
  intros h t. unfold SnapRAIDManager.get_status, SnapRAIDManager.run_command.
  unfold bind, perform. destruct (h t (Run _)); reflexivity.
Qed.

(** C5, the claim as stated fails on its own example: the sentinel is the
    exact text [No differences], with a capital N. *)
Lemma lowercase_sentinel_not_protected :
  SnapRAIDManager.get_status_parse "no differences found"
    (SnapRAIDManager.initial_status true)
  = {| SnapRAIDManager.configured := true;
       SnapRAIDManager.protected := false;
       SnapRAIDManager.files_count := 0;
       SnapRAIDManager.changes := 0;
       SnapRAIDManager.last_sync := None |}.
Proof. reflexivity. Qed.

(** C5, as the code has it (the analysis of lines 39 to 53, applied to the
    tool's output).  A text that contains [No differences] (case-sensitive)
    gives [protected = True] and [changes = 0]; any other text leaves
    [protected] as it was and sets [changes] to the sum of the numbers found
    by the pattern for added, removed and updated, which is 0 when the
    pattern occurs nowhere.  In both cases [files_count] is the number of
    the leftmost occurrence of the pattern for files, and stays as it was (0)
    when there is none. *)
Theorem get_status_parse_spec :
  forall (output : string) (status : SnapRAIDManager.Status),
    let r := SnapRAIDManager.get_status_parse output status in
    ((exists a b, output = a +:+ "No differences" +:+ b) ->
       SnapRAIDManager.protected r = true /\ SnapRAIDManager.changes r = 0%N)
    /\ (~ (exists a b, output = a +:+ "No differences" +:+ b) ->
       SnapRAIDManager.protected r = SnapRAIDManager.protected status
       /\ SnapRAIDManager.changes r
          = fold_right N.add 0%N
              (SnapRAIDManager.findall SnapRAIDManager.change_words output)
       /\ ((forall pre s' n, output = pre +:+ s' ->
              ~ occurs_here SnapRAIDManager.change_words s' n) ->
           SnapRAIDManager.changes r = 0%N))
    /\ SnapRAIDManager.files_count r
       = match SnapRAIDManager.search SnapRAIDManager.files_words output with
         | Some n => n
         | None => SnapRAIDManager.files_count status
         end
    /\ ((forall pre s' n, output = pre +:+ s' ->
           ~ occurs_here SnapRAIDManager.files_words s' n) ->
        SnapRAIDManager.files_count r = SnapRAIDManager.files_count status)
    /\ (forall pre s' n,
          output = pre +:+ s' ->
          occurs_here SnapRAIDManager.files_words s' n ->
          (forall pre1 pre2 m, pre = pre1 +:+ pre2 -> pre2 <> "" ->
             ~ occurs_here SnapRAIDManager.files_words (pre2 +:+ s') m) ->
          SnapRAIDManager.files_count r = n).
Proof.
  intros output status r.
  assert (Wf : Forall starts_with_letter SnapRAIDManager.files_words).
  { repeat constructor. exists "f"%char, "iles". split; reflexivity. }
  assert (F : SnapRAIDManager.files_count r
       = match SnapRAIDManager.search SnapRAIDManager.files_words output with
         | Some n => n
         | None => SnapRAIDManager.files_count status
         end).
  { subst r. unfold SnapRAIDManager.get_status_parse.
    destruct (SnapRAIDManager.search _ output); [reflexivity|].
    destruct (PyStr.contains _ output); reflexivity. }
  split; [|split; [|split; [exact F|split]]].
  - intros H. apply contains_spec in H. subst r.
    unfold SnapRAIDManager.get_status_parse. rewrite H.
    destruct (SnapRAIDManager.search _ output); split; reflexivity.
  - intros H. assert (C : PyStr.contains "No differences" output = false).
    { destruct (PyStr.contains _ output) eqn:C; [|reflexivity].
      apply contains_spec in C. contradiction. }
    subst r. unfold SnapRAIDManager.get_status_parse. rewrite C.
    split; [|split].
    + destruct (SnapRAIDManager.search _ output); reflexivity.
    + destruct (SnapRAIDManager.search _ output); reflexivity.
    + intros N. rewrite (findall_none _ _ N).
      destruct (SnapRAIDManager.search _ output); reflexivity.
  - intros N. rewrite F.
    destruct (SnapRAIDManager.search _ output) as [n|] eqn:S; [|reflexivity].
    apply search_sound in S as (pre & s' & E & O). exfalso. exact (N _ _ _ E O).
  - intros pre s' n -> O L. rewrite F. now rewrite (search_first _ _ _ _ Wf O L).
Qed.

(** The two examples of C5, with the sentinel spelled as the code tests it. *)
Lemma get_status_parse_examples :
  SnapRAIDManager.get_status_parse "No differences found"
    (SnapRAIDManager.initial_status true)
  = {| SnapRAIDManager.configured := true;
       SnapRAIDManager.protected := true;
       SnapRAIDManager.files_count := 0;
       SnapRAIDManager.changes := 0;
       SnapRAIDManager.last_sync := None |}
  /\ SnapRAIDManager.get_status_parse "3 added, 2 removed, 12 files"
       (SnapRAIDManager.initial_status true)
     = {| SnapRAIDManager.configured := true;
          SnapRAIDManager.protected := false;
          SnapRAIDManager.files_count := 12;
          SnapRAIDManager.changes := 5;
          SnapRAIDManager.last_sync := None |}.
Proof. split; reflexivity. Qed.

(** ** The parity adapter *)

Lemma readlines_nonempty s : Forall (fun line => line <> "") (PyStr.readlines s).
Proof.
  induction s as [|c s IH]; cbn [PyStr.readlines]; [constructor|].
  destruct (Ascii.eqb c "010").
  - constructor; [discriminate | exact IH].
  - destruct (PyStr.readlines s) as [|l ls]; [repeat constructor; discriminate|].
    destruct s; constructor; try discriminate; try constructor.
    now inversion IH.
Qed.

(** The time shown by the clock after history [t]. *)
Lemma now_eq h t :
  exists ts, SnapRAIDManager.now h t = (Ok ts, t ++ [Now]).
Proof.
  unfold SnapRAIDManager.now, bind, perform.
  destruct (h t Now); eexists; reflexivity.
Qed.

Lemma line_event_message type line ts :
  message_of (SnapRAIDManager.line_event type line ts) = PyStr.strip line
  /\ type_of (SnapRAIDManager.line_event type line ts) = type.
Proof.
  unfold message_of, type_of, SnapRAIDManager.line_event. split.
  - rewrite lookup_insert_ne by discriminate. now rewrite lookup_insert_eq.
  - rewrite !lookup_insert_ne by discriminate. now rewrite lookup_insert_eq.
Qed.

(** One read of the output: the host returns the line or raises. *)
Lemma readline_eq line h t :
  SnapRAIDManager.readline line h t
  = (match h t (ReadLine line) with
     | Returned _ _ => Ok line
     | Threw msg => Raise (Exception msg)
     end, t ++ [ReadLine line]).
Proof.
  unfold SnapRAIDManager.readline, bind, perform.
  destruct (h t (ReadLine line)); reflexivity.
Qed.

(** The loop yields one dictionary per line read, blank or not: the guard
    [if line:] never fails, since [readline] keeps the line terminator.  It
    stops at the first read that raises, after the lines already read. *)
Lemma stream_lines_run type lines :
  Forall (fun line => line <> "") lines ->
  forall yielded h t,
  exists read new ending t',
    SnapRAIDManager.stream_lines type lines yielded h t
    = (Ok (yielded ++ new, ending), t')
    /\ map message_of new = map PyStr.strip read
    /\ Forall (fun data => type_of data = type) new
    /\ ((ending = None /\ read = lines)
        \/ exists msg failed rest,
             ending = Some (Exception msg) /\ lines = read ++ failed :: rest)
    /\ exists d, t' = t ++ d /\ emitted d = [].
Proof.
  induction 1 as [|line lines Hl _ IH]; intros yielded h t.
  - exists [], [], None, t. cbn [SnapRAIDManager.stream_lines]. unfold ret.
    rewrite app_nil_r. repeat split; auto.
    exists []. now rewrite app_nil_r.
  - cbn [SnapRAIDManager.stream_lines].
    erewrite bind_ok by (unfold attempt; rewrite readline_eq; reflexivity).
    destruct (h t (ReadLine line)) as [rc out|msg]; cbn [fst snd].
    + apply String.eqb_neq in Hl. rewrite Hl. cbn [negb].
      destruct (now_eq h (t ++ [ReadLine line])) as [ts E].
      erewrite bind_ok by exact E.
      destruct (IH (yielded ++ [SnapRAIDManager.line_event type line ts]) h
                  ((t ++ [ReadLine line]) ++ [Now]))
        as (read & new & ending & t' & E' & Hm & Ht & He & d & Ed & Em).
      exists (line :: read), (SnapRAIDManager.line_event type line ts :: new), ending, t'.
      rewrite E', <- app_assoc. split; [reflexivity|]. split.
      { cbn [map]. rewrite Hm. now rewrite (proj1 (line_event_message type line ts)). }
      split; [constructor; [apply line_event_message | exact Ht]|]. split.
      { destruct He as [[-> ->]|(msg & failed & rest & -> & ->)]; [now left|].
        right. now exists msg, failed, rest. }
      exists (ReadLine line :: Now :: d). rewrite Ed, <- !app_assoc. split; [reflexivity|].
      exact Em.
    + exists [], [], (Some (Exception msg)), (t ++ [ReadLine line]).
      unfold ret. rewrite app_nil_r. split; [reflexivity|]. split; [reflexivity|].
      split; [constructor|]. split.
      { right. now exists msg, line, lines. }
      now exists [ReadLine line].
Qed.

(** On a host whose reads all return, the loop reads every line. *)
Lemma stream_lines_all type lines :
  Forall (fun line => line <> "") lines ->
  forall yielded h t,
    decodes h ->
    exists new t',
      SnapRAIDManager.stream_lines type lines yielded h t = (Ok (yielded ++ new, None), t')
      /\ map message_of new = map PyStr.strip lines
      /\ Forall (fun data => type_of data = type) new.
Proof.
  induction 1 as [|line lines Hl _ IH]; intros yielded h t Hh.
  - exists [], t. cbn [SnapRAIDManager.stream_lines]. unfold ret.
    rewrite app_nil_r. repeat split; auto.
  - cbn [SnapRAIDManager.stream_lines].
    erewrite bind_ok by (unfold attempt; rewrite readline_eq; reflexivity).
    destruct (Hh t line) as (rc & out & ->). cbn [fst snd].
    apply String.eqb_neq in Hl. rewrite Hl. cbn [negb].
    destruct (now_eq h (t ++ [ReadLine line])) as [ts E].
    erewrite bind_ok by exact E.
    destruct (IH (yielded ++ [SnapRAIDManager.line_event type line ts]) h
                ((t ++ [ReadLine line]) ++ [Now]) Hh) as (new & t' & E' & Hm & Ht).
    exists (SnapRAIDManager.line_event type line ts :: new), t'.
    rewrite E', <- app_assoc. split; [reflexivity|]. split.
    + cbn [map]. rewrite Hm. now rewrite (proj1 (line_event_message type line ts)).
    + constructor; [apply line_event_message | exact Ht].
Qed.

(** Every run of the adapter, whatever the host answers: nothing when the
    process cannot be started; otherwise a message for each line read, and
    then either the final dictionary, when every line was read, or the
    exception of the read that failed, and no final dictionary. *)
Lemma parity_adapter_run (op : Operation) (h : Host) (t : Trace) :
  exists yielded ending t',
    adapter op h t = (Ok (yielded, ending), t')
    /\ match h t (Popen (command_of op)) with
       | Threw msg => yielded = [] /\ ending = Some (OSError msg)
       | Returned returncode stdout =>
           exists read messages,
             map message_of messages = map PyStr.strip read
             /\ Forall (fun data => type_of data = type_name op) messages
             /\ ((ending = None /\ read = PyStr.readlines stdout
                  /\ yielded = messages ++ [final_of op returncode])
                 \/ exists msg failed rest,
                      ending = Some (Exception msg)
                      /\ PyStr.readlines stdout = read ++ failed :: rest
                      /\ yielded = messages)
       end.
Proof.
  destruct op; cbn [adapter command_of final_of type_name];
    [unfold SnapRAIDManager.sync_with_progress
    |unfold SnapRAIDManager.scrub_with_progress];
    unfold bind at 1, perform;
    [change (SnapRAIDManager.snapraid_bin +:+ " sync")
       with "/usr/local/bin/snapraid sync"
    |change (SnapRAIDManager.snapraid_bin +:+ " scrub -p 10")
       with "/usr/local/bin/snapraid scrub -p 10"];
    (destruct (h t (Popen _)) as [rc out|msg];
     [|eexists _, _, _; split; [reflexivity | split; reflexivity]]).
  - destruct (stream_lines_run "sync" _ (readlines_nonempty out) [] h
                (t ++ [Popen "/usr/local/bin/snapraid sync"]))
      as (read & new & ending & t' & E & Hm & Ht & He & _).
    erewrite bind_ok by exact E. cbn [app].
    destruct He as [[-> ->]|(msg & failed & rest & -> & Hl)].
    + destruct (rc =? 0)%Z; eexists _, _, _; (split; [reflexivity|]);
        exists (PyStr.readlines out), new; (split; [exact Hm|]);
        (split; [exact Ht|]); left; auto.
    + eexists _, _, _. split; [reflexivity|].
      exists read, new. split; [exact Hm|]. split; [exact Ht|].
      right. now exists msg, failed, rest.
  - destruct (stream_lines_run "scrub" _ (readlines_nonempty out) [] h
                (t ++ [Popen "/usr/local/bin/snapraid scrub -p 10"]))
      as (read & new & ending & t' & E & Hm & Ht & He & _).
    erewrite bind_ok by exact E. cbn [app].
    destruct He as [[-> ->]|(msg & failed & rest & -> & Hl)].
    + eexists _, _, _. split; [reflexivity|].
      exists (PyStr.readlines out), new. split; [exact Hm|]. split; [exact Ht|].
      left. auto.
    + eexists _, _, _. split; [reflexivity|].
      exists read, new. split; [exact Hm|]. split; [exact Ht|].
      right. now exists msg, failed, rest.
Qed.

(** A run that is read to its end: for a process that wrote [stdout] and
    ended with [returncode], on a host whose reads all return, the adapter
    yields one message dictionary per line read by [readline], and then one
    final dictionary: for scrub always [complete] with
    [success = (returncode == 0)], for sync [complete] with [success = True]
    on status 0 and [error] otherwise.  The guard [if line:] sees the line
    with its terminator, so it skips nothing: a blank line gives a message
    dictionary too, with an empty message. *)
Theorem parity_adapter_events :
  forall (op : Operation) (h : Host) (t : Trace) (returncode : Z) (stdout : string),
    h t (Popen (command_of op)) = Returned returncode stdout ->
    decodes h ->
    exists yielded t',
      adapter op h t = (Ok (yielded ++ [final_of op returncode], None), t')
      /\ map message_of yielded = map PyStr.strip (PyStr.readlines stdout)
      /\ length yielded = length (PyStr.readlines stdout)
      /\ Forall (fun data => type_of data = type_name op) yielded
      /\ type_of (final_of op returncode)
         = match op with
           | Scrub => "complete"
           | Sync => if (returncode =? 0)%Z then "complete" else "error"
           end
      /\ final_of op returncode !! "success" = Some (PBool (returncode =? 0)%Z).
Proof.
  intros op h t returncode stdout P Hh.
  destruct op; cbn [adapter command_of final_of type_name] in *.
  - unfold SnapRAIDManager.sync_with_progress. unfold bind at 1, perform.
    change (SnapRAIDManager.snapraid_bin +:+ " sync") with "/usr/local/bin/snapraid sync".
    rewrite P.
    destruct (stream_lines_all "sync" _ (readlines_nonempty stdout) [] h
                (t ++ [Popen "/usr/local/bin/snapraid sync"]) Hh)
      as (yielded & t' & E & Hm & Ht).
    erewrite bind_ok by exact E. cbn [app].
    exists yielded, t'. split; [destruct (returncode =? 0)%Z; reflexivity|].
    split; [exact Hm|]. split.
    { rewrite <- (length_map message_of), Hm. apply length_map. }
    split; [exact Ht|].
    destruct (returncode =? 0)%Z; split; reflexivity.
  - unfold SnapRAIDManager.scrub_with_progress. unfold bind at 1, perform.
    change (SnapRAIDManager.snapraid_bin +:+ " scrub -p 10")
      with "/usr/local/bin/snapraid scrub -p 10".
    rewrite P.
    destruct (stream_lines_all "scrub" _ (readlines_nonempty stdout) [] h
                (t ++ [Popen "/usr/local/bin/snapraid scrub -p 10"]) Hh)
      as (yielded & t' & E & Hm & Ht).
    erewrite bind_ok by exact E. cbn [app].
    exists yielded, t'. split; [reflexivity|].
    split; [exact Hm|]. split.
    { rewrite <- (length_map message_of), Hm. apply length_map. }
    split; [exact Ht|]. split; reflexivity.
Qed.

(** The tool prints [scanning], an empty line and [done], then ends with
    status 0: three message dictionaries, the second with an empty message,
    before the final one. *)
Lemma parity_adapter_events_witness :
  blank_line_host [] (Popen (command_of Sync))
  = Returned 0 ("scanning" +:+ PyStr.nl +:+ PyStr.nl +:+ "done" +:+ PyStr.nl)
  /\ decodes blank_line_host
  /\ exists yielded t',
       adapter Sync blank_line_host []
       = (Ok (yielded ++ [SnapRAIDManager.final_event "complete" "اكتمل Sync بنجاح" true],
              None), t')
       /\ map message_of yielded = ["scanning"; ""; "done"].
Proof.
  assert (D : decodes blank_line_host) by (intros t line; now exists 0%Z, "").
  split; [reflexivity|]. split; [exact D|].
  destruct (parity_adapter_events Sync blank_line_host [] 0
              ("scanning" +:+ PyStr.nl +:+ PyStr.nl +:+ "done" +:+ PyStr.nl) eq_refl D)
    as (yielded & t' & E & Hm & _).
  exists yielded, t'. split; [exact E | exact Hm].
Defined.

(** C6 does not hold of the code: the guard [if line:], which is there to
    skip the empty lines, never fails, since [readline] keeps the line
    terminator.  The tool prints [scanning], an empty line and [done], and
    ends with status 0: the adapter yields three message dictionaries, one
    of them for the empty line, with an empty message, and then the final
    one, where the claim has one message event per non-empty line, two
    here. *)
Theorem sync_blank_line_is_yielded :
  blank_line_host [] (Popen "/usr/local/bin/snapraid sync")
  = Returned 0 ("scanning" +:+ PyStr.nl +:+ PyStr.nl +:+ "done" +:+ PyStr.nl)
  /\ PyStr.readlines ("scanning" +:+ PyStr.nl +:+ PyStr.nl +:+ "done" +:+ PyStr.nl)
     = ["scanning" +:+ PyStr.nl; PyStr.nl; "done" +:+ PyStr.nl]
  /\ fst (SnapRAIDManager.sync_with_progress blank_line_host [])
     = Ok ([ SnapRAIDManager.line_event "sync" ("scanning" +:+ PyStr.nl) "2026-01-01T00:00:00";
             SnapRAIDManager.line_event "sync" PyStr.nl "2026-01-01T00:00:00";
             SnapRAIDManager.line_event "sync" ("done" +:+ PyStr.nl) "2026-01-01T00:00:00";
             SnapRAIDManager.final_event "complete" "اكتمل Sync بنجاح" true ], None)
  /\ map message_of
       [ SnapRAIDManager.line_event "sync" ("scanning" +:+ PyStr.nl) "2026-01-01T00:00:00";
         SnapRAIDManager.line_event "sync" PyStr.nl "2026-01-01T00:00:00";
         SnapRAIDManager.line_event "sync" ("done" +:+ PyStr.nl) "2026-01-01T00:00:00" ]
     = ["scanning"; ""; "done"].
Proof. repeat split; vm_compute; reflexivity. Qed.

(** Three lines and status 0, the example of the claim: three messages, then
    [complete] with [success = True]. *)
Example sync_three_lines :
  match fst (SnapRAIDManager.sync_with_progress three_line_host []) with
  | Ok (yielded, ending) =>
      map message_of yielded = ["a"; "b"; "c"; "اكتمل Sync بنجاح"] /\ ending = None
  | Raise _ => False
  end.
Proof. vm_compute. split; reflexivity. Qed.

(** A read that fails: the tool prints [ok] and then bytes that do not
    decode.  The adapter yields the message [ok] and ends with the exception
    of the read; no final dictionary follows. *)
Example sync_read_failure :
  fst (SnapRAIDManager.sync_with_progress undecodable_host [])
  = Ok ([SnapRAIDManager.line_event "sync" ("ok" +:+ PyStr.nl) "2026-01-01T00:00:00"],
        Some (Exception "'utf-8' codec can't decode byte 0xff in position 0: invalid start byte")).
Proof. vm_compute. reflexivity. Qed.

(** *** Computations that never raise *)

Lemma total_ret {A} (a : A) : total (ret a).
Proof. intros h t. now exists a, t. Qed.

Lemma total_bind {A B} (c : M A) (k : A -> M B) :
  total c -> (forall a, total (k a)) -> total (bind c k).
Proof.
  intros Hc Hk h t. destruct (Hc h t) as (a & t1 & E).
  destruct (Hk a h t1) as (b & t2 & E2). exists b, t2.
  now erewrite bind_ok by apply E.
Qed.

Lemma total_perform a : total (perform a).
Proof. intros h t. now eexists _, _. Qed.

Lemma total_run_command cmd : total (DiskManager.run_command cmd).
Proof. intros h t. eexists _, _. apply run_command_eq. Qed.

Lemma total_step {A B} (c : M A) (k : A -> M B) h t :
  total c -> exists a t', bind c k h t = k a h t'.
Proof.
  intros Hc. destruct (Hc h t) as (a & t1 & E). exists a, t1. now apply bind_ok.
Qed.

Create HintDb total.
#[local] Hint Resolve total_ret total_perform total_run_command : total.
#[local] Hint Extern 2 (total (bind _ _)) => apply total_bind; [|intros] : total.
#[local] Hint Extern 3 (total (match ?x with _ => _ end)) => destruct x : total.
#[local] Hint Extern 3 (total (if ?x then _ else _)) => destruct x : total.

Lemma total_get_system_disk : total DiskManager.get_system_disk.
Proof. unfold DiskManager.get_system_disk. auto with total. Qed.

Lemma total_is_usb_disk d : total (DiskManager.is_usb_disk d).
Proof. unfold DiskManager.is_usb_disk. auto with total. Qed.

Lemma total_get_disk_size_gb d : total (DiskManager.get_disk_size_gb d).
Proof. unfold DiskManager.get_disk_size_gb. auto with total. Qed.

Lemma total_get_disk_type d : total (DiskManager.get_disk_type d).
Proof. unfold DiskManager.get_disk_type. auto with total. Qed.

Lemma total_get_disk_model d : total (DiskManager.get_disk_model d).
Proof. unfold DiskManager.get_disk_model. auto with total. Qed.

Lemma total_get_disk_serial d : total (DiskManager.get_disk_serial d).
Proof. unfold DiskManager.get_disk_serial. auto with total. Qed.

Lemma total_is_mounted d : total (DiskManager.is_mounted d).
Proof. unfold DiskManager.is_mounted. auto with total. Qed.

Lemma total_is_system_mount d : total (DiskManager.is_system_mount d).
Proof. unfold DiskManager.is_system_mount. auto with total. Qed.

Lemma total_excluded_reason sd d : total (DiskManager.excluded_reason sd d).
Proof.
  pose proof total_is_usb_disk. pose proof total_get_disk_size_gb.
  pose proof total_is_system_mount.
  unfold DiskManager.excluded_reason. auto 20 with total.
Qed.

(** Run the first call of a sequence, which never raises. *)
Ltac run_total L :=
  match goal with
  | |- context [bind ?c ?k ?h ?t] =>
      let a := fresh "a" in
      let t' := fresh "t" in
      let E := fresh "E" in
      destruct (total_step c k h t L) as (a & t' & E); rewrite E; clear E
  end.

(** What one turn of the loop does with a non-empty name: a dictionary
    named after the disk, filed by its reason. *)
Lemma detect_one_eq system_disk acc disk h t :
  disk <> "" ->
  exists reason t1 disk_info t',
    DiskManager.excluded_reason system_disk disk h t = (Ok reason, t1)
    /\ DiskManager.detect_one system_disk acc disk h t
       = (Ok (match reason with
              | Some _ => (fst acc, snd acc ++ [disk_info])
              | None => (fst acc ++ [disk_info], snd acc)
              end), t')
    /\ DiskManager.di_name disk_info = "/dev/" +:+ disk
    /\ DiskManager.di_reason disk_info = reason
    /\ exists size_gb, DiskManager.di_size disk_info = DiskManager.format_size size_gb.
Proof.
  intros Hd. unfold DiskManager.detect_one.
  apply String.eqb_neq in Hd. rewrite Hd.
  destruct (total_excluded_reason system_disk disk h t) as (reason & t1 & E).
  exists reason, t1. erewrite bind_ok by apply E.
  run_total (total_get_disk_size_gb disk).
  run_total (total_get_disk_type disk).
  run_total (total_get_disk_model disk).
  run_total (total_get_disk_serial disk).
  run_total (total_is_mounted disk).
  destruct reason; eexists _, _; (split; [exact E|]);
    (split; [reflexivity|]); (split; [reflexivity|]);
    (split; [reflexivity|]); eexists; reflexivity.
Qed.

(** ** The classifier *)

(** The reason computed by the chain is that of the first rule that
    applies, [None] when none does. *)
Lemma excluded_reason_eq h t system_disk disk :
  exists t',
    DiskManager.excluded_reason system_disk disk h t
    = (Ok (option_map rule_reason
             (find (rule_applies h t system_disk disk) [1; 2; 3; 4; 5])), t').
Proof.
  unfold DiskManager.excluded_reason. cbn [find].
  change (rule_applies h t system_disk disk 1)
    with (existsb (fun t => PyStr.startswith disk t) DiskManager.excluded_types).
  destruct (existsb _ DiskManager.excluded_types); [eexists; reflexivity|].
  change (rule_applies h t system_disk disk 2) with (disk =? system_disk).
  destruct (disk =? system_disk); [eexists; reflexivity|].
  unfold rule_applies.
  destruct (total_is_usb_disk disk h t) as (usb & t1 & E1).
  erewrite bind_ok by apply E1. rewrite E1. cbn [snd].
  unfold result_of at 1. cbn [fst].
  destruct usb; [eexists; reflexivity|].
  destruct (total_get_disk_size_gb disk h t1) as (size_gb & t2 & E2).
  erewrite bind_ok by apply E2. rewrite E2. cbn [snd].
  unfold result_of at 1. cbn [fst].
  destruct (Qltb size_gb _); [eexists; reflexivity|].
  destruct (total_is_system_mount disk h t2) as (mount & t3 & E3).
  erewrite bind_ok by apply E3. rewrite E3.
  unfold result_of. cbn [fst].
  destruct mount; eexists; reflexivity.
Qed.

Lemma find_first_rule (p : nat -> bool) k :
  1 <= k <= 5 -> p k = true -> (forall j, 1 <= j < k -> p j = false) ->
  find p [1; 2; 3; 4; 5] = Some k.
Proof.
  intros Hk Pk Lo.
  assert (C : k = 1 \/ k = 2 \/ k = 3 \/ k = 4 \/ k = 5) by lia.
  cbn [find].
  destruct C as [->|[->|[->|[->| ->]]]];
    rewrite ?(Lo 1), ?(Lo 2), ?(Lo 3), ?(Lo 4) by lia; now rewrite Pk.
Qed.

Lemma find_no_rule (p : nat -> bool) :
  (forall j, 1 <= j <= 5 -> p j = false) -> find p [1; 2; 3; 4; 5] = None.
Proof.
  intros H. cbn [find]. now rewrite (H 1), (H 2), (H 3), (H 4), (H 5) by lia.
Qed.

(** C7: the exclusion rules are tried in the order 1 virtual device, 2 system
    disk, 3 external usb disk, 4 too small, 5 mounted on a system path, and
    the first that applies wins: a disk to which rule [k] applies and no
    rule before it is reported with the reason of rule [k] alone, whatever
    the later rules say.  The loop files it under [excluded] with that one
    reason. *)
Theorem first_matching_rule_wins :
  forall (h : Host) (t : Trace) (system_disk disk : string)
         (acc : list DiskManager.DiskInfo * list DiskManager.DiskInfo) (k : nat),
    disk <> "" ->
    1 <= k <= 5 ->
    rule_applies h t system_disk disk k = true ->
    (forall j, 1 <= j < k -> rule_applies h t system_disk disk j = false) ->
    fst (DiskManager.excluded_reason system_disk disk h t)
    = Ok (Some (rule_reason k))
    /\ exists disk_info,
         fst (DiskManager.detect_one system_disk acc disk h t)
         = Ok (fst acc, snd acc ++ [disk_info])
         /\ DiskManager.di_name disk_info = "/dev/" +:+ disk
         /\ DiskManager.di_reason disk_info = Some (rule_reason k).
Proof.
  intros h t system_disk disk acc k Hd Hk Pk Lo.
  destruct (excluded_reason_eq h t system_disk disk) as [t1 E].
  rewrite (find_first_rule _ k Hk Pk Lo) in E. cbn [option_map] in E.
  split; [now rewrite E|].
  destruct (detect_one_eq system_disk acc disk h t Hd)
    as (reason & t1' & disk_info & t' & E' & D & Hn & Hr & _).
  rewrite E in E'. injection E' as <- <-.
  exists disk_info. rewrite D. auto.
Qed.

(** A disk that is both the system disk and too small is reported as the
    system disk. *)
Lemma first_matching_rule_wins_witness :
  rule_applies (const_host small_disk_facts) [] "sda" "sda" 2 = true
  /\ rule_applies (const_host small_disk_facts) [] "sda" "sda" 4 = true
  /\ fst (DiskManager.excluded_reason "sda" "sda" (const_host small_disk_facts) [])
     = Ok (Some DiskManager.reason_system).
Proof.
  split; [reflexivity|]. split; [vm_compute; reflexivity|].
  refine (proj1 (first_matching_rule_wins (const_host small_disk_facts) [] "sda" "sda"
                   ([], []) 2 _ _ _ _)).
  - discriminate.
  - lia.
  - reflexivity.
  - intros j Hj. assert (j = 1) as -> by lia. reflexivity.
Defined.

(** The five reasons are pairwise different. *)
Lemma rule_reasons_distinct : NoDup (map rule_reason [1; 2; 3; 4; 5]).
Proof. apply (bool_decide_unpack _). vm_compute. reflexivity. Qed.

(** When no rule applies the disk is available. *)
Lemma no_rule_available h t system_disk disk acc :
  disk <> "" ->
  (forall j, 1 <= j <= 5 -> rule_applies h t system_disk disk j = false) ->
  exists disk_info,
    fst (DiskManager.detect_one system_disk acc disk h t)
    = Ok (fst acc ++ [disk_info], snd acc)
    /\ DiskManager.di_name disk_info = "/dev/" +:+ disk
    /\ DiskManager.di_reason disk_info = None.
Proof.
  intros Hd No.
  destruct (excluded_reason_eq h t system_disk disk) as [t1 E].
  rewrite (find_no_rule _ No) in E. cbn [option_map] in E.
  destruct (detect_one_eq system_disk acc disk h t Hd)
    as (reason & t1' & disk_info & t' & E' & D & Hn & Hr & _).
  rewrite E in E'. injection E' as <- <-.
  exists disk_info. rewrite D. auto.
Qed.

(** ** Sorting *)

Lemma Qltb_lt x y : Qltb x y = true <-> (x < y)%Q.
Proof.
  unfold Qltb. rewrite negb_true_iff. split.
  - intros H. apply Qnot_le_lt. intros L. apply Qle_bool_iff in L. congruence.
  - intros H. destruct (Qle_bool y x) eqn:E; [|reflexivity].
    apply Qle_bool_iff in E. exfalso. exact (Qlt_not_le _ _ H E).
Qed.

Lemma Qltb_ge x y : Qltb x y = false <-> (y <= x)%Q.
Proof.
  unfold Qltb. rewrite negb_false_iff. apply Qle_bool_iff.
Qed.

Section SortFacts.
Context {A : Type} (key : A -> Q).

Lemma insert_desc_perm x l : Permutation (insert_desc key x l) (x :: l).
Proof.
  induction l as [|y l IH]; cbn [insert_desc]; [reflexivity|].
  destruct (Qltb (key x) (key y)); [|reflexivity].
  rewrite IH. apply perm_swap.
Qed.

Lemma sort_desc_perm l : Permutation (sort_desc key l) l.
Proof.
  induction l as [|x l IH]; cbn [sort_desc fold_right]; [reflexivity|].
  fold (sort_desc key l). rewrite insert_desc_perm. now constructor.
Qed.

Lemma insert_desc_sorted x l :
  StronglySorted (key_ge key) l -> StronglySorted (key_ge key) (insert_desc key x l).
Proof.
  induction 1 as [|y l Hl IH Hy]; cbn [insert_desc].
  - repeat constructor.
  - destruct (Qltb (key x) (key y)) eqn:E.
    + constructor; [exact IH|].
      rewrite insert_desc_perm.
      constructor; [|exact Hy]. apply Qltb_lt in E. now apply Qlt_le_weak.
    + apply Qltb_ge in E. constructor; [now constructor|].
      constructor; [exact E|].
      eapply List.Forall_impl; [|exact Hy]. intros z Hz. unfold key_ge in *.
      eapply Qle_trans; eassumption.
Qed.

Lemma sort_desc_sorted l : StronglySorted (key_ge key) (sort_desc key l).
Proof.
  induction l as [|x l IH]; cbn [sort_desc fold_right]; [constructor|].
  now apply insert_desc_sorted.
Qed.

Lemma insert_desc_with_key k x l :
  with_key key k (insert_desc key x l) = with_key key k (x :: l).
Proof.
  induction l as [|y l IH]; cbn [insert_desc]; [reflexivity|].
  destruct (Qltb (key x) (key y)) eqn:E; [|reflexivity].
  unfold with_key in *. cbn [List.filter] in *. rewrite IH.
  destruct (Qeq_bool (key x) k) eqn:Ex; [|reflexivity].
  destruct (Qeq_bool (key y) k) eqn:Ey; [|reflexivity].
  apply Qeq_bool_eq in Ex, Ey. apply Qltb_lt in E.
  rewrite Ex, Ey in E. now apply Qlt_irrefl in E.
Qed.

(** Stability: elements with the same key keep their relative order. *)
Lemma sort_desc_stable k l : with_key key k (sort_desc key l) = with_key key k l.
Proof.
  induction l as [|x l IH]; cbn [sort_desc fold_right]; [reflexivity|].
  fold (sort_desc key l). rewrite insert_desc_with_key.
  unfold with_key in *. cbn [List.filter]. now rewrite IH.
Qed.

End SortFacts.

(** ** Decimal text of a number and its value *)

Section DecimalFacts.
Import PyStr.



Lemma all_digits_uint d : all_digits (NilEmpty.string_of_uint d) = true.
Proof.
  unfold all_digits.
  induction d; cbn [NilEmpty.string_of_uint all_of]; try reflexivity;
    rewrite IHd; reflexivity.
Qed.

Lemma of_N_eq n : of_N n = NilEmpty.string_of_uint (N.to_uint n).
Proof.
  unfold of_N, NilZero.string_of_uint. destruct n as [|p]; [reflexivity|].
  cbn [N.to_uint]. destruct (Pos.to_uint p) eqn:E; try reflexivity.
  exfalso. revert E. apply DecimalPos.Unsigned.to_uint_nonnil.
Qed.

(** [of_N n] is a non-empty run of digits whose value is [n]. *)
Lemma of_N_digits n : all_digits (of_N n) = true.
Proof. rewrite of_N_eq. apply all_digits_uint. Qed.



End DecimalFacts.

(** ** Display and parsing of sizes *)

Section SizeFacts.
Import PyStr DiskManager.















Lemma round_half_even_floor x :
  round_half_even x = Qfloor x \/ round_half_even x = (Qfloor x + 1)%Z.
Proof.
  unfold round_half_even. destruct (_ ?= _)%Q; [destruct (Z.even _)| |]; auto.
Qed.







Lemma round_half_even_monotone x y :
  (x <= y)%Q -> (round_half_even x <= round_half_even y)%Z.
Proof.
  intros H. pose proof (Qfloor_resp_le _ _ H) as F.
  destruct (Z.eq_dec (Qfloor x) (Qfloor y)) as [E|N].
  - unfold round_half_even. rewrite <- E.
    assert (L : (x - inject_Z (Qfloor x) <= y - inject_Z (Qfloor x))%Q).
    { apply Qplus_le_l with (z := inject_Z (Qfloor x)). now ring_simplify. }
    destruct (Qcompare_spec (x - inject_Z (Qfloor x)) (1 # 2)) as [Cx|Cx|Cx];
      destruct (Qcompare_spec (y - inject_Z (Qfloor x)) (1 # 2)) as [Cy|Cy|Cy];
      try (destruct (Z.even (Qfloor x))); try lia; exfalso.
    all: try (rewrite Cx in L; exact (Qlt_not_le _ _ Cy L)).
    all: try (rewrite Cy in L; exact (Qlt_not_le _ _ Cx L)).
    all: apply (Qlt_not_le _ _ Cx); eapply Qle_trans; [exact L|]; now apply Qlt_le_weak.
  - destruct (round_half_even_floor x) as [-> | ->],
             (round_half_even_floor y) as [-> | ->]; lia.
Qed.

Lemma tenths_monotone x y :
  (x <= y)%Q ->
  (inject_Z (round_half_even (x * 10)) / 10 <= inject_Z (round_half_even (y * 10)) / 10)%Q.
Proof.
  intros H. apply Qmult_le_compat_r; [|discriminate].
  rewrite <- Zle_Qle. apply round_half_even_monotone.
  apply Qmult_le_compat_r; [exact H | discriminate].
Qed.

End SizeFacts.

(** ** The inventory *)

Lemma detect_loop_eq system_disk names :
  forall acc h t,
  exists new_available new_excluded t',
    for_fold names acc (DiskManager.detect_one system_disk) h t
    = (Ok (fst acc ++ new_available, snd acc ++ new_excluded), t')
    /\ sublist (map DiskManager.di_name new_available) (map (String.append "/dev/") names)
    /\ sublist (map DiskManager.di_name new_excluded) (map (String.append "/dev/") names)
    /\ Forall (fun d => DiskManager.di_reason d = None) new_available
    /\ Forall (fun d => DiskManager.di_reason d <> None) new_excluded
    /\ Forall (fun d => exists size_gb,
                  DiskManager.di_size d = DiskManager.format_size size_gb) new_available.
Proof.
  induction names as [|disk names IH]; intros acc h t.
  - exists [], [], t. cbn [for_fold]. unfold ret. rewrite !app_nil_r.
    destruct acc. repeat split; constructor.
  - cbn [for_fold map]. destruct (String.eqb_spec disk "") as [->|Hd].
    + unfold DiskManager.detect_one at 1. cbn [String.eqb].
      erewrite bind_ok by reflexivity.
      destruct (IH acc h t) as (na & ne & t' & E & Sa & Se & Fa & Fe & Fs).
      exists na, ne, t'. rewrite E. repeat split; auto; now apply sublist_cons.
    + destruct (detect_one_eq system_disk acc disk h t Hd)
        as (reason & t1 & info & t2 & _ & D & Hn & Hr & Hs).
      erewrite bind_ok by apply D.
      destruct reason as [r|].
      * destruct (IH (fst acc, snd acc ++ [info]) h t2)
          as (na & ne & t' & E & Sa & Se & Fa & Fe & Fs).
        exists na, (info :: ne), t'. rewrite E. cbn [fst snd].
        rewrite <- app_assoc. cbn [app map]. rewrite Hn.
        repeat split; auto.
        -- now apply sublist_cons.
        -- now apply sublist_skip.
        -- constructor; [congruence | exact Fe].
      * destruct (IH (fst acc ++ [info], snd acc) h t2)
          as (na & ne & t' & E & Sa & Se & Fa & Fe & Fs).
        exists (info :: na), ne, t'. rewrite E. cbn [fst snd].
        rewrite <- app_assoc. cbn [app map]. rewrite Hn.
        repeat split; auto.
        -- now apply sublist_skip.
        -- now apply sublist_cons.
Qed.

(** C8 does not hold of the code: the available disks are sorted by the
    number read back from the text of their size, not by their size.  Of two
    disks of 1010 GiB and 1040 GiB, both displayed as [1.0 TB], the smaller
    one is first in [available] because it is enumerated first, where the
    claim and the comment above the sort have the largest first. *)
Theorem close_sizes_not_sorted :
  match fst (DiskManager.detect_all_disks close_sizes_host []) with
  | Ok inventory =>
      map (fun d => (DiskManager.di_name d, DiskManager.di_size d))
        (DiskManager.available inventory)
      = [("/dev/sda", "1.0 TB"); ("/dev/sdb", "1.0 TB")]
  | Raise _ => False
  end
  /\ fst (DiskManager.get_disk_size_gb "sda" close_sizes_host []) = Ok (inject_Z 1084479242240 / inject_Z (1024 ^ 3)%Z)%Q
  /\ fst (DiskManager.get_disk_size_gb "sdb" close_sizes_host []) = Ok (inject_Z 1116691496960 / inject_Z (1024 ^ 3)%Z)%Q
  /\ (inject_Z 1084479242240 / inject_Z (1024 ^ 3)%Z
      < inject_Z 1116691496960 / inject_Z (1024 ^ 3)%Z)%Q.
Proof. repeat split; vm_compute; reflexivity. Qed.

(** On the same two disks [setup_automatic], which sorts by the sizes
    themselves, takes the disk of 1040 GiB as the largest. *)
Example close_sizes_setup_automatic :
  DiskManager.setup_automatic ["/dev/sda"; "/dev/sdb"] None close_sizes_host []
  = DiskManager.setup_manual "/dev/sdb" ["/dev/sda"] None close_sizes_host
      [ Run "lsblk -bdn -o SIZE /dev/sda 2>/dev/null";
        Run "lsblk -bdn -o SIZE /dev/sdb 2>/dev/null" ].
Proof. vm_compute. reflexivity. Qed.

(** The example of C8: disks of 500 GB, 2 TB and 1 TB come out largest
    first. *)
Lemma three_sizes_sorted :
  match fst (DiskManager.detect_all_disks three_sizes_host []) with
  | Ok inventory =>
      map (fun d => (DiskManager.di_name d, DiskManager.di_size d))
        (DiskManager.available inventory)
      = [("/dev/sdb", "1.9 TB"); ("/dev/sdc", "931.5 GB"); ("/dev/sda", "465.8 GB")]
  | Raise _ => False
  end.
Proof. vm_compute. reflexivity. Qed.
(** ** Persistent identifiers and the mount table *)

Lemma append_nil_r (s : string) : s +:+ "" = s.
Proof. induction s as [|x s IH]; [reflexivity|]. now rewrite append_cons, IH. Qed.

Lemma last_char_app s c : PyStr.last_char (s +:+ String c "") = Some c.
Proof.
  induction s as [|x s IH]; [reflexivity|].
  rewrite append_cons. cbn [PyStr.last_char]. rewrite IH.
  destruct (s +:+ String c "") eqn:E; [|reflexivity].
  destruct s; discriminate.
Qed.

Lemma last_char_inv s c : PyStr.last_char s = Some c -> exists p, s = p +:+ String c "".
Proof.
  induction s as [|x s IH]; [discriminate|]. cbn [PyStr.last_char].
  destruct s as [|y s].
  - intros [= ->]. now exists "".
  - intros H. destruct (IH H) as [p E]. exists (String x p). now rewrite append_cons, <- E.
Qed.

(** [disk.endswith('1')] holds exactly for the texts that end with [1]. *)
Lemma endswith_char_spec s c :
  PyStr.endswith_char s c = true <-> exists p, s = p +:+ String c "".
Proof.
  unfold PyStr.endswith_char. split.
  - destruct (PyStr.last_char s) as [d|] eqn:E; [|discriminate].
    intros H. apply Ascii.eqb_eq in H. subst d. now apply last_char_inv.
  - intros [p ->]. rewrite last_char_app. apply Ascii.eqb_refl.
Qed.

Lemma get_uuid_eq disk h t :
  DiskManager.get_uuid disk h t
  = (Ok (command_output h t (blkid_command (queried_path disk))),
     t ++ [Run (blkid_command (queried_path disk))]).
Proof. unfold DiskManager.get_uuid. apply run_command_eq. Qed.

Lemma os_call_ok a k h t (r : unit) t' :
  bind (os_call a) k h t = (Ok r, t') ->
  exists out, k out h (t ++ [a]) = (Ok r, t').
Proof.
  unfold os_call, bind at 1 2, perform. destruct (h t a) as [rc out|msg].
  - intros H. now exists out.
  - discriminate.
Qed.

Lemma mkdir_loop_eq (data_disks : list DiskManager.Prepared) :
  forall h t t',
    for_each data_disks (fun disk_info =>
      run os_call (MakeDirs ("/mnt/disk" +:+ PyStr.of_nat (DiskManager.pd_number disk_info)));
      ret tt) h t = (Ok tt, t') ->
    t' = t ++ map (fun d => MakeDirs ("/mnt/disk" +:+ PyStr.of_nat (DiskManager.pd_number d)))
                data_disks.
Proof.
  induction data_disks as [|d ds IH]; intros h t t'; cbn [for_each map].
  - intros [= <-]. now rewrite app_nil_r.
  - intros H. unfold bind at 1 in H.
    match type of H with context [bind (os_call ?a) ?k h t] =>
      destruct (bind (os_call a) k h t) as [[[]|e] t1] eqn:E; [|discriminate] end.
    apply os_call_ok in E as [out E]. injection E as <-.
    apply IH in H. rewrite H, <- app_assoc. reflexivity.
Qed.

Lemma uuid_loop_eq facts (data_disks : list DiskManager.Prepared) :
  forall entries t,
    for_fold data_disks entries (fun new_entries disk_info =>
      do disk_uuid <- DiskManager.get_uuid (DiskManager.pd_disk disk_info);
      ret (new_entries ++
           ["UUID=" +:+ disk_uuid +:+ "  /mnt/disk"
            +:+ PyStr.of_nat (DiskManager.pd_number disk_info)
            +:+ DiskManager.mount_options])) (const_host facts) t
    = (Ok (entries ++
           map (fun d =>
                  mount_entry
                    (command_output (const_host facts) []
                       (blkid_command (queried_path (DiskManager.pd_disk d))))
                    ("/mnt/disk" +:+ PyStr.of_nat (DiskManager.pd_number d)))
             data_disks),
       t ++ map (fun d => Run (blkid_command (queried_path (DiskManager.pd_disk d))))
              data_disks).
Proof.
  induction data_disks as [|d ds IH]; intros entries t; cbn [for_fold map].
  - unfold ret. now rewrite !app_nil_r.
  - erewrite bind_ok by (erewrite bind_ok by apply get_uuid_eq; reflexivity).
    rewrite IH, <- !app_assoc. reflexivity.
Qed.

(** The trace of a complete run of [setup_fstab] on a host that answers from
    [facts]. *)
Lemma setup_fstab_trace facts parity_disk data_disks t t' :
  DiskManager.setup_fstab parity_disk data_disks (const_host facts) t = (Ok tt, t') ->
  t' = t
       ++ MakeDirs "/mnt/parity"
          :: map (fun d => MakeDirs ("/mnt/disk" +:+ PyStr.of_nat (DiskManager.pd_number d)))
               data_disks
       ++ MakeDirs "/mnt/storage"
          :: Run (blkid_command (queried_path parity_disk))
          :: ReadFile "/etc/fstab"
          :: map (fun d => Run (blkid_command (queried_path (DiskManager.pd_disk d))))
               data_disks
       ++ [AppendFile "/etc/fstab" (fstab_text facts parity_disk data_disks);
           Run "mount -a"].
Proof.
  unfold DiskManager.setup_fstab. intros H.
  apply os_call_ok in H as [_ H].
  unfold bind at 1 in H.
  match type of H with context [for_each ?l ?b ?h ?t0] =>
    destruct (for_each l b h t0) as [[[]|e] t1] eqn:E; [|discriminate] end.
  apply mkdir_loop_eq in E. subst t1.
  apply os_call_ok in H as [_ H].
  erewrite bind_ok in H by apply get_uuid_eq.
  apply os_call_ok in H as [_ H].
  erewrite bind_ok in H by apply uuid_loop_eq.
  apply os_call_ok in H as [_ H].
  erewrite bind_ok in H by apply run_command_eq.
  unfold ret in H. injection H as <-.
  rewrite <- !app_assoc. cbn [app]. rewrite <- ?app_assoc. reflexivity.
Qed.

(** C10: [get_uuid] asks [blkid] about [disk + "1"], except when [disk]
    already ends with the character [1]: then it asks about [disk] itself.
    So the entries [setup_fstab] appends to /etc/fstab carry, for a
    whole-disk identifier that ends with [1], the UUID printed for the whole
    disk and not that of its first partition. *)
Theorem get_uuid_queried_path :
  forall (h : Host) (t : Trace) (disk : string),
    ((forall p, disk <> p +:+ "1") ->
       DiskManager.get_uuid disk h t
       = (Ok (command_output h t (blkid_command (disk +:+ "1"))),
          t ++ [Run (blkid_command (disk +:+ "1"))]))
    /\ ((exists p, disk = p +:+ "1") ->
       DiskManager.get_uuid disk h t
       = (Ok (command_output h t (blkid_command disk)), t ++ [Run (blkid_command disk)]))
    /\ (forall (facts : Action -> Outcome) (parity_disk : string)
               (data_disks : list DiskManager.Prepared),
          fst (DiskManager.setup_fstab parity_disk data_disks (const_host facts) t) = Ok tt ->
          exists before,
            snd (DiskManager.setup_fstab parity_disk data_disks (const_host facts) t)
            = t ++ before
                ++ [AppendFile "/etc/fstab" (fstab_text facts parity_disk data_disks);
                    Run "mount -a"]
            /\ commands before
               = map (fun d => blkid_command (queried_path d))
                   (parity_disk :: map DiskManager.pd_disk data_disks))
    /\ (forall (facts : Action -> Outcome) (parity_disk : string)
               (data_disks : list DiskManager.Prepared),
          (exists p, parity_disk = p +:+ "1") ->
          exists rest,
            fstab_text facts parity_disk data_disks
            = PyStr.nl +:+ "# Smart Storage Manager" +:+ PyStr.nl
              +:+ mount_entry
                    (command_output (const_host facts) [] (blkid_command parity_disk))
                    "/mnt/parity"
              +:+ rest).
Proof.
  intros h t disk. split; [|split; [|split]].
  - intros H. rewrite get_uuid_eq. unfold queried_path.
    destruct (PyStr.endswith_char disk "1") eqn:E; [|reflexivity].
    apply endswith_char_spec in E as [p E]. now apply H in E.
  - intros H. rewrite get_uuid_eq. unfold queried_path.
    apply endswith_char_spec in H. now rewrite H.
  - intros facts parity_disk data_disks H.
    destruct (DiskManager.setup_fstab _ _ _ t) as [[[]|e] t'] eqn:E; [|discriminate].
    apply setup_fstab_trace in E. cbn [snd].
    exists (MakeDirs "/mnt/parity"
            :: map (fun d => MakeDirs
                      ("/mnt/disk" +:+ PyStr.of_nat (DiskManager.pd_number d))) data_disks
            ++ MakeDirs "/mnt/storage"
               :: Run (blkid_command (queried_path parity_disk))
               :: ReadFile "/etc/fstab"
               :: map (fun d => Run (blkid_command (queried_path (DiskManager.pd_disk d))))
                    data_disks).
    split.
    + rewrite E. f_equal. cbn [app]. f_equal. rewrite <- app_assoc. reflexivity.
    + cbn [commands]. rewrite !commands_app. cbn [commands app map].
      assert (C1 : forall l : list DiskManager.Prepared,
                commands (map (fun d => MakeDirs
                   ("/mnt/disk" +:+ PyStr.of_nat (DiskManager.pd_number d))) l) = [])
        by (induction l; auto).
      assert (C2 : forall l : list DiskManager.Prepared,
                commands (map (fun d => Run (blkid_command
                   (queried_path (DiskManager.pd_disk d)))) l)
                = map (fun d => blkid_command (queried_path d))
                    (map DiskManager.pd_disk l))
        by (induction l as [|? ? IH]; [reflexivity | cbn; now rewrite IH]).
      now rewrite C1, C2.
  - intros facts parity_disk data_disks H. apply endswith_char_spec in H.
    unfold fstab_text, queried_path. rewrite H.
    destruct data_disks as [|d ds]; cbn [map PyStr.join].
    + exists "". now rewrite !append_assoc, append_nil_r.
    + eexists. rewrite !append_assoc. reflexivity.
Qed.

(** On a host where [blkid] knows the whole disk [/dev/nvme0n1] and the
    partition [/dev/sdb1], the parity entry for [/dev/nvme0n1] carries the
    UUID of the whole disk. *)
Lemma nvme_parity_entry :
  List.filter (fun a => match a with AppendFile _ _ => true | _ => false end)
    (snd (DiskManager.setup_fstab "/dev/nvme0n1"
            [{| DiskManager.pd_disk := "/dev/sdb";
                DiskManager.pd_label := "disk1";
                DiskManager.pd_number := 1 |}]
            (const_host nvme_facts) []))
  = [AppendFile "/etc/fstab"
       (PyStr.nl +:+ "# Smart Storage Manager" +:+ PyStr.nl
        +:+ "UUID=0000-WHOLE  /mnt/parity  ext4  defaults,noatime,nofail  0  2" +:+ PyStr.nl
        +:+ "UUID=1111-PART  /mnt/disk1  ext4  defaults,noatime,nofail  0  2")]
  /\ commands (snd (DiskManager.setup_fstab "/dev/nvme0n1"
            [{| DiskManager.pd_disk := "/dev/sdb";
                DiskManager.pd_label := "disk1";
                DiskManager.pd_number := 1 |}]
            (const_host nvme_facts) []))
     = ["blkid -s UUID -o value /dev/nvme0n1"; "blkid -s UUID -o value /dev/sdb1"; "mount -a"].
Proof. split; vm_compute; reflexivity. Qed.
(** ** The inventory as a partition of the enumerated disks *)

Lemma detect_loop_partition system_disk names :
  forall acc h t,
  exists new_available new_excluded t',
    for_fold names acc (DiskManager.detect_one system_disk) h t
    = (Ok (fst acc ++ new_available, snd acc ++ new_excluded), t')
    /\ Permutation (map DiskManager.di_name (new_available ++ new_excluded))
         (map (String.append "/dev/") (classified_names names))
    /\ sublist (map DiskManager.di_name new_available)
         (map (String.append "/dev/") (classified_names names))
    /\ sublist (map DiskManager.di_name new_excluded)
         (map (String.append "/dev/") (classified_names names))
    /\ Forall (fun d => DiskManager.di_reason d = None) new_available
    /\ Forall (fun d => DiskManager.di_reason d <> None) new_excluded.
Proof.
  induction names as [|disk names IH]; intros acc h t.
  - exists [], [], t. cbn [for_fold]. unfold ret. rewrite !app_nil_r.
    destruct acc. repeat split; constructor.
  - cbn [for_fold classified_names List.filter].
    destruct (String.eqb_spec disk "") as [->|Hd]; cbn [negb].
    + unfold DiskManager.detect_one at 1. cbn [String.eqb].
      erewrite bind_ok by reflexivity. apply IH.
    + destruct (detect_one_eq system_disk acc disk h t Hd)
        as (reason & t1 & info & t2 & _ & D & Hn & Hr & _).
      erewrite bind_ok by apply D. fold (classified_names names).
      destruct reason as [r|].
      * destruct (IH (fst acc, snd acc ++ [info]) h t2)
          as (na & ne & t' & E & P & Sa & Se & Fa & Fe).
        exists na, (info :: ne), t'. rewrite E. cbn [fst snd].
        rewrite <- app_assoc. cbn [app map]. rewrite <- Hn.
        split; [reflexivity|]. split.
        { rewrite map_app. cbn [map]. rewrite <- Permutation_middle.
          constructor. now rewrite <- map_app. }
        split; [now apply sublist_cons|]. split; [now apply sublist_skip|].
        split; [exact Fa|]. constructor; [congruence | exact Fe].
      * destruct (IH (fst acc ++ [info], snd acc) h t2)
          as (na & ne & t' & E & P & Sa & Se & Fa & Fe).
        exists (info :: na), ne, t'. rewrite E. cbn [fst snd].
        rewrite <- app_assoc. cbn [app map]. rewrite <- Hn.
        split; [reflexivity|]. split; [now constructor|].
        split; [now apply sublist_skip|]. split; [now apply sublist_cons|].
        split; [now constructor | exact Fe].
Qed.

(** X1: [detect_all_disks] never raises and gives every enumerated disk (the
    non-empty lines of the enumeration) exactly one verdict: the names of
    [available] and [excluded] together are those disks, each once; a disk
    is in [excluded] exactly when it carries a reason; [excluded] keeps the
    enumeration order; the two counts are the lengths of the two lists. *)
Theorem detect_all_disks_partitions :
  forall (h : Host) (t : Trace),
  exists inventory t' system_disk,
    DiskManager.detect_all_disks h t = (Ok inventory, t')
    /\ fst (DiskManager.get_system_disk h t) = Ok system_disk
    /\ DiskManager.system_disk inventory = "/dev/" +:+ system_disk
    /\ let names :=
         classified_names
           (PyStr.split
              (command_output h (snd (DiskManager.get_system_disk h t)) list_disks_command)
              "010") in
       Permutation
         (map DiskManager.di_name
            (DiskManager.available inventory ++ DiskManager.excluded inventory))
         (map (String.append "/dev/") names)
       /\ Forall (fun d => DiskManager.di_reason d = None) (DiskManager.available inventory)
       /\ Forall (fun d => DiskManager.di_reason d <> None) (DiskManager.excluded inventory)
       /\ sublist (map DiskManager.di_name (DiskManager.excluded inventory))
            (map (String.append "/dev/") names)
       /\ DiskManager.count_available inventory = length (DiskManager.available inventory)
       /\ DiskManager.count_excluded inventory = length (DiskManager.excluded inventory)
       /\ DiskManager.count_available inventory + DiskManager.count_excluded inventory
          = length names.
Proof.
  intros h t. unfold DiskManager.detect_all_disks.
  destruct (total_get_system_disk h t) as (sd & t1 & E1).
  erewrite bind_ok by apply E1.
  erewrite bind_ok by apply run_command_eq.
  match goal with |- context [for_fold ?names ?acc _] =>
    destruct (detect_loop_partition sd names acc h (t1 ++ [Run list_disks_command]))
      as (na & ne & t' & E & P & Sa & Se & Fa & Fe) end.
  erewrite bind_ok by apply E. cbn [fst snd app].
  rewrite E1. cbn [fst snd].
  eexists _, t', sd. split; [reflexivity|]. split; [reflexivity|].
  split; [reflexivity|].
  cbn [DiskManager.available DiskManager.excluded DiskManager.count_available
       DiskManager.count_excluded].
  assert (Ps : Permutation (sort_desc DiskManager.size_key na ++ ne) (na ++ ne))
    by (apply Permutation_app_tail, sort_desc_perm).
  split; [now rewrite Ps|].
  split.
  { rewrite sort_desc_perm. exact Fa. }
  split; [exact Fe|]. split; [exact Se|]. split; [reflexivity|]. split; [reflexivity|].
  rewrite <- length_app, (Permutation_length Ps).
  rewrite <- (length_map DiskManager.di_name), (Permutation_length P).
  apply length_map.
Qed.
(** ** Automatic selection of the parity disk *)

(** The command by which [get_disk_size_gb] asks for the size of [disk]. *)
Lemma get_disk_size_gb_commands disk h t :
  exists size_gb t',
    DiskManager.get_disk_size_gb disk h t = (Ok size_gb, t')
    /\ t' = t ++ [Run ("lsblk -bdn -o SIZE /dev/" +:+ disk +:+ " 2>/dev/null")].
Proof.
  unfold DiskManager.get_disk_size_gb.
  erewrite bind_ok by apply run_command_eq.
  destruct (PyStr.int _); eexists _, _; split; reflexivity.
Qed.

Lemma size_keys_eq (disk_list : list string) :
  forall h t,
  exists sizes t',
    map_m (fun d => DiskManager.get_disk_size_gb (PyStr.replace d "/dev/" "")) disk_list h t
    = (Ok sizes, t')
    /\ length sizes = length disk_list
    /\ t' = t ++ map (fun d => Run ("lsblk -bdn -o SIZE /dev/"
                                   +:+ PyStr.replace d "/dev/" "" +:+ " 2>/dev/null"))
                  disk_list.
Proof.
  induction disk_list as [|d l IH]; intros h t; cbn [map_m map].
  - exists [], t. unfold ret. now rewrite app_nil_r.
  - destruct (get_disk_size_gb_commands (PyStr.replace d "/dev/" "") h t)
      as (size_gb & t1 & E & ->).
    erewrite bind_ok by apply E.
    destruct (IH h (t ++ [Run ("lsblk -bdn -o SIZE /dev/"
                               +:+ PyStr.replace d "/dev/" "" +:+ " 2>/dev/null")]))
      as (sizes & t2 & E2 & L & ->).
    erewrite bind_ok by apply E2.
    exists (size_gb :: sizes). eexists. split; [reflexivity|].
    split; [cbn; now rewrite L|]. now rewrite <- app_assoc.
Qed.

Lemma sorted_head_is_max {A} (key : A -> Q) x l :
  StronglySorted (key_ge key) (x :: l) -> Forall (fun y => (key y <= key x)%Q) (x :: l).
Proof.
  intros H. inversion H as [|? ? _ F]; subst. constructor; [apply Qle_refl | exact F].
Qed.

(** X2: with two disks or more, [setup_automatic] asks for the size of every
    disk, in the order of the list and before anything else, takes as parity
    disk one of the largest size (the first such in the list), orders the
    others by decreasing size, equal sizes in the order of the list, and
    hands over to [setup_manual]. *)
Theorem setup_automatic_selects_largest :
  forall (disk_list : list string) (progress_callback : option Callback)
         (h : Host) (t : Trace),
    2 <= length disk_list ->
    exists sizes t1 parity_disk parity_size data_disks,
      map_m (fun d => DiskManager.get_disk_size_gb (PyStr.replace d "/dev/" ""))
        disk_list h t = (Ok sizes, t1)
      /\ length sizes = length disk_list
      /\ t1 = t ++ map (fun d => Run ("lsblk -bdn -o SIZE /dev/"
                                     +:+ PyStr.replace d "/dev/" "" +:+ " 2>/dev/null"))
                    disk_list
      /\ DiskManager.setup_automatic disk_list progress_callback h t
         = DiskManager.setup_manual parity_disk data_disks progress_callback h t1
      /\ Permutation (parity_disk :: data_disks) disk_list
      /\ In (parity_disk, parity_size) (combine disk_list sizes)
      /\ Forall (fun size => (size <= parity_size)%Q) sizes
      /\ exists ranked,
           map fst ranked = parity_disk :: data_disks
           /\ Permutation ranked (combine disk_list sizes)
           /\ StronglySorted (key_ge snd) ranked
           /\ forall k, with_key snd k ranked = with_key snd k (combine disk_list sizes).
Proof.
  intros disk_list cb h t Hlen.
  destruct (size_keys_eq disk_list h t) as (sizes & t1 & E & L & Et).
  pose proof (sort_desc_perm (@snd string Q) (combine disk_list sizes)) as P.
  pose proof (sort_desc_sorted (@snd string Q) (combine disk_list sizes)) as S.
  pose proof (fun k => sort_desc_stable (@snd string Q) k (combine disk_list sizes)) as St.
  assert (Hf : map fst (combine disk_list sizes) = disk_list).
  { clear - L. revert sizes L. induction disk_list as [|d l IH]; intros [|s sizes] L;
      try discriminate; [reflexivity|]. cbn. f_equal. apply IH. now injection L. }
  assert (Hs : map snd (combine disk_list sizes) = sizes).
  { clear - L. revert sizes L. induction disk_list as [|d l IH]; intros [|s sizes] L;
      try discriminate; [reflexivity|]. cbn. f_equal. apply IH. now injection L. }
  destruct (sort_desc snd (combine disk_list sizes)) as [|[parity psize] ranked] eqn:R.
  { apply Permutation_length in P. rewrite length_combine, L, Nat.min_id in P.
    cbn in P. lia. }
  exists sizes, t1, parity, psize, (map fst ranked).
  split; [exact E|]. split; [exact L|]. split; [exact Et|]. split.
  { unfold DiskManager.setup_automatic.
    destruct (Nat.ltb_spec (length disk_list) 2); [lia|].
    erewrite bind_ok by apply E. rewrite R. reflexivity. }
  split.
  { rewrite <- Hf. change (parity :: map fst ranked) with (map fst ((parity, psize) :: ranked)).
    now apply Permutation_map. }
  split.
  { eapply Permutation_in; [exact P|]. now left. }
  split.
  { rewrite <- Hs. apply sorted_head_is_max in S.
    rewrite List.Forall_forall in *. intros s Hin.
    apply in_map_iff in Hin as (p & <- & Hp).
    apply (S p). eapply Permutation_in; [symmetry; exact P | exact Hp]. }
  exists ((parity, psize) :: ranked). auto.
Qed.

(** Three disks: the sizes are read, one of the disks becomes the parity
    disk and the two others the data disks. *)
Lemma setup_automatic_selects_largest_witness :
  2 <= length ["/dev/sda"; "/dev/sdb"; "/dev/sdc"]
  /\ exists t1 parity_disk data_disks,
       DiskManager.setup_automatic ["/dev/sda"; "/dev/sdb"; "/dev/sdc"] None
         three_sizes_host []
       = DiskManager.setup_manual parity_disk data_disks None three_sizes_host t1
       /\ Permutation (parity_disk :: data_disks) ["/dev/sda"; "/dev/sdb"; "/dev/sdc"].
Proof.
  assert (H : 2 <= length ["/dev/sda"; "/dev/sdb"; "/dev/sdc"]) by (cbn; lia).
  split; [exact H|].
  destruct (setup_automatic_selects_largest ["/dev/sda"; "/dev/sdb"; "/dev/sdc"] None
              three_sizes_host [] H)
    as (sizes & t1 & parity & psize & data & _ & _ & _ & Es & P & _).
  exists t1, parity, data. split; [exact Es | exact P].
Defined.

(** Disks of 500 GB, 2 TB and 1 TB: the 2 TB disk becomes the parity disk,
    the data disks are the 1 TB and the 500 GB disk, in that order. *)
Example setup_automatic_three_sizes :
  DiskManager.setup_automatic ["/dev/sda"; "/dev/sdb"; "/dev/sdc"] None three_sizes_host []
  = DiskManager.setup_manual "/dev/sdb" ["/dev/sdc"; "/dev/sda"] None three_sizes_host
      [ Run "lsblk -bdn -o SIZE /dev/sda 2>/dev/null";
        Run "lsblk -bdn -o SIZE /dev/sdb 2>/dev/null";
        Run "lsblk -bdn -o SIZE /dev/sdc 2>/dev/null" ].
Proof. vm_compute. reflexivity. Qed.
(** ** Sizes: display and reading back *)





(** The division by 1000 is a division of floats: 1050 GB and 1150 GB are
    both displayed as [1.1 TB]. *)
Example format_size_float_division :
  DiskManager.format_size 1050 = "1.1 TB"
  /\ DiskManager.format_size 1150 = "1.1 TB"
  /\ (DiskManager.parse_size (DiskManager.format_size 1050) == 1100)%Q.
Proof. repeat split; vm_compute; reflexivity. Qed.

Lemma first_numdot_none s :
  PyStr.all_of (fun c => negb (DiskManager.is_numdot c)) s = true ->
  DiskManager.first_numdot s = None.
Proof.
  induction s as [|c s IH]; [reflexivity|]. cbn [PyStr.all_of DiskManager.first_numdot].
  intros H. apply andb_true_iff in H as [Hc Hs]. apply negb_true_iff in Hc.
  rewrite Hc. now apply IH.
Qed.

(** X4: [parse_size] gives 0 for a text without any digit or dot (the empty
    text among them), and for a text whose first run of digits and dots is
    not a number. *)
Theorem parse_size_without_number :
  forall s : string,
    (PyStr.all_of (fun c => negb (DiskManager.is_numdot c)) s = true
     \/ exists number, DiskManager.first_numdot s = Some number
                    /\ DiskManager.float_of_numdot number = None) ->
    DiskManager.parse_size s = 0%Q.
Proof.
  intros s [H | (number & F & N)]; unfold DiskManager.parse_size.
  - now rewrite (first_numdot_none s H).
  - now rewrite F, N.
Qed.

Lemma parse_size_without_number_witness :
  DiskManager.parse_size "" = 0%Q
  /\ DiskManager.parse_size "Unknown" = 0%Q
  /\ DiskManager.parse_size "1.2.3 GB" = 0%Q.
Proof.
  split; [|split].
  - apply parse_size_without_number. left. reflexivity.
  - apply parse_size_without_number. left. reflexivity.
  - apply parse_size_without_number. right. exists "1.2.3". split; reflexivity.
Defined.
(** ** The two phases of [setup_manual] *)

Section Phases.
Context {allowed : Action -> bool} {exn : Host -> Trace -> PyExn -> Prop}.

Lemma runs_within_ret {A} (post : A -> Prop) (a : A) :
  post a -> runs_within allowed post exn (ret a).
Proof. intros H h t. exists []. simpl. now rewrite app_nil_r. Qed.

Lemma runs_within_raise {A} (post : A -> Prop) e :
  (forall h t, exn h t e) -> runs_within allowed post exn (@raise A e).
Proof. intros H h t. exists []. simpl. rewrite app_nil_r. auto. Qed.

Lemma runs_within_bind {A B} (mid : A -> Prop) (post : B -> Prop)
    (c : M A) (k : A -> M B) :
  runs_within allowed mid exn c ->
  (forall a, mid a -> runs_within allowed post exn (k a)) ->
  runs_within allowed post exn (bind c k).
Proof.
  intros Hc Hk h t. destruct (Hc h t) as (d & E & F & R).
  unfold bind. destruct (c h t) as [[a|e] t1]; simpl in E, R; subst t1.
  - destruct (Hk a R h (t ++ d)) as (d' & E' & F' & R').
    exists (d ++ d'). rewrite forallb_app, F, F', app_assoc.
    split; [exact E'|]. split; [reflexivity | exact R'].
  - exists d. auto.
Qed.

Lemma runs_within_weaken {A} (post post' : A -> Prop) (c : M A) :
  (forall a, post a -> post' a) ->
  runs_within allowed post exn c -> runs_within allowed post' exn c.
Proof.
  intros W Hc h t. destruct (Hc h t) as (d & E & F & R).
  exists d. split; [assumption|]. split; [assumption|].
  destruct (fst (c h t)); auto.
Qed.

Lemma runs_within_perform a :
  allowed a = true -> runs_within allowed (fun _ => True) exn (perform a).
Proof.
  intros Ha h t. exists [a]. simpl. now rewrite Ha.
Qed.

Lemma runs_within_os_call a :
  (forall h t msg, h t a = Threw msg -> exn h (t ++ [a]) (Exception msg)) ->
  allowed a = true -> runs_within allowed (fun _ => True) exn (os_call a).
Proof.
  intros He Ha h t. exists [a]. unfold os_call, bind, perform.
  specialize (He h t). cbn [forallb]. rewrite Ha.
  destruct (h t a) as [rc out|msg]; cbn; auto.
Qed.

Lemma runs_within_run_command cmd :
  allowed (Run cmd) = true ->
  runs_within allowed (fun _ => True) exn (DiskManager.run_command cmd).
Proof.
  intros Ha. eapply runs_within_bind; [now apply runs_within_perform|].
  intros [rc out|msg] _; now apply runs_within_ret.
Qed.

Lemma runs_within_for_each {A} (l : list A) body :
  (forall x, runs_within allowed (fun _ => True) exn (body x)) ->
  runs_within allowed (fun _ => True) exn (for_each l body).
Proof.
  intros Hb. induction l as [|x l IH]; simpl.
  - now apply runs_within_ret.
  - eapply runs_within_bind; [apply Hb | intros _ _; apply IH].
Qed.

Lemma runs_within_for_fold {A S} (l : list A) (acc : S) body :
  (forall s x, runs_within allowed (fun _ => True) exn (body s x)) ->
  runs_within allowed (fun _ => True) exn (for_fold l acc body).
Proof.
  intros Hb. revert acc. induction l as [|x l IH]; intros acc; simpl.
  - now apply runs_within_ret.
  - eapply runs_within_bind; [apply Hb | intros s _; apply IH].
Qed.

End Phases.

Lemma notify_sink_eq sink step message k total h t :
  notify (sink_of sink) step (message +:+ DiskManager.step_of k total)
    (DiskManager.percentage k total) h t
  = (Ok tt, t ++ announce sink step message k total).
Proof.
  destruct sink; simpl.
  - reflexivity.
  - unfold ret. now rewrite app_nil_r.
Qed.

Lemma refused_file_operation a h t msg :
  file_operation a = true -> h t a = Threw msg -> refused h (t ++ [a]) (Exception msg).
Proof. intros F E. exists t, a, msg. auto. Qed.

Lemma runs_within_notify sink step message p :
  runs_within config_action (fun _ => True) refused (notify (sink_of sink) step message p).
Proof.
  destruct sink; simpl.
  - intros h t. rewrite emit_progress_eq. eexists. simpl. split; [reflexivity|]. auto.
  - now apply runs_within_ret.
Qed.

Lemma runs_within_get_uuid disk :
  runs_within config_action (fun _ => True) refused (DiskManager.get_uuid disk).
Proof.
  unfold DiskManager.get_uuid. apply runs_within_run_command. reflexivity.
Qed.

Ltac config_step :=
  first
    [ apply runs_within_notify
    | apply runs_within_get_uuid
    | apply runs_within_os_call;
      [intros; now apply refused_file_operation | reflexivity]
    | apply runs_within_run_command; reflexivity
    | apply runs_within_for_each; intros
    | apply runs_within_for_fold; intros
    | apply runs_within_ret; exact I
    | eapply runs_within_bind; [|intros ? _] ].

Lemma runs_within_setup_fstab parity_disk data_disks :
  runs_within config_action (fun _ => True) refused
    (DiskManager.setup_fstab parity_disk data_disks).
Proof. unfold DiskManager.setup_fstab. repeat config_step. Qed.

Lemma runs_within_setup_mergerfs :
  runs_within config_action (fun _ => True) refused DiskManager.setup_mergerfs.
Proof. unfold DiskManager.setup_mergerfs. repeat config_step. Qed.

Lemma runs_within_setup_snapraid_config parity_disk data_disks :
  runs_within config_action (fun _ => True) refused
    (DiskManager.setup_snapraid_config parity_disk data_disks).
Proof. unfold DiskManager.setup_snapraid_config. repeat config_step. Qed.

Lemma prepare_data_disk_sink_eq sink total cs pd idx disk h t :
  DiskManager.prepare_data_disk total (sink_of sink) (cs, pd) (idx, disk) h t
  = (Ok (cs + 1,
         pd ++ [{| DiskManager.pd_disk := disk;
                   DiskManager.pd_label := "disk" +:+ PyStr.of_nat idx;
                   DiskManager.pd_number := idx |}]),
     t ++ announce sink "data" ("تحضير Data Disk " +:+ PyStr.of_nat idx) (cs + 1) total
       ++ script_actions sink (prepare_script disk ("disk" +:+ PyStr.of_nat idx))).
Proof.
  unfold DiskManager.prepare_data_disk.
  erewrite bind_ok
    by exact (notify_sink_eq sink "data" ("تحضير Data Disk " +:+ PyStr.of_nat idx)
                (cs + 1) total h t).
  erewrite bind_ok by apply prepare_disk_eq.
  unfold ret. now rewrite <- app_assoc.
Qed.

Lemma data_loop_sink_eq sink total disks :
  forall idx cs pd h t,
    for_fold (combine (seq idx (length disks)) disks) (cs, pd)
      (DiskManager.prepare_data_disk total (sink_of sink)) h t
    = (Ok (cs + length disks, pd ++ prepared_from idx disks),
       t ++ data_trace sink total idx cs disks).
Proof.
  induction disks as [|disk disks IH]; intros idx cs pd h t.
  - simpl. unfold ret. now rewrite Nat.add_0_r, !app_nil_r.
  - cbn [length seq combine for_fold].
    erewrite bind_ok by apply prepare_data_disk_sink_eq.
    rewrite IH. cbn [prepared_from data_trace].
    rewrite <- !app_assoc. cbn [app].
    replace (cs + 1 + length disks) with (cs + S (length disks)) by lia.
    replace (cs + 1) with (S cs) by lia. reflexivity.
Qed.

(** The two phases of a run of [setup_manual], with or without a sink and
    whatever the host answers: first the whole preparation, then the
    configuration, which alone can raise. *)
Lemma setup_manual_phases sink parity_disk data_disks h t :
  exists rest,
    snd (DiskManager.setup_manual parity_disk data_disks (sink_of sink) h t)
    = t ++ preparation_trace sink parity_disk data_disks ++ rest
    /\ forallb config_action rest = true
    /\ match fst (DiskManager.setup_manual parity_disk data_disks (sink_of sink) h t) with
       | Ok r => r = {| DiskManager.sr_success := true;
                        DiskManager.sr_parity := parity_disk;
                        DiskManager.sr_data_disks := prepared_from 1 data_disks;
                        DiskManager.sr_message := "تم الإعداد بنجاح" |}
       | Raise e =>
           refused h (snd (DiskManager.setup_manual parity_disk data_disks (sink_of sink) h t)) e
       end.
Proof.
  unfold DiskManager.setup_manual, enumerate. cbv zeta.
  erewrite bind_ok by exact (notify_sink_eq sink "parity" "تحضير Parity" _ _ h t).
  erewrite bind_ok by apply prepare_disk_eq.
  erewrite bind_ok by apply data_loop_sink_eq. cbv beta iota.
  match goal with |- context [bind ?c ?k h ?t1] =>
    assert (K : runs_within config_action
                  (fun r => r = {| DiskManager.sr_success := true;
                        DiskManager.sr_parity := parity_disk;
                        DiskManager.sr_data_disks := prepared_from 1 data_disks;
                        DiskManager.sr_message := "تم الإعداد بنجاح" |})
                  refused (bind c k))
  end.
  { repeat first
      [ apply runs_within_setup_fstab
      | apply runs_within_setup_mergerfs
      | apply runs_within_setup_snapraid_config
      | apply runs_within_notify
      | apply runs_within_ret; reflexivity
      | eapply runs_within_bind; [|intros ? _] ]. }
  match goal with |- context [bind ?c ?k h ?t1] =>
    destruct (K h t1) as (rest & E & F & R)
  end.
  exists rest. rewrite E. split; [|split; assumption].
  unfold preparation_trace. now rewrite <- !app_assoc.
Qed.

Lemma forallb_prepare_script sink script :
  forallb prepare_action (script_actions sink script) = true.
Proof.
  induction script as [|s script IH]; [reflexivity|].
  unfold script_actions in *. cbn [flat_map]. rewrite forallb_app, IH, andb_true_r.
  destruct s, sink; reflexivity.
Qed.

Lemma forallb_data_trace sink total disks :
  forall idx cs, forallb prepare_action (data_trace sink total idx cs disks) = true.
Proof.
  induction disks as [|disk disks IH]; intros idx cs; [reflexivity|].
  cbn [data_trace]. rewrite !forallb_app, forallb_prepare_script, IH.
  destruct sink; reflexivity.
Qed.

Lemma commands_script sink script :
  commands (script_actions sink script) = commands (script_actions false script).
Proof.
  induction script as [|s script IH]; [reflexivity|].
  unfold script_actions in *. cbn [flat_map]. rewrite !commands_app, IH.
  destruct s, sink; reflexivity.
Qed.

Lemma commands_data_trace sink total disks :
  forall idx cs,
    commands (data_trace sink total idx cs disks)
    = flat_map (fun d => prepare_commands (DiskManager.pd_disk d) (DiskManager.pd_label d))
        (prepared_from idx disks).
Proof.
  induction disks as [|disk disks IH]; intros idx cs; [reflexivity|].
  cbn [data_trace prepared_from flat_map]. rewrite !commands_app, IH, commands_script.
  destruct sink; reflexivity.
Qed.

Lemma prepared_from_enumerate disks :
  forall idx,
    prepared_from idx disks
    = map (fun item : nat * string =>
             {| DiskManager.pd_disk := snd item;
                DiskManager.pd_label := "disk" +:+ PyStr.of_nat (fst item);
                DiskManager.pd_number := fst item |})
          (combine (seq idx (length disks)) disks).
Proof.
  induction disks as [|disk disks IH]; intros idx; [reflexivity|].
  cbn [prepared_from length seq combine map fst snd]. now rewrite IH.
Qed.

(** X5: every run of [setup_manual], with or without a sink and whatever the
    host answers, first runs the eight preparation commands on the parity
    disk with the label parity, then on every data disk in the order given
    with the labels disk1, disk2, ...; of what follows, the only commands
    are the UUID queries and [mount -a]. *)
Theorem setup_manual_prepares_every_disk_first :
  forall sink parity_disk data_disks h t,
    exists preparation rest,
      snd (DiskManager.setup_manual parity_disk data_disks (sink_of sink) h t)
      = t ++ preparation ++ rest
      /\ commands preparation
         = prepare_commands parity_disk "parity"
           ++ flat_map (fun item : nat * string =>
                          prepare_commands (snd item) ("disk" +:+ PyStr.of_nat (fst item)))
                (enumerate data_disks 1)
      /\ (forall disk_name label,
            prepare_commands disk_name label
            = let disk := PyStr.replace disk_name "/dev/" "" in
              [ "umount /dev/" +:+ disk +:+ "* 2>/dev/null";
                "wipefs -af /dev/" +:+ disk;
                "dd if=/dev/zero of=/dev/" +:+ disk +:+ " bs=1M count=100 2>/dev/null";
                "parted -s /dev/" +:+ disk +:+ " mklabel gpt";
                "parted -s /dev/" +:+ disk +:+ " mkpart primary ext4 0% 100%";
                "partprobe /dev/" +:+ disk;
                "sleep 2";
                "mkfs.ext4 -F -L " +:+ label +:+ " /dev/" +:+ disk +:+ "1" ])
      /\ (forall cmd, In cmd (commands rest) ->
            cmd = "mount -a" \/ PyStr.startswith cmd "blkid -s UUID -o value " = true).
Proof.
  intros sink parity_disk data_disks h t.
  destruct (setup_manual_phases sink parity_disk data_disks h t) as (rest & E & F & _).
  exists (preparation_trace sink parity_disk data_disks), rest.
  split; [exact E|]. split; [|split].
  - unfold preparation_trace. rewrite !commands_app, commands_script, commands_data_trace.
    rewrite prepared_from_enumerate, flat_map_concat_map, map_map,
      <- flat_map_concat_map.
    unfold enumerate. destruct sink; reflexivity.
  - reflexivity.
  - intros cmd Hin. clear E.
    induction rest as [|a rest IH]; [contradiction|].
    cbn [forallb] in F. apply andb_true_iff in F as [Fa Fr].
    destruct a; cbn [commands] in Hin; try (now apply IH).
    destruct Hin as [<- | Hin]; [|now apply IH].
    cbn [config_action] in Fa. apply orb_true_iff in Fa as [Fa | Fa].
    + now right.
    + left. now apply String.eqb_eq in Fa.
Qed.

Lemma script_commands_incl sink script :
  incl (map Run (commands (script_actions false script))) (script_actions sink script).
Proof.
  induction script as [|s script IH]; [apply incl_refl|].
  unfold script_actions in *. cbn [flat_map].
  rewrite commands_app, map_app. apply incl_app.
  - apply incl_appl. destruct s; [apply incl_nil_l | apply incl_refl].
  - now apply incl_appr.
Qed.

Lemma data_trace_incl sink total disks :
  forall start cs idx disk,
    nth_error disks idx = Some disk ->
    incl (map Run (prepare_commands disk ("disk" +:+ PyStr.of_nat (start + idx))))
      (data_trace sink total start cs disks).
Proof.
  induction disks as [|d disks IH]; intros start cs idx disk Hn.
  - destruct idx; discriminate.
  - cbn [data_trace]. apply incl_appr. destruct idx as [|idx].
    + injection Hn as ->. rewrite Nat.add_0_r. apply incl_appl.
      apply script_commands_incl.
    + apply incl_appr. replace (start + S idx) with (S start + idx) by lia.
      now apply IH.
Qed.

(** X6: when [setup_manual] raises, the exception is the one, with its
    message, that the host raised in the last operation of the run, and that
    operation is one of the configuration on a directory or a file
    ([os.makedirs], or reading, appending to or writing a file); it is
    raised after the whole preparation: the parity disk and every data disk
    have already been wiped and formatted. *)
Theorem setup_manual_raises_after_preparation :
  forall sink parity_disk data_disks h t e,
    fst (DiskManager.setup_manual parity_disk data_disks (sink_of sink) h t) = Raise e ->
    (exists before failed msg,
       snd (DiskManager.setup_manual parity_disk data_disks (sink_of sink) h t)
       = before ++ [failed]
       /\ file_operation failed = true
       /\ h before failed = Threw msg
       /\ e = Exception msg)
    /\ exists done,
         snd (DiskManager.setup_manual parity_disk data_disks (sink_of sink) h t)
         = t ++ done
         /\ incl (map Run (prepare_commands parity_disk "parity")) done
         /\ forall idx disk,
              nth_error data_disks idx = Some disk ->
              incl (map Run (prepare_commands disk ("disk" +:+ PyStr.of_nat (S idx)))) done.
Proof.
  intros sink parity_disk data_disks h t e He.
  destruct (setup_manual_phases sink parity_disk data_disks h t) as (rest & E & F & R).
  rewrite He in R. split; [exact R|].
  exists (preparation_trace sink parity_disk data_disks ++ rest).
  split; [exact E|]. split.
  - apply incl_appl. unfold preparation_trace. apply incl_appr, incl_appl.
    apply script_commands_incl.
  - intros idx disk Hn. apply incl_appl. unfold preparation_trace.
    do 2 apply incl_appr. now apply (data_trace_incl sink _ data_disks 1).
Qed.

(** [os.makedirs] is refused: the exception goes up after both disks have
    been formatted. *)
Lemma setup_manual_raises_after_preparation_witness :
  fst (DiskManager.setup_manual "/dev/sdb" ["/dev/sdc"] (sink_of false) mkdir_fails [])
  = Raise (Exception "[Errno 13] Permission denied")
  /\ (exists before failed,
        snd (DiskManager.setup_manual "/dev/sdb" ["/dev/sdc"] (sink_of false) mkdir_fails [])
        = before ++ [failed]
        /\ file_operation failed = true)
  /\ exists done,
       snd (DiskManager.setup_manual "/dev/sdb" ["/dev/sdc"] (sink_of false) mkdir_fails [])
       = done
       /\ In (Run "mkfs.ext4 -F -L parity /dev/sdb1") done
       /\ In (Run "mkfs.ext4 -F -L disk1 /dev/sdc1") done.
Proof.
  assert (H : fst (DiskManager.setup_manual "/dev/sdb" ["/dev/sdc"] (sink_of false)
                     mkdir_fails [])
              = Raise (Exception "[Errno 13] Permission denied")) by (vm_compute; reflexivity).
  split; [exact H|].
  destruct (setup_manual_raises_after_preparation false "/dev/sdb" ["/dev/sdc"]
              mkdir_fails [] _ H) as ((before & failed & msg & L & O & _) & done & E & P & D).
  split; [exists before, failed; split; [exact L | exact O]|].
  exists done. split; [exact E|]. split.
  - apply P. vm_compute. tauto.
  - apply (D 0 "/dev/sdc" eq_refl). vm_compute. tauto.
Defined.

(** A byte of /etc/fstab that does not decode: the exception of the read
    goes up, after the mount points have been made. *)
Example setup_manual_fstab_undecodable :
  fst (DiskManager.setup_manual "/dev/sdb" ["/dev/sdc"] (sink_of false) fstab_undecodable [])
  = Raise (Exception "'utf-8' codec can't decode byte 0xff in position 0: invalid start byte")
  /\ List.last (snd (DiskManager.setup_manual "/dev/sdb" ["/dev/sdc"] (sink_of false)
                       fstab_undecodable [])) Now
     = ReadFile "/etc/fstab".
Proof. split; vm_compute; reflexivity. Qed.

(** X7: what a run of [setup_manual] does to the machine, whatever the host
    answers and whether it returns or raises: it runs commands, pushes
    [operation_progress] events, makes directories under /mnt/, reads and
    appends to /etc/fstab and overwrites /etc/snapraid.conf; it overwrites
    no other file and never /etc/fstab. *)
Theorem setup_manual_file_effects :
  forall sink parity_disk data_disks h t,
    exists done,
      snd (DiskManager.setup_manual parity_disk data_disks (sink_of sink) h t) = t ++ done
      /\ Forall setup_action done.
Proof.
  intros sink parity_disk data_disks h t.
  destruct (setup_manual_phases sink parity_disk data_disks h t) as (rest & E & F & _).
  exists (preparation_trace sink parity_disk data_disks ++ rest).
  split; [exact E|]. apply Forall_app. split.
  - assert (P : forallb prepare_action (preparation_trace sink parity_disk data_disks) = true).
    { unfold preparation_trace.
      rewrite !forallb_app, forallb_prepare_script, forallb_data_trace.
      destruct sink; reflexivity. }
    apply List.Forall_forall. intros a Ha.
    rewrite forallb_forall in P. specialize (P a Ha).
    destruct a; cbn in P |- *; try discriminate; auto.
    now apply String.eqb_eq in P.
  - apply List.Forall_forall. intros a Ha.
    rewrite forallb_forall in F. specialize (F a Ha).
    destruct a; cbn [config_action setup_action] in F |- *; try discriminate; auto;
      now apply String.eqb_eq in F.
Qed.

Lemma prepared_from_fields disks :
  forall idx,
    map DiskManager.pd_disk (prepared_from idx disks) = disks
    /\ map DiskManager.pd_number (prepared_from idx disks) = seq idx (length disks)
    /\ Forall (fun d => DiskManager.pd_label d
                        = "disk" +:+ PyStr.of_nat (DiskManager.pd_number d))
         (prepared_from idx disks).
Proof.
  induction disks as [|disk disks IH]; intros idx.
  - repeat split. constructor.
  - destruct (IH (S idx)) as (D & N & L).
    cbn [prepared_from map length seq DiskManager.pd_disk DiskManager.pd_number].
    rewrite D, N. repeat split. constructor; [reflexivity | exact L].
Qed.

(** X8: when [setup_manual] returns, its summary reports success, the parity
    disk, and the data disks in the order given, each with its number,
    counted from 1, and the label disk<number>. *)
Theorem setup_manual_summary :
  forall sink parity_disk data_disks h t r,
    fst (DiskManager.setup_manual parity_disk data_disks (sink_of sink) h t) = Ok r ->
    DiskManager.sr_success r = true
    /\ DiskManager.sr_parity r = parity_disk
    /\ map DiskManager.pd_disk (DiskManager.sr_data_disks r) = data_disks
    /\ map DiskManager.pd_number (DiskManager.sr_data_disks r) = seq 1 (length data_disks)
    /\ Forall (fun d => DiskManager.pd_label d
                        = "disk" +:+ PyStr.of_nat (DiskManager.pd_number d))
         (DiskManager.sr_data_disks r).
Proof.
  intros sink parity_disk data_disks h t r Hr.
  destruct (setup_manual_phases sink parity_disk data_disks h t) as (rest & _ & _ & R).
  rewrite Hr in R. subst r. cbn [DiskManager.sr_success DiskManager.sr_parity
                                 DiskManager.sr_data_disks].
  destruct (prepared_from_fields data_disks 1) as (D & N & L). auto.
Qed.

Lemma setup_manual_summary_witness :
  exists r,
    fst (DiskManager.setup_manual "/dev/sda" ["/dev/sdb"; "/dev/sdc"] (sink_of true)
           quiet_host []) = Ok r
    /\ map DiskManager.pd_disk (DiskManager.sr_data_disks r) = ["/dev/sdb"; "/dev/sdc"]
    /\ map DiskManager.pd_number (DiskManager.sr_data_disks r) = [1; 2].
Proof.
  destruct (fst (DiskManager.setup_manual "/dev/sda" ["/dev/sdb"; "/dev/sdc"] (sink_of true)
                   quiet_host [])) as [r|e] eqn:E; [|vm_compute in E; discriminate].
  exists r. split; [reflexivity|].
  destruct (setup_manual_summary true "/dev/sda" ["/dev/sdb"; "/dev/sdc"] quiet_host [] r E)
    as (_ & _ & D & N & _).
  split; [exact D | exact N].
Defined.

(** ** What goes into /etc/fstab and /etc/snapraid.conf *)

Lemma appended_app path t1 t2 :
  appended path (t1 ++ t2) = appended path t1 ++ appended path t2.
Proof.
  induction t1 as [|a t1 IH]; [reflexivity|].
  destruct a; cbn [app appended]; try exact IH.
  destruct (path0 =? path); cbn [app]; now rewrite IH.
Qed.

Lemma appended_map_makedirs path {A} (f : A -> string) l :
  appended path (map (fun x => MakeDirs (f x)) l) = [].
Proof. induction l; [reflexivity | exact IHl]. Qed.

Lemma appended_map_run path {A} (f : A -> string) l :
  appended path (map (fun x => Run (f x)) l) = [].
Proof. induction l; [reflexivity | exact IHl]. Qed.

Lemma fstab_text_commands facts1 facts2 parity_disk data_disks :
  (forall cmd, facts1 (Run cmd) = facts2 (Run cmd)) ->
  fstab_text facts1 parity_disk data_disks = fstab_text facts2 parity_disk data_disks.
Proof.
  intros Hc. unfold fstab_text, command_output, const_host.
  rewrite Hc. f_equal. f_equal. f_equal.
  apply map_ext. intros d. now rewrite Hc.
Qed.

(** X9: [setup_fstab] appends its entries whatever /etc/fstab already
    holds: a second run, on a machine where [blkid] answers as before,
    appends the very same text again, so every mount point is listed
    twice. *)
Theorem setup_fstab_appends_again :
  forall facts1 facts2 parity_disk data_disks t t1 t2,
    (forall cmd, facts1 (Run cmd) = facts2 (Run cmd)) ->
    DiskManager.setup_fstab parity_disk data_disks (const_host facts1) t = (Ok tt, t1) ->
    DiskManager.setup_fstab parity_disk data_disks (const_host facts2) t1 = (Ok tt, t2) ->
    let text := fstab_text facts1 parity_disk data_disks in
    appended "/etc/fstab" t1 = appended "/etc/fstab" t ++ [text]
    /\ appended "/etc/fstab" t2 = appended "/etc/fstab" t ++ [text; text].
Proof.
  intros facts1 facts2 parity_disk data_disks t t1 t2 Hc H1 H2 text.
  apply setup_fstab_trace in H1. apply setup_fstab_trace in H2.
  rewrite <- (fstab_text_commands facts1 facts2 _ _ Hc) in H2. fold text in H1, H2.
  assert (A1 : appended "/etc/fstab" t1 = appended "/etc/fstab" t ++ [text]).
  { rewrite H1. rewrite appended_app. f_equal. cbn [appended].
    rewrite appended_app, (appended_map_makedirs "/etc/fstab"). cbn [app appended].
    rewrite appended_app, (appended_map_run "/etc/fstab"). reflexivity. }
  split; [exact A1|].
  rewrite H2. rewrite appended_app, A1, <- app_assoc. f_equal. cbn [appended].
  rewrite appended_app, (appended_map_makedirs "/etc/fstab"). cbn [app appended].
  rewrite appended_app, (appended_map_run "/etc/fstab"). reflexivity.
Qed.

Lemma setup_fstab_appends_again_witness :
  fst (DiskManager.setup_fstab "/dev/nvme0n1" (prepared_from 1 ["/dev/sdb"])
         (const_host nvme_facts) []) = Ok tt
  /\ length (appended "/etc/fstab"
               (snd (DiskManager.setup_fstab "/dev/nvme0n1" (prepared_from 1 ["/dev/sdb"])
                       (const_host (fun a => match a with
                                             | ReadFile _ => Returned 0 "UUID=0 / ext4"
                                             | _ => nvme_facts a
                                             end))
                       (snd (DiskManager.setup_fstab "/dev/nvme0n1"
                               (prepared_from 1 ["/dev/sdb"])
                               (const_host nvme_facts) []))))) = 2.
Proof.
  split; [vm_compute; reflexivity|].
  set (facts2 := fun a => match a with
                          | ReadFile _ => Returned 0 "UUID=0 / ext4"
                          | _ => nvme_facts a
                          end).
  set (run1 := DiskManager.setup_fstab "/dev/nvme0n1" (prepared_from 1 ["/dev/sdb"])
                 (const_host nvme_facts) []).
  set (run2 := DiskManager.setup_fstab "/dev/nvme0n1" (prepared_from 1 ["/dev/sdb"])
                 (const_host facts2) (snd run1)).
  assert (Hc : forall cmd, nvme_facts (Run cmd) = facts2 (Run cmd)) by reflexivity.
  assert (H1 : run1 = (Ok tt, snd run1)) by (vm_compute; reflexivity).
  assert (H2 : run2 = (Ok tt, snd run2)) by (vm_compute; reflexivity).
  destruct (setup_fstab_appends_again nvme_facts facts2 _ _ _ _ _ Hc H1 H2) as [_ P2].
  rewrite P2. reflexivity.
Defined.

Lemma written_app a b : written (a ++ b) = written a +:+ written b.
Proof.
  unfold written. induction a as [|x a IH]; [reflexivity|].
  cbn [app fold_right]. now rewrite IH, append_assoc.
Qed.

Lemma line_breaks_app a b : line_breaks (a +:+ b) = line_breaks a + line_breaks b.
Proof.
  induction a as [|x a IH]; [reflexivity|].
  rewrite append_cons. cbn [line_breaks]. rewrite IH. lia.
Qed.

Lemma line_breaks_of_nat n : line_breaks (PyStr.of_nat n) = 0.
Proof.
  unfold PyStr.of_nat. pose proof (of_N_digits (N.of_nat n)) as D.
  unfold PyStr.all_digits in D.
  induction (PyStr.of_N (N.of_nat n)) as [|c s IH]; [reflexivity|].
  cbn [PyStr.all_of] in D. apply andb_true_iff in D as [Dc Ds].
  cbn [line_breaks]. rewrite (IH Ds).
  destruct (Ascii.eqb_spec c "010") as [->|_]; [discriminate Dc | reflexivity].
Qed.

Lemma line_breaks_entries (f : nat -> string) (data_disks : list DiskManager.Prepared) :
  (forall n, line_breaks (f n) = 0) ->
  line_breaks (written (map (fun d => f (DiskManager.pd_number d)) data_disks)) = 0.
Proof.
  intros Hf. induction data_disks as [|d l IH]; [reflexivity|].
  unfold written in *. cbn [map fold_right]. now rewrite line_breaks_app, Hf, IH.
Qed.

(** X10: [setup_snapraid_config] overwrites /etc/snapraid.conf with a text in
    which the content entries of the data disks follow one another, and the
    entry of /var, without a line break, the data entries follow one another
    without a line break, and the first exclusion follows the words
    # Exclusions on their line: the file has twenty line breaks whatever the
    number of data disks. *)
Theorem snapraid_config_entries_share_lines :
  forall parity_disk data_disks h t,
    exists text,
      snd (DiskManager.setup_snapraid_config parity_disk data_disks h t)
      = t ++ [WriteFile "/etc/snapraid.conf" text]
      /\ text
         = "# SnapRAID Configuration - Smart Storage Manager" +:+ PyStr.nl
           +:+ "parity /mnt/parity/snapraid.parity" +:+ PyStr.nl
           +:+ PyStr.nl +:+ "content /var/snapraid.content"
           +:+ written (map (fun d => "content /mnt/disk"
                                      +:+ PyStr.of_nat (DiskManager.pd_number d)
                                      +:+ "/.snapraid.content") data_disks)
           +:+ PyStr.nl
           +:+ written (map (fun d => "data d" +:+ PyStr.of_nat (DiskManager.pd_number d)
                                      +:+ " /mnt/disk"
                                      +:+ PyStr.of_nat (DiskManager.pd_number d)) data_disks)
           +:+ PyStr.nl +:+ "# Exclusions" +:+ "exclude *.unrecoverable" +:+ PyStr.nl
           +:+ written (map (fun e => e +:+ PyStr.nl) (tl DiskManager.exclusions))
           +:+ PyStr.nl +:+ "block_size 256"
           +:+ PyStr.nl +:+ "autosave 500" +:+ PyStr.nl
      /\ line_breaks text = 20.
Proof.
  intros parity_disk data_disks h t.
  exists (written (DiskManager.snapraid_config data_disks)).
  split; [|split].
  - unfold DiskManager.setup_snapraid_config, os_call, bind, perform, written.
    destruct (h t _); reflexivity.
  - unfold DiskManager.snapraid_config. rewrite !written_app.
    rewrite !append_assoc. reflexivity.
  - unfold DiskManager.snapraid_config. rewrite !written_app, !line_breaks_app.
    rewrite (line_breaks_entries
               (fun n => "content /mnt/disk" +:+ PyStr.of_nat n +:+ "/.snapraid.content")).
    2:{ intros n. rewrite !line_breaks_app, line_breaks_of_nat. reflexivity. }
    rewrite (line_breaks_entries
               (fun n => "data d" +:+ PyStr.of_nat n +:+ " /mnt/disk" +:+ PyStr.of_nat n)).
    2:{ intros n. rewrite !line_breaks_app, !line_breaks_of_nat. reflexivity. }
    reflexivity.
Qed.
(** ** The status of the array *)

Lemma try_except_ok {A} (c : M A) handler h t a t' :
  c h t = (Ok a, t') -> try_except c handler h t = (Ok a, t').
Proof. intros E. unfold try_except. now rewrite E. Qed.

Lemma try_except_raise {A} (c : M A) handler h t e t' :
  c h t = (Raise e, t') -> try_except c handler h t = handler e h t'.
Proof. intros E. unfold try_except. now rewrite E. Qed.

Lemma socket_emit_eq event data h t :
  App.socket_emit event data h t = (Ok tt, t ++ [SocketEmit event data]).
Proof. reflexivity. Qed.

Lemma get_status_stops h t :
  SnapRAIDManager.get_status h t
  = (Raise (NameError "os"), t ++ [Run "/usr/local/bin/snapraid status"]).
Proof.
  unfold SnapRAIDManager.get_status, SnapRAIDManager.run_command.
  unfold bind, perform. destruct (h t (Run _)); reflexivity.
Qed.

Lemma is_run_commands d : forallb is_run d = true -> d = map Run (commands d).
Proof.
  induction d as [|a d IH]; [reflexivity|]. cbn [forallb].
  intros H. apply andb_true_iff in H as [Ha Hd].
  destruct a; try discriminate. cbn [commands map]. now rewrite <- IH.
Qed.

Section StatusFacts.
Context {allowed : Action -> bool}.

Lemma runs_within_mono {A} (post post' : A -> Prop)
    (exn exn' : Host -> Trace -> PyExn -> Prop) (c : M A) :
  (forall a, post a -> post' a) -> (forall h t e, exn h t e -> exn' h t e) ->
  runs_within allowed post exn c -> runs_within allowed post' exn' c.
Proof.
  intros Wp We Hc h t. destruct (Hc h t) as (d & E & F & R).
  exists d. split; [assumption|]. split; [assumption|].
  destruct (fst (c h t)); auto.
Qed.

Lemma runs_within_for_fold_inv {A S} (inv : S -> Prop)
    (exn : Host -> Trace -> PyExn -> Prop)
    (l : list A) (acc : S) body :
  inv acc ->
  (forall s x, inv s -> runs_within allowed inv exn (body s x)) ->
  runs_within allowed inv exn (for_fold l acc body).
Proof.
  intros Hacc Hb. revert acc Hacc. induction l as [|x l IH]; intros acc Hacc; simpl.
  - now apply runs_within_ret.
  - eapply runs_within_bind; [now apply Hb | intros s Hs; now apply IH].
Qed.

Lemma runs_within_int_of s :
  runs_within allowed (fun _ => True) (fun _ _ => is_int_error) (DiskManager.int_of s).
Proof.
  unfold DiskManager.int_of. destruct (PyStr.int s) eqn:E.
  - now apply runs_within_ret.
  - apply runs_within_raise. intros _ _. now exists s.
Qed.

Lemma runs_within_get_all_disks_status :
  allowed (Run "df -h | grep '/mnt/disk'") = true ->
  runs_within allowed (fun _ => True) (fun _ _ => is_int_error) DiskManager.get_all_disks_status.
Proof.
  intros Ha. unfold DiskManager.get_all_disks_status.
  eapply runs_within_bind; [now apply runs_within_run_command|]. intros out _.
  apply runs_within_for_fold. intros disks_status line.
  destruct (line =? ""); [now apply runs_within_ret|].
  destruct (6 <=? _)%nat; [|now apply runs_within_ret].
  eapply runs_within_bind; [apply runs_within_int_of|].
  intros usage _. now apply runs_within_ret.
Qed.

Lemma runs_within_check_health :
  (forall cmd, allowed (Run cmd) = true) ->
  runs_within allowed health_consistent (fun _ _ => is_int_error) DiskManager.check_health.
Proof.
  intros Ha. unfold DiskManager.check_health.
  assert (Hadd : forall health issue, health_consistent (DiskManager.add_issue health issue)).
  { intros health issue. right. split; [reflexivity|].
    cbn [DiskManager.add_issue DiskManager.issues]. now destruct (DiskManager.issues health). }
  eapply runs_within_bind; [now apply runs_within_run_command|]. intros listing _.
  eapply runs_within_bind.
  { apply (runs_within_for_fold_inv health_consistent).
    - left. split; reflexivity.
    - intros health disk Hh.
      eapply runs_within_bind; [now apply runs_within_run_command|]. intros smart _.
      destruct (negb _); now apply runs_within_ret. }
  intros health Hh.
  eapply runs_within_bind; [now apply runs_within_get_all_disks_status|].
  intros disks_status _.
  apply (runs_within_for_fold_inv health_consistent); [exact Hh|].
  intros health' [name status] Hh'.
  destruct (90 <? _)%Z; now apply runs_within_ret.
Qed.

End StatusFacts.

(** X11: [check_health] only runs commands; when it returns, the verdict is
    healthy exactly when the list of issues is empty, and warning otherwise;
    the only exception it raises is the [ValueError] of a usage figure of
    [df] that is not an integer. *)
Theorem check_health_consistent :
  forall h t,
    exists cmds,
      snd (DiskManager.check_health h t) = t ++ map Run cmds
      /\ match fst (DiskManager.check_health h t) with
         | Ok health =>
             (DiskManager.overall health = "healthy" /\ DiskManager.issues health = [])
             \/ (DiskManager.overall health = "warning" /\ DiskManager.issues health <> [])
         | Raise e =>
             exists s, PyStr.int s = None /\ e = Exception (PyStr.int_error s)
         end.
Proof.
  intros h t.
  destruct (@runs_within_check_health is_run (fun _ => eq_refl) h t) as (d & E & F & R).
  exists (commands d). rewrite <- (is_run_commands d F). split; [exact E | exact R].
Qed.

Lemma runs_within_get_mergerfs_status {allowed : Action -> bool} :
  allowed (Run "df -h /mnt/storage 2>/dev/null | tail -1") = true ->
  runs_within allowed (fun _ => True) (fun _ _ => is_int_error) DiskManager.get_mergerfs_status.
Proof.
  intros Ha. unfold DiskManager.get_mergerfs_status.
  eapply runs_within_bind; [now apply runs_within_run_command|]. intros result _.
  destruct (negb _); [|now apply runs_within_ret].
  destruct (6 <=? _)%nat; [|now apply runs_within_ret].
  eapply runs_within_bind; [apply runs_within_int_of|].
  intros usage _. now apply runs_within_ret.
Qed.

Lemma runs_within_get_status {allowed : Action -> bool} :
  allowed (Run "/usr/local/bin/snapraid status") = true ->
  runs_within allowed (fun _ => False) (fun _ _ e => e = NameError "os")
    SnapRAIDManager.get_status.
Proof.
  intros Ha h t. rewrite get_status_stops. eexists. cbn [fst snd].
  split; [reflexivity|]. cbn [forallb]. now rewrite Ha.
Qed.

(** A computation that never returns, under a route. *)
Lemma respond_never_returns {A} allowed (exn : PyExn -> Prop) (c : M A) :
  runs_within allowed (fun _ => False) (fun _ _ => exn) c ->
  forall h t, exists e d,
    App.respond c h t = (Ok (App.JsonError (exn_str e) 500), t ++ d)
    /\ forallb allowed d = true /\ exn e.
Proof.
  intros Hc h t. assert (Hb : runs_within allowed (fun _ : App.Response A => False) (fun _ _ => exn)
                                (bind c (fun result => ret (App.Json result 200)))).
  { eapply runs_within_bind; [exact Hc | intros a []]. }
  destruct (Hb h t) as (d & E & F & R). unfold App.respond, try_except.
  destruct (bind c _ h t) as [[r|e] t'] eqn:B; cbn [fst snd] in *; [contradiction|].
  exists e, d. subst t'. auto.
Qed.

(** X12: [GET /api/status] answers 500 on every host: it asks [df] for the
    disks and for the pool and runs [snapraid status], and stops there at the
    latest, on the [NameError] of [get_status], unless a usage figure of [df]
    that is not an integer has stopped it before; the health check is never
    reached. *)
Theorem status_route_always_fails :
  forall h t,
    exists msg cmds,
      App.get_status h t = (Ok (App.JsonError msg 500), t ++ map Run cmds)
      /\ (msg = "name 'os' is not defined"
          \/ exists s, PyStr.int s = None /\ msg = PyStr.int_error s)
      /\ incl cmds ["df -h | grep '/mnt/disk'";
                    "df -h /mnt/storage 2>/dev/null | tail -1";
                    "/usr/local/bin/snapraid status"].
Proof.
  intros h t. unfold App.get_status.
  match goal with |- context [App.respond ?c] =>
    assert (Hc : runs_within status_query (fun _ => False) (fun _ _ => is_status_error) c)
  end.
  { eapply runs_within_bind.
    { eapply runs_within_mono; [| |apply runs_within_get_all_disks_status; reflexivity];
        [intros a Ha; exact Ha | intros ? ? e He; right; exact He]. }
    intros disks _. eapply runs_within_bind.
    { eapply runs_within_mono; [| |apply runs_within_get_mergerfs_status; reflexivity];
        [intros a Ha; exact Ha | intros ? ? e He; right; exact He]. }
    intros mergerfs _. eapply runs_within_bind.
    { eapply runs_within_mono; [| |apply runs_within_get_status; reflexivity];
        [intros a Ha; exact Ha | intros ? ? e He; left; exact He]. }
    intros snapraid []. }
  destruct (respond_never_returns _ _ _ Hc h t) as (e & d & E & F & He).
  assert (Hd : d = map Run (commands d)).
  { apply is_run_commands. rewrite forallb_forall in *. intros a Ha.
    specialize (F a Ha). destruct a; try discriminate. reflexivity. }
  exists (exn_str e), (commands d). rewrite <- Hd. split; [exact E|]. split.
  - destruct He as [-> | (s & Hs & ->)]; [left; reflexivity | right; now exists s].
  - intros cmd Hin. rewrite forallb_forall in F.
    assert (Ha : In (Run cmd) d) by (rewrite Hd; now apply in_map).
    specialize (F _ Ha). cbn [status_query] in F.
    apply orb_true_iff in F as [F | F]; [apply orb_true_iff in F as [F | F]|];
      apply String.eqb_eq in F; subst cmd; cbn; auto.
Qed.

(** X13: the scheduled maintenance never completes and never starts a
    sync: on every host it announces its start, runs commands only, and ends
    with a [maintenance_error], on the [NameError] of [get_status] or, before
    it, on a usage figure of [df] that is not an integer. *)
Theorem scheduled_maintenance_never_completes :
  forall h t,
    exists e cmds,
      App.scheduled_maintenance h t
      = (Ok tt,
         t ++ SocketEmit "maintenance_start"
                (<["message" := PStr "بدأت الصيانة التلقائية"]> ∅)
           :: map Run cmds
           ++ [SocketEmit "maintenance_error" (<["error" := PStr (exn_str e)]> ∅)])
      /\ (e = NameError "os"
          \/ exists s, PyStr.int s = None /\ e = Exception (PyStr.int_error s)).
Proof.
  intros h t. unfold App.scheduled_maintenance.
  erewrite bind_ok by apply socket_emit_eq.
  match goal with |- context [try_except ?c _] =>
    assert (Hc : runs_within is_run (fun _ : unit => False) (fun _ _ => is_status_error) c)
  end.
  { eapply runs_within_bind.
    { eapply runs_within_mono;
        [| |apply (@runs_within_check_health is_run); reflexivity];
        [intros a _; exact I | intros ? ? e He; right; exact He]. }
    intros health _. eapply runs_within_bind.
    { eapply runs_within_mono; [| |apply runs_within_get_status; reflexivity];
        [intros a Ha; exact Ha | intros ? ? e He; left; exact He]. }
    intros status []. }
  match goal with |- context [try_except ?c _ h ?t1] =>
    destruct (Hc h t1) as (d & E & F & R); destruct (c h t1) as [[r|e] t'] eqn:B
  end; cbn [fst snd] in *; [contradiction|].
  erewrite try_except_raise by exact B. rewrite socket_emit_eq. subst t'.
  exists e, (commands d). rewrite <- (is_run_commands d F).
  split; [|exact R]. unfold App.error_data. now rewrite <- !app_assoc.
Qed.

(** X14: [GET /api/snapraid/status] answers 500 on every host, with the
    message of the [NameError], after [snapraid status] has run twice: once
    for the raw output, once in [get_status]. *)
Theorem snapraid_status_always_fails :
  forall h t,
    App.snapraid_status h t
    = (Ok (App.JsonError "name 'os' is not defined" 500),
       t ++ [Run "/usr/local/bin/snapraid status"; Run "/usr/local/bin/snapraid status"]).
Proof.
  intros h t. unfold App.snapraid_status, App.respond.
  erewrite try_except_raise.
  2:{ apply bind_raise. unfold SnapRAIDManager.get_detailed_status.
      assert (E : exists out, SnapRAIDManager.run_command
                                (SnapRAIDManager.snapraid_bin +:+ " status") h t
                              = (Ok out, t ++ [Run "/usr/local/bin/snapraid status"])).
      { unfold SnapRAIDManager.run_command, bind, perform.
        destruct (h t (Run _)); eexists; reflexivity. }
      destruct E as [out E]. erewrite bind_ok by exact E.
      apply bind_raise. apply get_status_stops. }
  unfold ret. now rewrite <- app_assoc.
Qed.

(** X15: [GET /api/storage/usage] and [GET /api/settings] answer 500 on every
    host and touch nothing: the manager has no method of these names. *)
Theorem missing_methods_always_fail :
  forall h t,
    App.get_storage_usage h t
    = (Ok (App.JsonError "'DiskManager' object has no attribute 'get_storage_usage'" 500), t)
    /\ App.get_settings h t
       = (Ok (App.JsonError "'DiskManager' object has no attribute 'get_settings'" 500), t).
Proof. intros h t. split; reflexivity. Qed.

(** ** The routes of the inventory *)

Lemma respond_ok {A} (c : M A) h t a t' :
  c h t = (Ok a, t') -> App.respond c h t = (Ok (App.Json a 200), t').
Proof.
  intros E. unfold App.respond. apply try_except_ok. now erewrite bind_ok by exact E.
Qed.

Lemma split_ws_words s : Forall (fun w => w <> "") (PyStr.split_ws s).
Proof.
  induction s as [|c s IH]; [constructor|]. cbn [PyStr.split_ws].
  destruct (PyStr.is_space c); [exact IH|].
  destruct s as [|d s']; [constructor; [discriminate | constructor]|].
  destruct (PyStr.is_space d); [constructor; [discriminate | exact IH]|].
  destruct (PyStr.split_ws (String d s')) as [|w ws];
    [constructor; [discriminate | constructor]|].
  inversion IH; subst. constructor; [discriminate | assumption].
Qed.

Lemma add_partition_named partitions part :
  Forall (fun p => DiskManager.pt_name p <> "" /\ DiskManager.pt_size p <> "") partitions ->
  Forall (fun p => DiskManager.pt_name p <> "" /\ DiskManager.pt_size p <> "")
    (DiskManager.add_partition partitions part).
Proof.
  intros H. unfold DiskManager.add_partition.
  destruct (negb _); [|exact H].
  pose proof (split_ws_words part) as W.
  destruct (PyStr.split_ws part) as [|w1 [|w2 ws]]; cbn [length Nat.leb]; try exact H.
  apply Forall_app. split; [exact H|].
  inversion W as [|? ? W1 W']; subst. inversion W' as [|? ? W2 _]; subst.
  constructor; [|constructor]. cbn [DiskManager.pt_name DiskManager.pt_size nth]. auto.
Qed.

Lemma partitions_named lines :
  forall partitions,
    Forall (fun p => DiskManager.pt_name p <> "" /\ DiskManager.pt_size p <> "") partitions ->
    Forall (fun p => DiskManager.pt_name p <> "" /\ DiskManager.pt_size p <> "")
      (fold_left DiskManager.add_partition lines partitions).
Proof.
  induction lines as [|line lines IH]; intros partitions H; [exact H|].
  cbn [fold_left]. apply IH. now apply add_partition_named.
Qed.

Lemma partitions_bounded lines :
  forall partitions,
    length (fold_left DiskManager.add_partition lines partitions)
    <= length partitions + length lines.
Proof.
  induction lines as [|line lines IH]; intros partitions; cbn [fold_left length]; [lia|].
  etransitivity; [apply IH|].
  unfold DiskManager.add_partition.
  destruct (negb _); [|lia]. destruct (2 <=? _)%nat; [|lia].
  rewrite length_app. cbn [length]. lia.
Qed.

(** X16: [GET /api/disks/info/<disk_name>] answers 200 on every host, for
    every name: no answer of the machine makes [get_disk_info] raise.  The
    health reported is PASSED or Unknown, the temperature is N/A or ends with
    the unit, every partition listed has a name and a size, and there is at
    most one per line of the listing. *)
Theorem disk_info_route_always_answers :
  forall disk_name h t,
    exists info t',
      App.get_disk_info disk_name h t = (Ok (App.Json info 200), t')
      /\ DiskManager.dd_name info = disk_name
      /\ (DiskManager.dd_health info = "PASSED" \/ DiskManager.dd_health info = "Unknown")
      /\ (DiskManager.dd_temperature info = "N/A"
          \/ exists temp, temp <> "" /\ DiskManager.dd_temperature info = temp +:+ "°C")
      /\ Forall (fun p => DiskManager.pt_name p <> "" /\ DiskManager.pt_size p <> "")
           (DiskManager.dd_partitions info)
      /\ exists before after,
           let cmd := "lsblk -ln -o NAME,SIZE,FSTYPE,MOUNTPOINT /dev/"
                      +:+ PyStr.replace disk_name "/dev/" "" +:+ " | tail -n +2" in
           t' = before ++ Run cmd :: after
           /\ length (DiskManager.dd_partitions info)
              <= length (PyStr.split (command_output h before cmd) "010").
Proof.
  intros disk_name h t. unfold App.get_disk_info, DiskManager.get_disk_info.
  destruct (total_get_disk_size_gb (PyStr.replace disk_name "/dev/" "") h t)
    as (size_gb & t1 & E1).
  destruct (total_get_disk_type (PyStr.replace disk_name "/dev/" "") h t1)
    as (type & t2 & E2).
  destruct (total_get_disk_model (PyStr.replace disk_name "/dev/" "") h t2)
    as (model & t3 & E3).
  destruct (total_get_disk_serial (PyStr.replace disk_name "/dev/" "") h t3)
    as (serial & t4 & E4).
  destruct (total_is_mounted (PyStr.replace disk_name "/dev/" "") h t4)
    as (mounted & t5 & E5).
  eexists _, _. split.
  { apply respond_ok.
    erewrite bind_ok by exact E1. erewrite bind_ok by exact E2.
    erewrite bind_ok by exact E3. erewrite bind_ok by exact E4.
    erewrite bind_ok by exact E5.
    erewrite bind_ok by apply run_command_eq.
    erewrite bind_ok by apply run_command_eq.
    erewrite bind_ok by apply run_command_eq.
    reflexivity. }
  cbn [DiskManager.dd_name DiskManager.dd_health DiskManager.dd_temperature
       DiskManager.dd_partitions].
  split; [reflexivity|]. split.
  { destruct (PyStr.contains _ _); auto. }
  split.
  { match goal with |- context [negb (?x =? "")] =>
      destruct (String.eqb_spec x "") as [->|Hn] end; cbn [negb]; [now left|].
    right. eexists. split; [exact Hn | reflexivity]. }
  split; [apply partitions_named; constructor|].
  exists t5. eexists. cbv zeta. split; [|apply (partitions_bounded _ [])].
  rewrite <- !app_assoc. reflexivity.
Qed.

(** X17: [GET /api/disks/detect] answers 200 on every host, with the
    inventory of [detect_all_disks]: no answer of the machine makes the
    detection raise. *)
Theorem detect_route_always_answers :
  forall h t,
    exists inventory t',
      DiskManager.detect_all_disks h t = (Ok inventory, t')
      /\ App.detect_disks h t = (Ok (App.Json inventory 200), t').
Proof.
  intros h t.
  assert (E : exists inventory t', DiskManager.detect_all_disks h t = (Ok inventory, t')).
  { unfold DiskManager.detect_all_disks.
    destruct (total_get_system_disk h t) as (sd & t1 & E1).
    erewrite bind_ok by apply E1.
    erewrite bind_ok by apply run_command_eq.
    match goal with |- context [for_fold ?names ?acc _] =>
      destruct (detect_loop_partition sd names acc h (t1 ++ [Run list_disks_command]))
        as (na & ne & t' & E & _) end.
    erewrite bind_ok by apply E. eexists _, _. reflexivity. }
  destruct E as (inventory & t' & E). exists inventory, t'.
  split; [exact E|]. unfold App.detect_disks. now apply respond_ok.
Qed.

(** ** The background tasks *)

Lemma emitted_app t1 t2 : emitted (t1 ++ t2) = emitted t1 ++ emitted t2.
Proof.
  induction t1 as [|a t1 IH]; simpl; [reflexivity|].
  destruct a; simpl; now rewrite ?IH.
Qed.

Lemma now_const facts t :
  SnapRAIDManager.now (const_host facts) t = (Ok (clock facts), t ++ [Now]).
Proof.
  unfold SnapRAIDManager.now, bind, perform, const_host, clock.
  destruct (facts Now); reflexivity.
Qed.

(** On a host that ignores the history the loop over the lines gives the
    same under [list(...)] and under the [for] of a background task: the
    task pushes what the generator yields, and stops on the exception the
    generator ends with. *)
Lemma stream_lines_const type facts stdout_lines :
  forall yielded t t2,
  exists new ending t' t2',
    SnapRAIDManager.stream_lines type stdout_lines yielded (const_host facts) t
    = (Ok (yielded ++ new, ending), t')
    /\ for_each stdout_lines (fun line =>
         do line <- SnapRAIDManager.readline line;
         if negb (line =? "") then
           do timestamp <- SnapRAIDManager.now;
           App.socket_emit "snapraid_progress"
             (SnapRAIDManager.line_event type line timestamp)
         else ret tt) (const_host facts) t2
       = (match ending with Some e => Raise e | None => Ok tt end, t2')
    /\ emitted t2' = emitted t2 ++ map (pair "snapraid_progress") new.
Proof.
  induction stdout_lines as [|line lines IH]; intros yielded t t2.
  - exists [], None, t, t2. cbn. unfold ret. now rewrite !app_nil_r.
  - cbn [SnapRAIDManager.stream_lines for_each].
    destruct (facts (ReadLine line)) as [rc text|msg] eqn:F.
    + assert (R : forall t, SnapRAIDManager.readline line (const_host facts) t
                            = (Ok line, t ++ [ReadLine line])).
      { intros t0. rewrite readline_eq. unfold const_host. now rewrite F. }
      destruct (negb (line =? "")) eqn:N.
      * destruct (IH (yielded ++ [SnapRAIDManager.line_event type line (clock facts)])
                    ((t ++ [ReadLine line]) ++ [Now])
                    (((t2 ++ [ReadLine line]) ++ [Now])
                     ++ [SocketEmit "snapraid_progress"
                           (SnapRAIDManager.line_event type line (clock facts))]))
          as (new & ending & t' & t2' & E & E2 & Em).
        exists (SnapRAIDManager.line_event type line (clock facts) :: new), ending, t', t2'.
        split; [|split].
        -- erewrite bind_ok by (unfold attempt; rewrite R; reflexivity).
           cbn [fst snd]. rewrite N. erewrite bind_ok by apply now_const.
           rewrite E, <- app_assoc. reflexivity.
        -- erewrite bind_ok; [exact E2|].
           erewrite bind_ok by apply R. rewrite N.
           erewrite bind_ok by apply now_const. apply socket_emit_eq.
        -- rewrite Em, !emitted_app. cbn. now rewrite !app_nil_r, <- app_assoc.
      * destruct (IH yielded (t ++ [ReadLine line]) (t2 ++ [ReadLine line]))
          as (new & ending & t' & t2' & E & E2 & Em).
        exists new, ending, t', t2'. split; [|split].
        -- erewrite bind_ok by (unfold attempt; rewrite R; reflexivity).
           cbn [fst snd]. rewrite N. exact E.
        -- erewrite bind_ok; [exact E2|].
           erewrite bind_ok by apply R. rewrite N. reflexivity.
        -- rewrite Em, emitted_app. cbn. now rewrite app_nil_r.
    + assert (R : forall t, SnapRAIDManager.readline line (const_host facts) t
                            = (Raise (Exception msg), t ++ [ReadLine line])).
      { intros t0. rewrite readline_eq. unfold const_host. now rewrite F. }
      exists [], (Some (Exception msg)), (t ++ [ReadLine line]), (t2 ++ [ReadLine line]).
      split; [|split].
      -- erewrite bind_ok by (unfold attempt; rewrite R; reflexivity).
         cbn [fst snd]. unfold ret. now rewrite app_nil_r.
      -- apply bind_raise. apply bind_raise. apply R.
      -- rewrite emitted_app. cbn. now rewrite !app_nil_r.
Qed.

Lemma popen_const facts cmd t :
  perform (Popen cmd) (const_host facts) t = (Ok (facts (Popen cmd)), t ++ [Popen cmd]).
Proof. reflexivity. Qed.

Lemma emitted_popen t cmd : emitted (t ++ [Popen cmd]) = emitted t.
Proof. rewrite emitted_app. cbn. now rewrite app_nil_r. Qed.

Lemma sync_task_const facts t :
  exists yielded ending,
    fst (SnapRAIDManager.sync_with_progress (const_host facts) t) = Ok (yielded, ending)
    /\ emitted (snd (App.run_snapraid_sync (const_host facts) t))
       = emitted t ++ map (pair "snapraid_progress") yielded
         ++ match ending with
            | Some e => [("snapraid_error", <["error" := PStr (exn_str e)]> ∅)]
            | None => []
            end.
Proof.
  unfold App.run_snapraid_sync, SnapRAIDManager.sync_with_progress,
    SnapRAIDManager.for_sync_with_progress, SnapRAIDManager.for_stream_lines.
  erewrite bind_ok by apply popen_const.
  set (task := bind _ _).
  assert (T : task (const_host facts) t
              = match facts (Popen (SnapRAIDManager.snapraid_bin +:+ " sync")) with
                | Threw msg => (Raise (OSError msg),
                                t ++ [Popen (SnapRAIDManager.snapraid_bin +:+ " sync")])
                | Returned returncode stdout =>
                    (bind (for_each (PyStr.readlines stdout) (fun line =>
                       do line <- SnapRAIDManager.readline line;
                       if negb (line =? "") then
                         do timestamp <- SnapRAIDManager.now;
                         App.socket_emit "snapraid_progress"
                           (SnapRAIDManager.line_event "sync" line timestamp)
                       else ret tt))
                      (fun _ =>
                         if (returncode =? 0)%Z then
                           App.socket_emit "snapraid_progress"
                             (SnapRAIDManager.final_event "complete" "اكتمل Sync بنجاح" true)
                         else
                           App.socket_emit "snapraid_progress"
                             (SnapRAIDManager.final_event "error" "فشل Sync" false)))
                      (const_host facts)
                      (t ++ [Popen (SnapRAIDManager.snapraid_bin +:+ " sync")])
                end).
  { unfold task. erewrite bind_ok by apply popen_const.
    destruct (facts (Popen _)); reflexivity. }
  unfold try_except. rewrite T. clear T task.
  destruct (facts (Popen _)) as [rc out|msg].
  - destruct (stream_lines_const "sync" facts (PyStr.readlines out) []
                (t ++ [Popen (SnapRAIDManager.snapraid_bin +:+ " sync")])
                (t ++ [Popen (SnapRAIDManager.snapraid_bin +:+ " sync")]))
      as (new & ending & t' & t2' & E & E2 & Em).
    cbn [app] in E. rewrite emitted_popen in Em.
    erewrite bind_ok by exact E.
    destruct ending as [e|].
    + exists new, (Some e). split; [reflexivity|].
      erewrite bind_raise by exact E2. rewrite socket_emit_eq. cbn [snd].
      rewrite emitted_app, Em, <- app_assoc. reflexivity.
    + erewrite bind_ok by exact E2.
      destruct (rc =? 0)%Z; eexists _, None; (split; [reflexivity|]);
        rewrite socket_emit_eq; cbn [snd];
        rewrite emitted_app, Em, map_app, app_nil_r, <- app_assoc; reflexivity.
  - exists [], (Some (OSError msg)). split; [reflexivity|].
    rewrite socket_emit_eq. cbn [snd]. rewrite emitted_app, emitted_popen. reflexivity.
Qed.

Lemma scrub_task_const facts t :
  exists yielded ending,
    fst (SnapRAIDManager.scrub_with_progress (const_host facts) t) = Ok (yielded, ending)
    /\ emitted (snd (App.run_snapraid_scrub (const_host facts) t))
       = emitted t ++ map (pair "snapraid_progress") yielded
         ++ match ending with
            | Some e => [("snapraid_error", <["error" := PStr (exn_str e)]> ∅)]
            | None => []
            end.
Proof.
  unfold App.run_snapraid_scrub, SnapRAIDManager.scrub_with_progress,
    SnapRAIDManager.for_scrub_with_progress, SnapRAIDManager.for_stream_lines.
  erewrite bind_ok by apply popen_const.
  set (task := bind _ _).
  assert (T : task (const_host facts) t
              = match facts (Popen (SnapRAIDManager.snapraid_bin +:+ " scrub -p 10")) with
                | Threw msg => (Raise (OSError msg),
                                t ++ [Popen (SnapRAIDManager.snapraid_bin +:+ " scrub -p 10")])
                | Returned returncode stdout =>
                    (bind (for_each (PyStr.readlines stdout) (fun line =>
                       do line <- SnapRAIDManager.readline line;
                       if negb (line =? "") then
                         do timestamp <- SnapRAIDManager.now;
                         App.socket_emit "snapraid_progress"
                           (SnapRAIDManager.line_event "scrub" line timestamp)
                       else ret tt))
                      (fun _ =>
                         App.socket_emit "snapraid_progress"
                           (SnapRAIDManager.final_event "complete" "اكتمل Scrub"
                              (returncode =? 0)%Z)))
                      (const_host facts)
                      (t ++ [Popen (SnapRAIDManager.snapraid_bin +:+ " scrub -p 10")])
                end).
  { unfold task. erewrite bind_ok by apply popen_const.
    destruct (facts (Popen _)); reflexivity. }
  unfold try_except. rewrite T. clear T task.
  destruct (facts (Popen _)) as [rc out|msg].
  - destruct (stream_lines_const "scrub" facts (PyStr.readlines out) []
                (t ++ [Popen (SnapRAIDManager.snapraid_bin +:+ " scrub -p 10")])
                (t ++ [Popen (SnapRAIDManager.snapraid_bin +:+ " scrub -p 10")]))
      as (new & ending & t' & t2' & E & E2 & Em).
    cbn [app] in E. rewrite emitted_popen in Em.
    erewrite bind_ok by exact E.
    destruct ending as [e|].
    + exists new, (Some e). split; [reflexivity|].
      erewrite bind_raise by exact E2. rewrite socket_emit_eq. cbn [snd].
      rewrite emitted_app, Em, <- app_assoc. reflexivity.
    + erewrite bind_ok by exact E2.
      eexists _, None; (split; [reflexivity|]);
        rewrite socket_emit_eq; cbn [snd];
        rewrite emitted_app, Em, map_app, app_nil_r, <- app_assoc; reflexivity.
  - exists [], (Some (OSError msg)). split; [reflexivity|].
    rewrite socket_emit_eq. cbn [snd]. rewrite emitted_app, emitted_popen. reflexivity.
Qed.

Lemma try_except_emit_returns (c : M unit) event (data : PyExn -> gmap string PyVal) h t :
  fst (try_except c (fun e => App.socket_emit event (data e)) h t) = Ok tt.
Proof.
  unfold try_except. destruct (c h t) as [[[]|e] t']; reflexivity.
Qed.

(** X18: the background tasks never raise.  On a host that ignores the
    history, [run_snapraid_sync] pushes as [snapraid_progress] exactly the
    dictionaries [sync_with_progress] yields, in their order, and after them
    a single [snapraid_error] with the message of the exception when the
    generator ends with one: when the process cannot be started, before
    anything is yielded, or when a read of its output raises, after the
    lines read so far have been pushed and with no final event.  So does
    [run_snapraid_scrub] with [scrub_with_progress]. *)
Theorem background_tasks_deliver :
  (forall h t, fst (App.run_snapraid_sync h t) = Ok tt
               /\ fst (App.run_snapraid_scrub h t) = Ok tt)
  /\ forall facts t,
       (exists yielded ending,
          fst (SnapRAIDManager.sync_with_progress (const_host facts) t)
          = Ok (yielded, ending)
          /\ emitted (snd (App.run_snapraid_sync (const_host facts) t))
             = emitted t ++ map (pair "snapraid_progress") yielded
               ++ match ending with
                  | Some e => [("snapraid_error", <["error" := PStr (exn_str e)]> ∅)]
                  | None => []
                  end)
       /\ (exists yielded ending,
             fst (SnapRAIDManager.scrub_with_progress (const_host facts) t)
             = Ok (yielded, ending)
             /\ emitted (snd (App.run_snapraid_scrub (const_host facts) t))
                = emitted t ++ map (pair "snapraid_progress") yielded
                  ++ match ending with
                     | Some e => [("snapraid_error", <["error" := PStr (exn_str e)]> ∅)]
                     | None => []
                     end).
Proof.
  split.
  - intros h t. split; apply try_except_emit_returns.
  - intros facts t. split; [apply sync_task_const | apply scrub_task_const].
Qed.

(** The output has a byte that does not decode: the task pushes the line
    read before it and then the error; no final event follows. *)
Example sync_task_read_failure :
  emitted (snd (App.run_snapraid_sync undecodable_host []))
  = [ ("snapraid_progress",
       <["type" := PStr "sync"]>
         (<["message" := PStr "ok"]>
            (<["timestamp" := PStr "2026-01-01T00:00:00"]> ∅)));
      ("snapraid_error",
       <["error" := PStr "'utf-8' codec can't decode byte 0xff in position 0: invalid start byte"]> ∅) ].
Proof. vm_compute. reflexivity. Qed.

(** ** The automatic setup behind its route *)

Lemma forallb_weaken {A} (p q : A -> bool) l :
  (forall x, p x = true -> q x = true) -> forallb p l = true -> forallb q l = true.
Proof.
  intros W. rewrite !forallb_forall. auto.
Qed.

Lemma progress_only_emitted d :
  forallb progress_only d = true ->
  Forall (fun ev => fst ev = "operation_progress") (emitted d).
Proof.
  induction d as [|a d IH]; [constructor|]. cbn [forallb].
  intros H. apply andb_true_iff in H as [Ha Hd].
  destruct a; cbn [emitted]; auto.
  constructor; [|auto]. now apply String.eqb_eq in Ha.
Qed.

Lemma setup_automatic_progress disk_list h t :
  exists d,
    snd (DiskManager.setup_automatic disk_list (Some App.emit_progress) h t) = t ++ d
    /\ forallb progress_only d = true.
Proof.
  unfold DiskManager.setup_automatic.
  destruct (length disk_list <? 2)%nat.
  { exists []. cbn. now rewrite app_nil_r. }
  destruct (size_keys_eq disk_list h t) as (sizes & t1 & E & _ & Et).
  erewrite bind_ok by exact E.
  assert (Hr : forallb progress_only
                 (map (fun d => Run ("lsblk -bdn -o SIZE /dev/"
                                     +:+ PyStr.replace d "/dev/" "" +:+ " 2>/dev/null"))
                    disk_list) = true).
  { clear. induction disk_list; [reflexivity | exact IHdisk_list]. }
  destruct (map fst (sort_desc snd (combine disk_list sizes))) as [|parity data].
  { eexists. cbn [snd raise]. split; [exact Et | exact Hr]. }
  destruct (setup_manual_phases true parity data h t1) as (rest & Er & F & _).
  change (sink_of true) with (Some App.emit_progress) in Er.
  eexists. rewrite Er, Et, <- app_assoc. split; [reflexivity|].
  rewrite !forallb_app, Hr. cbn [andb]. apply andb_true_iff. split.
  - apply (forallb_weaken prepare_action).
    + intros a Ha. destruct a; try discriminate; [reflexivity | exact Ha].
    + unfold preparation_trace.
      rewrite !forallb_app, forallb_prepare_script, forallb_data_trace. reflexivity.
  - apply (forallb_weaken config_action); [|exact F].
    intros a Ha. destruct a; try reflexivity. exact Ha.
Qed.

(** X19: [POST /api/setup/auto] with fewer than two disks, or without a
    list, is refused before anything runs: the clients receive the start of
    the setup and then its error, and the answer is 500 with the message of
    the guard. *)
Theorem setup_auto_refuses_short_lists :
  forall disks h t,
    length (match disks with Some l => l | None => [] end) < 2 ->
    App.setup_auto disks h t
    = (Ok (App.JsonError "يجب توفير قرصين على الأقل" 500),
       t ++ [SocketEmit "setup_progress" (App.setup_data "start" "بدء الإعداد...");
             SocketEmit "setup_progress"
               (App.setup_data "error" "يجب توفير قرصين على الأقل")]).
Proof.
  intros disks h t L. unfold App.setup_auto.
  erewrite try_except_raise.
  2:{ erewrite bind_ok by apply socket_emit_eq.
      apply bind_raise. now apply setup_automatic_needs_two_disks. }
  erewrite bind_ok by apply socket_emit_eq.
  unfold ret. cbn [exn_str]. now rewrite <- app_assoc.
Qed.

Lemma setup_auto_refuses_short_lists_witness :
  length ["/dev/sdb"] < 2
  /\ fst (App.setup_auto (Some ["/dev/sdb"]) quiet_host [])
     = Ok (App.JsonError "يجب توفير قرصين على الأقل" 500)
  /\ commands (snd (App.setup_auto (Some ["/dev/sdb"]) quiet_host [])) = [].
Proof.
  assert (L : length ["/dev/sdb"] < 2) by (cbn; lia).
  split; [exact L|].
  rewrite (setup_auto_refuses_short_lists (Some ["/dev/sdb"]) quiet_host [] L).
  split; reflexivity.
Defined.

(** X20: on every request and host, [POST /api/setup/auto] returns an
    answer; the first event the clients receive is the start of the setup,
    the last one is its completion when the answer is 200 and its error,
    with the message of the answer, when it is 500; every event in between
    is an [operation_progress]. *)
Theorem setup_auto_events :
  forall disks h t,
    exists response done progress,
      App.setup_auto disks h t = (Ok response, t ++ done)
      /\ emitted done
         = ("setup_progress", App.setup_data "start" "بدء الإعداد...")
           :: progress
           ++ [("setup_progress",
                match response with
                | App.Json _ _ => App.setup_data "complete" "اكتمل الإعداد!"
                | App.JsonError error _ => App.setup_data "error" error
                end)]
      /\ Forall (fun ev => fst ev = "operation_progress") progress
      /\ App.status_code response
         = match response with App.Json _ _ => 200%Z | App.JsonError _ _ => 500%Z end.
Proof.
  intros disks h t. unfold App.setup_auto.
  set (disk_list := match disks with Some l => l | None => [] end).
  set (t0 := t ++ [SocketEmit "setup_progress" (App.setup_data "start" "بدء الإعداد...")]).
  destruct (setup_automatic_progress disk_list h t0) as (d & Ed & Fd).
  destruct (DiskManager.setup_automatic disk_list (Some App.emit_progress) h t0)
    as [[result|e] t1] eqn:E; cbn [snd] in Ed; subst t1.
  - erewrite try_except_ok.
    2:{ erewrite bind_ok by apply socket_emit_eq. fold t0.
        erewrite bind_ok by exact E.
        erewrite bind_ok by apply socket_emit_eq. reflexivity. }
    eexists _, _, (emitted d). split.
    { unfold t0. rewrite <- !app_assoc. reflexivity. }
    split.
    { cbn [app emitted]. rewrite emitted_app. reflexivity. }
    split; [now apply progress_only_emitted | reflexivity].
  - erewrite try_except_raise.
    2:{ erewrite bind_ok by apply socket_emit_eq. fold t0.
        apply bind_raise. exact E. }
    erewrite bind_ok by apply socket_emit_eq.
    eexists _, _, (emitted d). split.
    { unfold ret, t0. rewrite <- !app_assoc. reflexivity. }
    split.
    { cbn [app emitted]. rewrite emitted_app. reflexivity. }
    split; [now apply progress_only_emitted | reflexivity].
Qed.
(** ** The system disk in the inventory *)

Lemma dev_name_inj a b : "/dev/" +:+ a = "/dev/" +:+ b -> a = b.
Proof. intros H. now injection H. Qed.

Lemma reason_system_rule k :
  In k [1; 2; 3; 4; 5] -> rule_reason k = DiskManager.reason_system -> k = 2.
Proof.
  intros Hk. cbn [In] in Hk.
  destruct Hk as [<-|[<-|[<-|[<-|[<-|[]]]]]]; vm_compute; intros H;
    solve [reflexivity | discriminate H].
Qed.

Lemma detect_loop_system_disk system_disk names :
  forall acc h t,
  exists new_available new_excluded t',
    for_fold names acc (DiskManager.detect_one system_disk) h t
    = (Ok (fst acc ++ new_available, snd acc ++ new_excluded), t')
    /\ Forall (fun d => DiskManager.di_name d <> "/dev/" +:+ system_disk) new_available
    /\ Forall (fun d => DiskManager.di_reason d = Some DiskManager.reason_system ->
                        DiskManager.di_name d = "/dev/" +:+ system_disk
                        /\ system_disk <> "") new_excluded.
Proof.
  induction names as [|disk names IH]; intros acc h t.
  - exists [], [], t. cbn [for_fold]. unfold ret. rewrite !app_nil_r.
    destruct acc. repeat split; constructor.
  - cbn [for_fold].
    destruct (String.eqb_spec disk "") as [->|Hd].
    + unfold DiskManager.detect_one at 1. cbn [String.eqb].
      erewrite bind_ok by reflexivity. apply IH.
    + destruct (detect_one_eq system_disk acc disk h t Hd)
        as (reason & t1 & info & t2 & E & D & Hn & Hr & _).
      destruct (excluded_reason_eq h t system_disk disk) as [t1' E'].
      assert (Hreason : reason
                        = option_map rule_reason
                            (find (rule_applies h t system_disk disk) [1; 2; 3; 4; 5]))
        by congruence.
      clear E'.
      erewrite bind_ok by apply D.
      destruct reason as [r|].
      * destruct (IH (fst acc, snd acc ++ [info]) h t2)
          as (na & ne & t' & El & Fa & Fe).
        exists na, (info :: ne), t'. cbn [fst snd] in El.
        rewrite El, <- app_assoc. split; [reflexivity|]. split; [exact Fa|].
        constructor; [|exact Fe].
        rewrite Hr, Hn. intros Hs. injection Hs as ->.
        destruct (find (rule_applies h t system_disk disk) [1; 2; 3; 4; 5])
          as [k|] eqn:F; [|discriminate Hreason].
        cbn [option_map] in Hreason. assert (Hk : rule_reason k = DiskManager.reason_system)
          by congruence.
        apply find_some in F as [Hin Hrule].
        apply (reason_system_rule k Hin) in Hk. subst k.
        cbn [rule_applies] in Hrule. apply String.eqb_eq in Hrule. subst disk.
        split; [reflexivity | exact Hd].
      * destruct (IH (fst acc ++ [info], snd acc) h t2)
          as (na & ne & t' & El & Fa & Fe).
        exists (info :: na), ne, t'. cbn [fst snd] in El.
        rewrite El, <- app_assoc. split; [reflexivity|]. split; [|exact Fe].
        constructor; [|exact Fa].
        rewrite Hn. intros Hs. apply dev_name_inj in Hs. subst disk.
        destruct (find (rule_applies h t system_disk system_disk) [1; 2; 3; 4; 5])
          as [k|] eqn:F; [discriminate Hreason|].
        assert (H2 : rule_applies h t system_disk system_disk 2 = false).
        { apply (find_none _ _ F). cbn. auto. }
        cbn [rule_applies] in H2. now rewrite String.eqb_refl in H2.
Qed.

(** X21: the disk [get_system_disk] names is never among the available
    disks, and a disk excluded as the system disk is that disk.  When the
    system disk could not be determined (both [df] pipelines print nothing),
    the inventory still comes back, with /dev/ as system disk, and no disk is
    excluded as the system disk. *)
Theorem system_disk_never_available :
  forall h t system_disk inventory,
    fst (DiskManager.get_system_disk h t) = Ok system_disk ->
    fst (DiskManager.detect_all_disks h t) = Ok inventory ->
    DiskManager.system_disk inventory = "/dev/" +:+ system_disk
    /\ Forall (fun d => DiskManager.di_name d <> DiskManager.system_disk inventory)
         (DiskManager.available inventory)
    /\ Forall (fun d => DiskManager.di_reason d = Some DiskManager.reason_system ->
                        DiskManager.di_name d = DiskManager.system_disk inventory)
         (DiskManager.excluded inventory)
    /\ (system_disk = "" ->
        Forall (fun d => DiskManager.di_reason d <> Some DiskManager.reason_system)
          (DiskManager.excluded inventory)).
Proof.
  intros h t sd inventory Hsd Hinv. unfold DiskManager.detect_all_disks in Hinv.
  destruct (total_get_system_disk h t) as (sd' & t1 & E1).
  rewrite E1 in Hsd. injection Hsd as ->.
  erewrite bind_ok in Hinv by apply E1.
  erewrite bind_ok in Hinv by apply run_command_eq.
  match type of Hinv with context [for_fold ?names ?acc _] =>
    destruct (detect_loop_system_disk sd names acc h (t1 ++ [Run list_disks_command]))
      as (na & ne & t' & E & Fa & Fe) end.
  erewrite bind_ok in Hinv by apply E. cbn [fst snd app ret] in Hinv.
  injection Hinv as <-.
  cbn [DiskManager.system_disk DiskManager.available DiskManager.excluded].
  split; [reflexivity|]. split.
  { rewrite sort_desc_perm. exact Fa. }
  split.
  - eapply List.Forall_impl; [|exact Fe]. cbn beta. intros d Hd Hr. now apply Hd.
  - intros ->. eapply List.Forall_impl; [|exact Fe]. cbn beta. intros d Hd Hr.
    destruct (Hd Hr) as [_ Hne]. now apply Hne.
Qed.

Lemma system_disk_never_available_witness :
  exists inventory,
    fst (DiskManager.get_system_disk system_on_sda []) = Ok "sda"
    /\ fst (DiskManager.detect_all_disks system_on_sda []) = Ok inventory
    /\ map DiskManager.di_name (DiskManager.excluded inventory) = ["/dev/sda"]
    /\ Forall (fun d => DiskManager.di_name d <> "/dev/sda") (DiskManager.available inventory).
Proof.
  assert (Hs : fst (DiskManager.get_system_disk system_on_sda []) = Ok "sda")
    by (vm_compute; reflexivity).
  destruct (fst (DiskManager.detect_all_disks system_on_sda [])) as [inventory|e] eqn:E;
    [|vm_compute in E; discriminate E].
  exists inventory. split; [reflexivity|]. split; [reflexivity|].
  destruct (system_disk_never_available system_on_sda [] "sda" inventory Hs E)
    as (Hsys & Ha & _).
  split.
  - vm_compute in E. injection E as <-. reflexivity.
  - rewrite Hsys in Ha. exact Ha.
Defined.
(** ** The usage of the data disks *)

Lemma dict_set_keys {V} (k : string) (v : V) d k' :
  In k' (map fst (dict_set k v d)) <-> k' = k \/ In k' (map fst d).
Proof.
  induction d as [|[k0 v0] d IH]; cbn [dict_set map fst In].
  - intuition.
  - destruct (String.eqb_spec k0 k) as [->|Hne]; cbn [map fst In]; [intuition|].
    rewrite IH. intuition.
Qed.

Lemma dict_set_nodup {V} (k : string) (v : V) d :
  List.NoDup (map fst d) -> List.NoDup (map fst (dict_set k v d)).
Proof.
  induction d as [|[k0 v0] d IH]; cbn [dict_set map fst]; intros H.
  - constructor; [intros [] | constructor].
  - apply List.NoDup_cons_iff in H as [Hn Hd].
    destruct (String.eqb_spec k0 k) as [->|Hne]; cbn [map fst].
    + apply List.NoDup_cons_iff. auto.
    + apply List.NoDup_cons_iff. split; [|auto].
      rewrite dict_set_keys. intros [->|Hin]; [now apply Hne | now apply Hn].
Qed.

Lemma dict_set_entries {V} (k : string) (v : V) d k' v' :
  In (k', v') (dict_set k v d) -> (k' = k /\ v' = v) \/ In (k', v') d.
Proof.
  induction d as [|[k0 v0] d IH]; cbn [dict_set In].
  - intros [E|[]]. left. now injection E as <- <-.
  - destruct (String.eqb_spec k0 k) as [->|Hne]; cbn [In].
    + intros [E|Hin]; [left; now injection E as <- <- | right; now right].
    + intros [E|Hin]; [right; now left|].
      destruct (IH Hin) as [?|?]; [now left | right; now right].
Qed.

Lemma get_all_disks_status_loop :
  DiskManager.get_all_disks_status
  = (do out <- DiskManager.run_command "df -h | grep '/mnt/disk'";
     for_fold (PyStr.split out "010") [] df_line_step).
Proof. reflexivity. Qed.

Lemma df_loop lines :
  forall acc h t status t',
    for_fold lines acc df_line_step h t = (Ok status, t') ->
    List.NoDup (map fst acc) ->
    List.NoDup (map fst status)
    /\ (forall name u, In (name, u) status ->
          In (name, u) acc \/ exists line, In line lines /\ from_df_line line name u)
    /\ (forall name, In name (map fst acc) -> In name (map fst status))
    /\ (forall line, In line lines -> 6 <= length (PyStr.split_ws line) ->
          In (PyStr.last_field (nth 5 (PyStr.split_ws line) "") "/") (map fst status)).
Proof.
  induction lines as [|line lines IH]; intros acc h t status t' H Hnd.
  - cbn in H. injection H as <- <-. repeat split; auto. intros line [].
  - cbn [for_fold] in H. unfold bind in H.
    destruct (df_line_step acc line h t) as [[acc'|e] t1] eqn:S; [|discriminate H].
    assert (Step : (acc' = acc /\ length (PyStr.split_ws line) < 6)
                   \/ exists u, from_df_line line
                                  (PyStr.last_field (nth 5 (PyStr.split_ws line) "") "/") u
                                /\ acc' = dict_set
                                            (PyStr.last_field
                                               (nth 5 (PyStr.split_ws line) "") "/") u acc).
    { unfold df_line_step in S.
      destruct (String.eqb_spec line "") as [->|Hne].
      { left. cbn in S. injection S as <- _. split; [reflexivity | cbn; lia]. }
      destruct (Nat.leb_spec 6 (length (PyStr.split_ws line))) as [L|L].
      - right. unfold DiskManager.int_of, bind in S.
        destruct (PyStr.int _) as [usage|] eqn:I; [|discriminate S].
        cbn in S. injection S as <- _. eexists. split; [|reflexivity].
        unfold from_df_line. cbn [DiskManager.us_size DiskManager.us_used
                                  DiskManager.us_available DiskManager.us_usage].
        auto 10.
      - left. cbn in S. injection S as <- _. split; [reflexivity | lia]. }
    destruct Step as [[-> Hshort] | (u & Hu & ->)].
    + destruct (IH _ _ _ _ _ H Hnd) as (N & Snd & K & C).
      split; [exact N|]. split; [|split; [exact K|]].
      * intros name u Hin. destruct (Snd name u Hin) as [?|(l & Hl & Hf)]; [now left|].
        right. exists l. split; [now right | exact Hf].
      * intros l [<-|Hl] Hlen; [lia | now apply C].
    + destruct (IH _ _ _ _ _ H (dict_set_nodup _ _ _ Hnd)) as (N & Snd & K & C).
      split; [exact N|]. split; [|split].
      * intros name u' Hin. destruct (Snd name u' Hin) as [Hd|(l & Hl & Hf)].
        -- apply dict_set_entries in Hd as [[-> ->]|Hd]; [|now left].
           right. exists line. split; [now left | exact Hu].
        -- right. exists l. split; [now right | exact Hf].
      * intros name Hin. apply K. apply dict_set_keys. now right.
      * intros l [<-|Hl] Hlen; [|now apply C].
        apply K. apply dict_set_keys. now left.
Qed.

(** X22: when [get_all_disks_status] returns, the names of its dictionary
    are distinct, every entry is read off a line of [df] with six fields or
    more (the name after the last slash of the mount point, the usage as the
    integer before the percent sign), and every such line has an entry under
    its name; lines with fewer fields are skipped. *)
Theorem disks_status_from_df :
  forall h t status,
    fst (DiskManager.get_all_disks_status h t) = Ok status ->
    let lines := PyStr.split (command_output h t "df -h | grep '/mnt/disk'") "010" in
    List.NoDup (map fst status)
    /\ (forall name u, In (name, u) status ->
          exists line, In line lines /\ from_df_line line name u)
    /\ (forall line, In line lines -> 6 <= length (PyStr.split_ws line) ->
          In (PyStr.last_field (nth 5 (PyStr.split_ws line) "") "/") (map fst status)).
Proof.
  intros h t status H lines. rewrite get_all_disks_status_loop in H.
  erewrite bind_ok in H by apply run_command_eq. fold lines in H.
  destruct (for_fold lines [] df_line_step h _) as [r t'] eqn:E.
  cbn [fst] in H. subst r.
  destruct (df_loop lines [] h _ status t' E (List.NoDup_nil _)) as (N & Snd & _ & C).
  split; [exact N|]. split; [|exact C].
  intros name u Hin. destruct (Snd name u Hin) as [[]|Hl]. exact Hl.
Qed.

Lemma disks_status_from_df_witness :
  exists status,
    fst (DiskManager.get_all_disks_status df_host []) = Ok status
    /\ map fst status = ["disk1"; "disk2"]
    /\ List.NoDup (map fst status).
Proof.
  destruct (fst (DiskManager.get_all_disks_status df_host [])) as [status|e] eqn:E;
    [|vm_compute in E; discriminate E].
  exists status. split; [reflexivity|].
  destruct (disks_status_from_df df_host [] status E) as (N & _).
  split; [|exact N]. vm_compute in E. injection E as <-. reflexivity.
Defined.

(** The health check on the same host: one disk without a SMART verdict, one
    data disk above 90 percent. *)
Example check_health_two_issues :
  fst (DiskManager.check_health df_host [])
  = Ok {| DiskManager.overall := "warning";
          DiskManager.issues := ["/dev/sdb - صحة SMART سيئة"; "disk1 - ممتلئ بنسبة 95%"] |}.
Proof. vm_compute. reflexivity. Qed.
